(** * TeamSync: the employee data-access wrapper and the employee form dialog

    A shallow embedding of [src/services/api/employeeService.js] (the class
    [EmployeeService]) and of the [EmployeeModal] component that follows it
    in the same source file, with the properties the specification states
    about them.

    Conventions of the embedding.
    - A JavaScript value is a [value]. Numbers are [NaN] and the integers:
      the only arithmetic of the code is [parseInt]. [Int z] is the
      JavaScript number [z] for a safe integer [z] (at most 2^53 - 1 in
      magnitude): there a number holds every integer exactly, [String]
      prints it as a plain decimal numeral and [parseInt] reads the numeral
      back as it is. Beyond that range JavaScript rounds, and the
      embedding does not follow it: a statement about the value of a number
      carries the bound [isSafeInteger].
    - A JavaScript string is a [string] whose characters are the code units
      below 256.
    - The store's response envelope has the shape the wrapper consumes:
      [{success, message?, data?, results?: [{success, data?, errors?, message?}]}].
      A response may also be missing ([null] or [undefined]), and the call
      may throw any value.
    - [console.error], [toast.error], [toast.success], the calls of the SDK
      and the callbacks of the parent component are recorded, in order, in a
      trace of [event]s; an [async] function is its body run to completion.
    - Of the component, the state, the handlers [handleChange],
      [validateForm], [handleSubmit] and [handleClose] and the draft the
      effect on [employee] computes are embedded; the list of departments,
      filled from a service outside this source file, and the markup are
      not. *)

From Stdlib Require Import ZArith NArith String Ascii List Bool Lia.
From Stdlib Require Import DecimalString HexadecimalString DecimalN HexadecimalN.
From stdpp Require Import gmap strings.
Import ListNotations.

Local Open Scope string_scope.
Local Open Scope Z_scope.
Local Open Scope list_scope.

(** ** JavaScript values *)

Module Js.

Inductive num : Type :=
| NaN
| Int (z : Z).

#[warnings="-register-all"]
Inductive value : Type :=
| VUndefined
| VNull
| VBool (b : bool)
| VNum (n : num)
| VStr (s : string)
| VArr (items : list value)
| VObj (fields : list (string * value)).

(** [!!v]: the values that count as true in a condition. *)
Definition truthy (v : value) : bool :=
  match v with
  | VUndefined | VNull => false
  | VBool b => b
  | VNum NaN => false
  | VNum (Int z) => negb (z =? 0)
  | VStr s => negb (String.eqb s "")
  | VArr _ | VObj _ => true
  end.

Definition nullish (v : value) : bool :=
  match v with
  | VUndefined | VNull => true
  | _ => false
  end.

(** [a || b] on values (both already evaluated). *)
Definition or_else (a b : value) : value := if truthy a then a else b.

(** *** Strings *)

(** White space as [String.prototype.trim], [parseInt] and the class [\s]
    of a regular expression see it, among the code units below 256:
    TAB, LF, VT, FF, CR, SPACE and NBSP. *)
Definition is_space (c : ascii) : bool :=
  let n := nat_of_ascii c in
  ((9 <=? n) && (n <=? 13) || (n =? 32) || (n =? 160))%nat.

Fixpoint trimStart (s : string) : string :=
  match s with
  | String c s' => if is_space c then trimStart s' else s
  | EmptyString => EmptyString
  end.

Fixpoint trimEnd (s : string) : string :=
  match s with
  | String c s' =>
      let t := trimEnd s' in
      if is_space c && String.eqb t "" then "" else String c t
  | EmptyString => EmptyString
  end.

Definition trim (s : string) : string := trimEnd (trimStart s).

(** [s.split(sep)] for a one-character separator: the pieces between the
    separators, in order; never the empty array. *)
Fixpoint split (sep : ascii) (s : string) : list string :=
  match s with
  | EmptyString => [""]
  | String c s' =>
      if Ascii.eqb c sep then "" :: split sep s'
      else match split sep s' with
           | piece :: rest => String c piece :: rest
           | [] => [String c ""]
           end
  end.

(** [pieces.join(sep)] on an array of strings. *)
Fixpoint join (sep : string) (pieces : list string) : string :=
  match pieces with
  | [] => ""
  | [p] => p
  | p :: rest => p +:+ sep +:+ join sep rest
  end.

Definition string_of_N (n : N) : string :=
  DecimalString.NilEmpty.string_of_uint (N.to_uint n).

Definition string_of_Z (z : Z) : string :=
  if z <? 0 then "-" +:+ string_of_N (Z.to_N (- z)) else string_of_N (Z.to_N z).

(** [String(v)], as a template literal and [parseInt] apply it. An object is
    a plain one (no [toString] of its own). An integer is printed as a
    plain decimal numeral, as JavaScript prints the integers below 10^21 in
    magnitude. *)
Fixpoint to_string (v : value) : string :=
  match v with
  | VUndefined => "undefined"
  | VNull => "null"
  | VBool true => "true"
  | VBool false => "false"
  | VNum NaN => "NaN"
  | VNum (Int z) => string_of_Z z
  | VStr s => s
  | VArr items =>
      join "," (map (fun x => if nullish x then "" else to_string x) items)
  | VObj _ => "[object Object]"
  end.

(** *** parseInt *)

Definition dec_digit (c : ascii) : option (Decimal.uint -> Decimal.uint) :=
  match c with
  | "0" => Some Decimal.D0 | "1" => Some Decimal.D1 | "2" => Some Decimal.D2
  | "3" => Some Decimal.D3 | "4" => Some Decimal.D4 | "5" => Some Decimal.D5
  | "6" => Some Decimal.D6 | "7" => Some Decimal.D7 | "8" => Some Decimal.D8
  | "9" => Some Decimal.D9
  | _ => None
  end%char.

Definition hex_digit (c : ascii) : option (Hexadecimal.uint -> Hexadecimal.uint) :=
  match c with
  | "0" => Some Hexadecimal.D0 | "1" => Some Hexadecimal.D1
  | "2" => Some Hexadecimal.D2 | "3" => Some Hexadecimal.D3
  | "4" => Some Hexadecimal.D4 | "5" => Some Hexadecimal.D5
  | "6" => Some Hexadecimal.D6 | "7" => Some Hexadecimal.D7
  | "8" => Some Hexadecimal.D8 | "9" => Some Hexadecimal.D9
  | "a" | "A" => Some Hexadecimal.Da | "b" | "B" => Some Hexadecimal.Db
  | "c" | "C" => Some Hexadecimal.Dc | "d" | "D" => Some Hexadecimal.Dd
  | "e" | "E" => Some Hexadecimal.De | "f" | "F" => Some Hexadecimal.Df
  | _ => None
  end%char.

(** The longest prefix of digits, as a numeral. *)
Fixpoint dec_prefix (s : string) : Decimal.uint :=
  match s with
  | String c s' =>
      match dec_digit c with
      | Some d => d (dec_prefix s')
      | None => Decimal.Nil
      end
  | EmptyString => Decimal.Nil
  end.

Fixpoint hex_prefix (s : string) : Hexadecimal.uint :=
  match s with
  | String c s' =>
      match hex_digit c with
      | Some d => d (hex_prefix s')
      | None => Hexadecimal.Nil
      end
  | EmptyString => Hexadecimal.Nil
  end.

(** The digits of [parseInt] once the sign is gone: radix 16 after a
    prefix [0x] or [0X], radix 10 otherwise; [None] when no digit is there. *)
Definition parse_magnitude (s : string) : option N :=
  match s with
  | String "0" (String x s') =>
      if Ascii.eqb x "x" || Ascii.eqb x "X" then
        match hex_prefix s' with
        | Hexadecimal.Nil => None
        | h => Some (N.of_hex_uint h)
        end
      else Some (N.of_uint (dec_prefix s))
  | _ =>
      match dec_prefix s with
      | Decimal.Nil => None
      | d => Some (N.of_uint d)
      end
  end.

Definition parse_signed (s : string) : num :=
  let '(negative, body) :=
    match s with
    | String "-" s' => (true, s')
    | String "+" s' => (false, s')
    | _ => (false, s)
    end in
  match parse_magnitude body with
  | Some n => Int (if negative then - Z.of_N n else Z.of_N n)
  | None => NaN
  end.

(** [parseInt(v)], no radix given. The digits read are kept as the exact
    integer; JavaScript rounds it to a double, which is the same number up
    to 2^53. *)
Definition parseInt (v : value) : num := parse_signed (trimStart (to_string v)).

(** *** Property access *)

Fixpoint lookup_field (k : string) (fs : list (string * value)) : value :=
  match fs with
  | [] => VUndefined
  | (k', v) :: fs' => if String.eqb k k' then v else lookup_field k fs'
  end.

(** [v.k] for [v] neither [null] nor [undefined] and [k] none of the
    built-in properties: an own field of an object, [undefined] elsewhere. *)
Definition prop (v : value) (k : string) : value :=
  match v with
  | VObj fs => lookup_field k fs
  | _ => VUndefined
  end.

(** [v?.k] *)
Definition opt_prop (v : value) (k : string) : value :=
  if nullish v then VUndefined else prop v k.

(** The error object the engine throws; the text is the engine's. *)
Definition TypeError (msg : string) : value :=
  VObj [("name", VStr "TypeError"); ("message", VStr msg)].

End Js.
Import Js.

(** ** The record store's SDK, as the wrapper consumes it *)

Module ErrorEntry.
Record t : Type := { fieldLabel : value; message : value }.
End ErrorEntry.

Module Result.
Record t : Type := {
  success : bool;
  data : value;
  errors : option (list ErrorEntry.t);
  message : value
}.
End Result.

Module Response.
Record t : Type := {
  success : bool;
  message : value;
  data : value;
  results : option (list Result.t)
}.
End Response.

(** One entry of [params.records]. [Id] is there for an update only. *)
Record EmployeeRecord : Type := {
  Id : option value;
  Name : value;
  first_name_c : value;
  last_name_c : value;
  email_c : value;
  phone_c : value;
  role_c : value;
  department_id_c : value;
  hire_date_c : value;
  status_c : value;
  avatar_c : value
}.

(** A call of the SDK with its table and [params]; [fields] lists the
    [Name]s of [params.fields]. *)
Inductive request : Type :=
| fetchRecords (table : string) (fields : list string)
| getRecordById (table : string) (id : value) (fields : list string)
| createRecord (table : string) (records : list EmployeeRecord)
| updateRecord (table : string) (records : list EmployeeRecord)
| deleteRecord (table : string) (RecordIds : list value).

(** What awaiting the call gives: the promise rejects with a thrown value,
    or resolves to a response ([None]: [null] or [undefined]). *)
Inductive outcome : Type :=
| Rejects (error : value)
| Resolves (response : option Response.t).

Definition ApperClient : Type := request -> outcome.

(** ** Effects *)

Inductive event : Type :=
| ConsoleError (args : list value)
  (** [console.error(`Failed to <verb> <n> records:<JSON of the failed>`)],
      the message kept unrendered *)
| ConsoleErrorFailed (verb : string) (failed : list Result.t)
| ToastError (msg : value)
| ToastSuccess (msg : value)
| SdkCall (req : request)
| PreventDefault
| OnSuccess
| OnClose.

Definition is_toast (e : event) : bool :=
  match e with
  | ToastError _ | ToastSuccess _ => true
  | _ => false
  end.

Definition is_sdk_call (e : event) : bool :=
  match e with
  | SdkCall _ => true
  | _ => false
  end.

Inductive completion (A : Type) : Type :=
| Normal (a : A)
| Throw (e : value).
Arguments Normal {A} a.
Arguments Throw {A} e.

(** A piece of code over the mutable state [S]: the state it leaves, the
    events it emits, and how it completes. *)
Definition js (S A : Type) : Type := S -> S * list event * completion A.

Section Monad.
Context {S : Type}.

Definition ret {A} (a : A) : js S A := fun s => (s, [], Normal a).

Definition throw {A} (e : value) : js S A := fun s => (s, [], Throw e).

Definition bind {A B} (m : js S A) (k : A -> js S B) : js S B :=
  fun s =>
    match m s with
    | (s1, t1, Normal a) =>
        let '(s2, t2, c) := k a s1 in (s2, t1 ++ t2, c)
    | (s1, t1, Throw e) => (s1, t1, Throw e)
    end.

Definition emit (e : event) : js S unit := fun s => (s, [e], Normal tt).

Definition get_state : js S S := fun s => (s, [], Normal s).

Definition set_state (s' : S) : js S unit := fun _ => (s', [], Normal tt).

(** [try { body } catch (error) { handler }] *)
Definition try_catch {A} (body : js S A) (handler : value -> js S A) : js S A :=
  fun s =>
    match body s with
    | (s1, t1, Throw e) =>
        let '(s2, t2, c) := handler e s1 in (s2, t1 ++ t2, c)
    | r => r
    end.

(** [try { body } finally { final }], for a [final] that completes
    normally. *)
Definition try_finally {A} (body : js S A) (final : js S unit) : js S A :=
  fun s =>
    let '(s1, t1, c) := body s in
    match final s1 with
    | (s2, t2, Normal _) => (s2, t1 ++ t2, c)
    | (s2, t2, Throw e) => (s2, t1 ++ t2, Throw e)
    end.
End Monad.

Notation "x <- m ;; k" := (bind m (fun x => k))
(at level 100, m at next level, right associativity).
Notation "m ;; k" := (bind m (fun _ => k))
(at level 100, right associativity).

Section Statements.
Context {S : Type}.

Definition when (b : bool) (m : js S unit) : js S unit :=
  if b then m else ret tt.

(** [items.forEach(body)] *)
Fixpoint for_each {A} (items : list A) (body : A -> js S unit) : js S unit :=
  match items with
  | [] => ret tt
  | x :: rest => body x ;; for_each rest body
  end.

(** [a || b], [b] evaluated only when [a] is falsy. *)
Definition or_lazy (a : value) (b : js S value) : js S value :=
  if truthy a then ret a else b.

(** [v.k]: a [TypeError] on [null] and [undefined]. *)
Definition get (v : value) (k : string) : js S value :=
  if nullish v then
    throw (TypeError ("Cannot read properties of " +:+ to_string v +:+
                      " (reading '" +:+ k +:+ "')"))
  else ret (prop v k).

Definition console_error (args : list value) : js S unit :=
  emit (ConsoleError args).

Definition toast_error (msg : value) : js S unit := emit (ToastError msg).

Definition toast_success (msg : value) : js S unit := emit (ToastSuccess msg).

(** [v?.split(' ')]: skipped on [null] and [undefined]; only a string has
    a [split] to call. *)
Definition opt_split (v : value) : js S (option (list string)) :=
  match v with
  | VUndefined | VNull => ret None
  | VStr s => ret (Some (split " " s))
  | _ => throw (TypeError "employeeData.fullName?.split is not a function")
  end.
End Statements.

(** ** class EmployeeService *)

Module EmployeeService.

Record t : Type := {
  apperClient : option ApperClient;
  tableName : string
}.

Definition employee_fields : list string :=
  ["Name"; "first_name_c"; "last_name_c"; "email_c"; "phone_c"; "role_c";
   "department_id_c"; "hire_date_c"; "status_c"; "avatar_c"].

Section Service.
(** [window.ApperSDK]: the client [new ApperClient({...})] builds when the
    SDK is loaded, [None] when it is not. *)
Variable ApperSDK : option ApperClient.

Definition initializeClient : js t unit :=
  this <- get_state ;;
  match ApperSDK with
  | Some client =>
      set_state {| apperClient := Some client; tableName := tableName this |}
  | None => ret tt
  end.

Definition constructor : t :=
  let this := {| apperClient := None; tableName := "employee_c" |} in
  fst (fst (initializeClient this)).

(** [if (!this.apperClient) this.initializeClient();] *)
Definition ensure_client : js t unit :=
  this <- get_state ;;
  match apperClient this with
  | Some _ => ret tt
  | None => initializeClient
  end.

(** [await this.apperClient.<method>(this.tableName, ...)], the request
    built from the table name. *)
Definition call (method : string) (req : string -> request)
  : js t (option Response.t) :=
  this <- get_state ;;
  match apperClient this with
  | None =>
      throw (TypeError ("Cannot read properties of null (reading '" +:+
                        method +:+ "')"))
  | Some client =>
      emit (SdkCall (req (tableName this))) ;;
      match client (req (tableName this)) with
      | Rejects error => throw error
      | Resolves response => ret response
      end
  end.

(** Reading a property of [response]: a [TypeError] when there is no
    response. *)
Definition deref (response : option Response.t) (k : string)
  : js t Response.t :=
  match response with
  | Some r => ret r
  | None =>
      throw (TypeError ("Cannot read properties of undefined (reading '" +:+
                        k +:+ "')"))
  end.

(** The body of every [catch (error)] of the class. *)
Definition report (prefix : value) (error : value) : js t unit :=
  let m := opt_prop (opt_prop (opt_prop error "response") "data") "message" in
  if truthy m then console_error [prefix; m]
  else (msg <- get error "message" ;; console_error [msg]).

Definition getAll : js t value :=
  try_catch
    (ensure_client ;;
     response <- call "fetchRecords" (fun table => fetchRecords table employee_fields) ;;
     r <- deref response "success" ;;
     if negb (Response.success r) then
       console_error [Response.message r] ;;
       toast_error (Response.message r) ;;
       ret (VArr [])
     else ret (or_else (Response.data r) (VArr [])))
    (fun error =>
       report (VStr "Error fetching employees:") error ;;
       ret (VArr [])).

Definition getById (id : value) : js t value :=
  try_catch
    (ensure_client ;;
     response <- call "getRecordById"
                   (fun table => getRecordById table id employee_fields) ;;
     match response with
     | None => ret VNull
     | Some r =>
         if negb (truthy (Response.data r)) then ret VNull
         else ret (Response.data r)
     end)
    (fun error =>
       report (VStr ("Error fetching employee with ID " +:+ to_string id +:+ ":"))
              error ;;
       ret VNull).

(** The object literal of [params.records], the same in [create] and in
    [update] but for [Id]; its properties are evaluated in order. In the
    chains [a || b || ''] of the plain fields both properties are read up
    front: reading one has no effect once [employeeData] is known to be an
    object. *)
Definition build_record (id : option value) (employeeData : value)
  : js t EmployeeRecord :=
  fullName <- get employeeData "fullName" ;;
  Name_ <- or_lazy fullName
             (first <- get employeeData "first_name_c" ;;
              last <- get employeeData "last_name_c" ;;
              ret (VStr (trim (to_string (or_else first (VStr "")) +:+ " " +:+
                               to_string (or_else last (VStr "")))))) ;;
  first <- get employeeData "first_name_c" ;;
  first_name_c_ <- or_lazy first
             (fullName <- get employeeData "fullName" ;;
              pieces <- opt_split fullName ;;
              ret (or_else (match pieces with
                            | Some l => VStr (hd "" l)
                            | None => VUndefined
                            end) (VStr ""))) ;;
  last <- get employeeData "last_name_c" ;;
  last_name_c_ <- or_lazy last
             (fullName <- get employeeData "fullName" ;;
              pieces <- opt_split fullName ;;
              ret (or_else (match pieces with
                            | Some l => VStr (join " " (tl l))
                            | None => VUndefined
                            end) (VStr ""))) ;;
  email_c_ <- get employeeData "email_c" ;;
  email <- get employeeData "email" ;;
  phone_c_ <- get employeeData "phone_c" ;;
  phone <- get employeeData "phone" ;;
  role_c_ <- get employeeData "role_c" ;;
  role <- get employeeData "role" ;;
  department_id_c_ <- get employeeData "department_id_c" ;;
  departmentId <- get employeeData "departmentId" ;;
  hire_date_c_ <- get employeeData "hire_date_c" ;;
  hireDate <- get employeeData "hireDate" ;;
  status_c_ <- get employeeData "status_c" ;;
  status <- get employeeData "status" ;;
  avatar_c_ <- get employeeData "avatar_c" ;;
  avatar <- get employeeData "avatar" ;;
  ret {| Id := id;
         Name := Name_;
         first_name_c := first_name_c_;
         last_name_c := last_name_c_;
         email_c := or_else (or_else email_c_ email) (VStr "");
         phone_c := or_else (or_else phone_c_ phone) (VStr "");
         role_c := or_else (or_else role_c_ role) (VStr "");
         department_id_c :=
           VNum (parseInt (or_else (or_else department_id_c_ departmentId)
                                   (VNum (Int 0))));
         hire_date_c := or_else (or_else hire_date_c_ hireDate) (VStr "");
         status_c := or_else (or_else status_c_ status) (VStr "active");
         avatar_c := or_else (or_else avatar_c_ avatar) (VStr "") |}.

(** The toasts for the entries of [results] that failed, as [create] and
    [update] emit them. *)
Definition toast_failed (failed : list Result.t) : js t unit :=
  for_each failed (fun record =>
    match Result.errors record with
    | Some errors =>
        for_each errors (fun error =>
          toast_error (VStr (to_string (ErrorEntry.fieldLabel error) +:+ ": " +:+
                             to_string (ErrorEntry.message error))))
    | None => ret tt
    end ;;
    when (truthy (Result.message record)) (toast_error (Result.message record))).

(** What [create] and [update] do with the awaited response. *)
Definition single_result (verb : string) (response : option Response.t)
  : js t value :=
  r <- deref response "success" ;;
  if negb (Response.success r) then
    console_error [Response.message r] ;;
    toast_error (Response.message r) ;;
    ret VNull
  else
    match Response.results r with
    | Some results =>
        let successful := List.filter (fun result => Result.success result) results in
        let failed := List.filter (fun result => negb (Result.success result)) results in
        when (0 <? length failed)%nat
          (emit (ConsoleErrorFailed verb failed) ;;
           toast_failed failed) ;;
        ret (match successful with
             | first :: _ => Result.data first
             | [] => VNull
             end)
    | None => ret VNull
    end.

Definition create (employeeData : value) : js t value :=
  try_catch
    (ensure_client ;;
     record <- build_record None employeeData ;;
     response <- call "createRecord" (fun table => createRecord table [record]) ;;
     single_result "create" response)
    (fun error =>
       report (VStr "Error creating employee:") error ;;
       ret VNull).

Definition update (id : value) (employeeData : value) : js t value :=
  try_catch
    (ensure_client ;;
     record <- build_record (Some id) employeeData ;;
     response <- call "updateRecord" (fun table => updateRecord table [record]) ;;
     single_result "update" response)
    (fun error =>
       report (VStr "Error updating employee:") error ;;
       ret VNull).

Definition delete (id : value) : js t value :=
  try_catch
    (ensure_client ;;
     response <- call "deleteRecord" (fun table => deleteRecord table [id]) ;;
     r <- deref response "success" ;;
     if negb (Response.success r) then
       console_error [Response.message r] ;;
       toast_error (Response.message r) ;;
       ret (VBool false)
     else
       match Response.results r with
       | Some results =>
           let successful := List.filter (fun result => Result.success result) results in
           let failed := List.filter (fun result => negb (Result.success result)) results in
           when (0 <? length failed)%nat
             (emit (ConsoleErrorFailed "delete" failed) ;;
              for_each failed (fun record =>
                when (truthy (Result.message record))
                     (toast_error (Result.message record)))) ;;
           ret (VBool (0 <? length successful)%nat)
       | None => ret (VBool false)
       end)
    (fun error =>
       report (VStr "Error deleting employee:") error ;;
       ret (VBool false)).
End Service.

End EmployeeService.

(** ** Regular expressions, as far as the form's pattern needs them *)

Module Regex.

Inductive t : Type :=
| Empty                        (* matches nothing *)
| Eps                          (* matches the empty string *)
| Class (p : ascii -> bool)    (* one character of a class *)
| Seq (r1 r2 : t)
| Alt (r1 r2 : t)
| Star (r : t).

(** [r+] *)
Definition Plus (r : t) : t := Seq r (Star r).

Definition Char (c : ascii) : t := Class (Ascii.eqb c).

Fixpoint nullable (r : t) : bool :=
  match r with
  | Empty => false
  | Eps => true
  | Class _ => false
  | Seq r1 r2 => nullable r1 && nullable r2
  | Alt r1 r2 => nullable r1 || nullable r2
  | Star _ => true
  end.

(** What is left of [r] once it has read [c]. *)
Fixpoint deriv (c : ascii) (r : t) : t :=
  match r with
  | Empty | Eps => Empty
  | Class p => if p c then Eps else Empty
  | Seq r1 r2 =>
      if nullable r1 then Alt (Seq (deriv c r1) r2) (deriv c r2)
      else Seq (deriv c r1) r2
  | Alt r1 r2 => Alt (deriv c r1) (deriv c r2)
  | Star r1 => Seq (deriv c r1) (Star r1)
  end.

(** [/^r$/.test(s)]: between the two anchors, and with no flag, the pattern
    has to take the whole of [s]. *)
Fixpoint test (r : t) (s : string) : bool :=
  match s with
  | EmptyString => nullable r
  | String c s' => test (deriv c r) s'
  end.

(** The strings of a pattern. *)
Inductive Matches : t -> string -> Prop :=
| MEps : Matches Eps ""
| MClass p c : p c = true -> Matches (Class p) (String c "")
| MSeq r1 r2 s1 s2 :
    Matches r1 s1 -> Matches r2 s2 -> Matches (Seq r1 r2) (s1 +:+ s2)
| MAltL r1 r2 s : Matches r1 s -> Matches (Alt r1 r2) s
| MAltR r1 r2 s : Matches r2 s -> Matches (Alt r1 r2) s
| MStarNil r : Matches (Star r) ""
| MStarApp r s1 s2 :
    Matches r s1 -> Matches (Star r) s2 -> Matches (Star r) (s1 +:+ s2).

End Regex.

(** ** The EmployeeModal component *)

Module EmployeeModal.

(** The draft. The text inputs hold strings; [departmentId] is the string
    of the select, or whatever [employee.department_id_c] was when the
    dialog opened on an employee. A draft loaded from an employee whose
    name, email, phone or role is stored as something else than a string is
    not covered: on such a draft [validateForm] fails at [trim]. *)
Record FormData : Type := {
  fullName : string;
  email : string;
  phone : string;
  role : string;
  departmentId : value;
  hireDate : string;
  status : string
}.

(** The argument of [useState] for [formData], and of [setFormData] in
    [handleClose]. *)
Definition emptyForm : FormData :=
  {| fullName := ""; email := ""; phone := ""; role := "";
     departmentId := VStr ""; hireDate := ""; status := "active" |}.

(** [formData] as the object the service receives. *)
Definition object_of (f : FormData) : value :=
  VObj [("fullName", VStr (fullName f)); ("email", VStr (email f));
        ("phone", VStr (phone f)); ("role", VStr (role f));
        ("departmentId", departmentId f); ("hireDate", VStr (hireDate f));
        ("status", VStr (status f))].

(** The component's state ([departments], filled from a service outside
    this source file, is left out) and the module-level [employeeService]
    it calls. *)
Record World : Type := {
  formData : FormData;
  loading : bool;
  errors : gmap string string;
  employeeService : EmployeeService.t
}.

(** [/^[^\s@]+@[^\s@]+\.[^\s@]+$/] *)
Definition not_space_at (c : ascii) : bool :=
  negb (is_space c || Ascii.eqb c "@").

Definition email_pattern : Regex.t :=
  Regex.Seq (Regex.Plus (Regex.Class not_space_at))
    (Regex.Seq (Regex.Char "@")
       (Regex.Seq (Regex.Plus (Regex.Class not_space_at))
          (Regex.Seq (Regex.Char ".")
             (Regex.Plus (Regex.Class not_space_at))))).

(** [!s] for a string *)
Definition is_empty (s : string) : bool := String.eqb s "".

Section Component.
Variable ApperSDK : option ApperClient.
(** The props: [employee] is the record being edited, falsy for a new
    one; [onSuccess] and [onClose] are the parent's, seen as events. *)
Variable employee : value.

Definition setFormData (f : FormData -> FormData) : js World unit :=
  w <- get_state ;;
  set_state {| formData := f (formData w); loading := loading w;
               errors := errors w; employeeService := employeeService w |}.

Definition setLoading (b : bool) : js World unit :=
  w <- get_state ;;
  set_state {| formData := formData w; loading := b;
               errors := errors w; employeeService := employeeService w |}.

Definition setErrors (f : gmap string string -> gmap string string)
  : js World unit :=
  w <- get_state ;;
  set_state {| formData := formData w; loading := loading w;
               errors := f (errors w); employeeService := employeeService w |}.

(** A call of a method of [employeeService]. *)
Definition on_service {A} (m : js EmployeeService.t A) : js World A :=
  fun w =>
    let '(svc, trace, c) := m (employeeService w) in
    ({| formData := formData w; loading := loading w;
        errors := errors w; employeeService := svc |}, trace, c).

(** [newErrors] as [validateForm] fills it, statement by statement. *)
Definition newErrors (f : FormData) : gmap string string :=
  let e : gmap string string := ∅ in
  let e := if is_empty (trim (fullName f))
           then <["fullName" := "Full name is required"]> e else e in
  let e := if is_empty (trim (email f))
           then <["email" := "Email is required"]> e else e in
  let e := if is_empty (trim (phone f))
           then <["phone" := "Phone is required"]> e else e in
  let e := if is_empty (trim (role f))
           then <["role" := "Role is required"]> e else e in
  let e := if negb (truthy (departmentId f))
           then <["departmentId" := "Department is required"]> e else e in
  let e := if is_empty (hireDate f)
           then <["hireDate" := "Hire date is required"]> e else e in
  let e := if negb (is_empty (email f)) && negb (Regex.test email_pattern (email f))
           then <["email" := "Please enter a valid email address"]> e else e in
  e.

Definition validateForm : js World bool :=
  w <- get_state ;;
  let e := newErrors (formData w) in
  setErrors (fun _ => e) ;;
  ret (size e =? 0)%nat.

Definition handleSubmit : js World value :=
  w <- get_state ;;
  emit PreventDefault ;;
  valid <- validateForm ;;
  if negb valid then ret VUndefined
  else
    setLoading true ;;
    try_finally
      (try_catch
         ((if truthy employee then
             id <- get employee "Id" ;;
             on_service (EmployeeService.update ApperSDK id (object_of (formData w))) ;;
             toast_success (VStr "Employee updated successfully")
           else
             on_service (EmployeeService.create ApperSDK (object_of (formData w))) ;;
             toast_success (VStr "Employee created successfully")) ;;
          emit OnSuccess ;;
          emit OnClose ;;
          ret VUndefined)
         (fun error =>
            msg <- get error "message" ;;
            toast_error (or_else msg (VStr "Failed to save employee")) ;;
            ret VUndefined))
      (setLoading false).

Definition handleClose : js World value :=
  setFormData (fun _ => emptyForm) ;;
  setErrors (fun _ => ∅) ;;
  emit OnClose ;;
  ret VUndefined.

(** The [name]s of the inputs [handleChange] is attached to. *)
Inductive field : Type :=
| FullName | Email | Phone | Role | DepartmentId | HireDate | Status.

Definition name_of (x : field) : string :=
  match x with
  | FullName => "fullName"
  | Email => "email"
  | Phone => "phone"
  | Role => "role"
  | DepartmentId => "departmentId"
  | HireDate => "hireDate"
  | Status => "status"
  end.

(** [{...prev, [name]: value}]; the value of an input is a string. *)
Definition set_field (x : field) (v : string) (prev : FormData) : FormData :=
  {| fullName := match x with FullName => v | _ => fullName prev end;
     email := match x with Email => v | _ => email prev end;
     phone := match x with Phone => v | _ => phone prev end;
     role := match x with Role => v | _ => role prev end;
     departmentId := match x with DepartmentId => VStr v | _ => departmentId prev end;
     hireDate := match x with HireDate => v | _ => hireDate prev end;
     status := match x with Status => v | _ => status prev end |}.

(** [errors[name]] as a condition: a message is there and is not empty. *)
Definition has_error (e : gmap string string) (name : string) : bool :=
  match e !! name with
  | Some message => negb (is_empty message)
  | None => false
  end.

Definition handleChange (name : field) (value : string) : js World unit :=
  w <- get_state ;;
  setFormData (set_field name value) ;;
  when (has_error (errors w) (name_of name))
       (setErrors (fun prev => <[name_of name := ""]> prev)).

(** The effect on [employee]: the object it passes to [setFormData], [None]
    when [employee] is falsy and nothing is set. *)
Definition employee_draft : option value :=
  if truthy employee then
    Some (VObj
      [("fullName",
        or_else (prop employee "Name")
          (VStr (trim (to_string (or_else (prop employee "first_name_c") (VStr ""))
                       +:+ " " +:+
                       to_string (or_else (prop employee "last_name_c") (VStr ""))))));
       ("email", or_else (prop employee "email_c") (VStr ""));
       ("phone", or_else (prop employee "phone_c") (VStr ""));
       ("role", or_else (prop employee "role_c") (VStr ""));
       ("departmentId", or_else (prop employee "department_id_c") (VStr ""));
       ("hireDate", or_else (prop employee "hire_date_c") (VStr ""));
       ("status", or_else (prop employee "status_c") (VStr "active"))])
  else None.
End Component.

End EmployeeModal.

(** ** Reading a run *)

Definition state_of {S A} (r : S * list event * completion A) : S := fst (fst r).
Definition trace_of {S A} (r : S * list event * completion A) : list event :=
  snd (fst r).
Definition completion_of {S A} (r : S * list event * completion A)
  : completion A := snd r.

(** The requests a run sent to the store, in order. *)
Fixpoint sent (trace : list event) : list request :=
  match trace with
  | [] => []
  | SdkCall req :: rest => req :: sent rest
  | _ :: rest => sent rest
  end.

(** The toasts of a run, in order. *)
Definition toasts (trace : list event) : list event := List.filter is_toast trace.

(** The client a method of the service works with, once
    [if (!this.apperClient) this.initializeClient()] has run. *)
Definition client_in_use (ApperSDK : option ApperClient) (this : EmployeeService.t)
  : option ApperClient :=
  match EmployeeService.apperClient this with
  | Some client => Some client
  | None => ApperSDK
  end.

Definition ready (ApperSDK : option ApperClient) (this : EmployeeService.t)
  : EmployeeService.t :=
  {| EmployeeService.apperClient := client_in_use ApperSDK this;
     EmployeeService.tableName := EmployeeService.tableName this |}.

(** The SDK call threw an error (a value other than [null] and
    [undefined]), or the response reports failure. *)
Definition failed (o : outcome) : bool :=
  match o with
  | Rejects error => negb (nullish error)
  | Resolves (Some r) => negb (Response.success r)
  | Resolves None => false
  end.

(** The records of [params.records] a run sent to the store with
    [createRecord] or [updateRecord]. *)
Definition records_of (req : request) : list EmployeeRecord :=
  match req with
  | createRecord _ records | updateRecord _ records => records
  | _ => []
  end.

Definition records_sent (trace : list event) : list EmployeeRecord :=
  flat_map records_of (sent trace).

(** [s.includes(c)] for one character. *)
Fixpoint has_char (c : ascii) (s : string) : bool :=
  match s with
  | EmptyString => false
  | String x s' => Ascii.eqb x c || has_char c s'
  end.

(** The number of times [c] occurs in [s]. *)
Fixpoint count_char (c : ascii) (s : string) : nat :=
  match s with
  | EmptyString => 0
  | String x s' => (if Ascii.eqb x c then 1 else 0) + count_char c s'
  end.

(** Some character of [s] is white space. *)
Fixpoint has_space (s : string) : bool :=
  match s with
  | EmptyString => false
  | String x s' => is_space x || has_space s'
  end.

(** The names of a record as [fullName] gives them: [Name] is [fullName],
    [first_name_c] its first piece between spaces, [last_name_c] the other
    pieces joined by spaces again. *)
Definition names_from (fullName : string) (record : EmployeeRecord) : Prop :=
  Name record = VStr fullName
  /\ first_name_c record = VStr (hd "" (split " " fullName))
  /\ last_name_c record = VStr (join " " (tl (split " " fullName))).

(** Every character of [s] is in the class [p]. *)
Fixpoint all_chars (p : ascii -> bool) (s : string) : bool :=
  match s with
  | EmptyString => true
  | String x s' => p x && all_chars p s'
  end.

(** A run of one or more characters that are neither white space nor "@". *)
Definition atom (s : string) : Prop :=
  s <> "" /\ all_chars EmployeeModal.not_space_at s = true.

(** [local@domain.tld], each part an [atom]: the strings the form takes for
    an email address. *)
Definition email_shape (s : string) : Prop :=
  exists a b c,
    s = a +:+ "@" +:+ b +:+ "." +:+ c /\ atom a /\ atom b /\ atom c.

(** The state of the dialog with [errors] replaced. *)
Definition with_errors (w : EmployeeModal.World) (e : gmap string string)
  : EmployeeModal.World :=
  {| EmployeeModal.formData := EmployeeModal.formData w;
     EmployeeModal.loading := EmployeeModal.loading w;
     EmployeeModal.errors := e;
     EmployeeModal.employeeService := EmployeeModal.employeeService w |}.

(** Empty or white space only. *)
Definition blank (s : string) : bool := all_chars is_space s.

(** Some required field of the draft is missing. *)
Definition missing (f : EmployeeModal.FormData) : bool :=
  blank (EmployeeModal.fullName f) || blank (EmployeeModal.email f)
  || blank (EmployeeModal.phone f) || blank (EmployeeModal.role f)
  || negb (truthy (EmployeeModal.departmentId f))
  || EmployeeModal.is_empty (EmployeeModal.hireDate f).

(** The message [validateForm] leaves for the email field. *)
Definition email_error (f : EmployeeModal.FormData) : option string :=
  if negb (EmployeeModal.is_empty (EmployeeModal.email f))
     && negb (Regex.test EmployeeModal.email_pattern (EmployeeModal.email f))
  then Some "Please enter a valid email address"
  else if EmployeeModal.is_empty (trim (EmployeeModal.email f))
       then Some "Email is required"
       else None.

(** A complete draft, for the worked instances. *)
Definition jane_draft : EmployeeModal.FormData :=
  {| EmployeeModal.fullName := "Jane Doe";
     EmployeeModal.email := "jane@example.com";
     EmployeeModal.phone := "555 0100";
     EmployeeModal.role := "Engineer";
     EmployeeModal.departmentId := VStr "12";
     EmployeeModal.hireDate := "2024-03-01";
     EmployeeModal.status := "active" |}.

(** The dialog holding the draft [f], the service answering every call
    with [o]. *)
Definition dialog (f : EmployeeModal.FormData) (o : outcome) : EmployeeModal.World :=
  {| EmployeeModal.formData := f;
     EmployeeModal.loading := false;
     EmployeeModal.errors := ∅;
     EmployeeModal.employeeService :=
       EmployeeService.constructor (Some (fun _ : request => o)) |}.

Definition with_email (f : EmployeeModal.FormData) (e : string)
  : EmployeeModal.FormData :=
  {| EmployeeModal.fullName := EmployeeModal.fullName f;
     EmployeeModal.email := e;
     EmployeeModal.phone := EmployeeModal.phone f;
     EmployeeModal.role := EmployeeModal.role f;
     EmployeeModal.departmentId := EmployeeModal.departmentId f;
     EmployeeModal.hireDate := EmployeeModal.hireDate f;
     EmployeeModal.status := EmployeeModal.status f |}.

(** [m] leaves the draft as it found it. *)
Definition keeps_draft {A} (m : js EmployeeModal.World A) : Prop :=
  forall w, EmployeeModal.formData (state_of (m w)) = EmployeeModal.formData w.

(** [tame m]: [m] only computes; it leaves the state alone, emits nothing,
    and throws nothing but error objects. *)
Definition tame {S A} (m : js S A) : Prop :=
  forall s, exists c,
    m s = (s, [], c) /\
    match c with
    | Throw e => nullish e = false
    | Normal _ => True
    end.

(** [steady m]: [m] completes normally, leaves the state alone and sends
    nothing to the store. *)
Definition steady {S} (m : js S unit) : Prop :=
  forall s, exists trace, m s = (s, trace, Normal tt) /\ sent trace = [].

(** The record a response hands back: the [data] of the first entry of
    [results] that succeeded. *)
Definition returned_record (r : Response.t) : value :=
  if Response.success r then
    match Response.results r with
    | Some results =>
        match find Result.success results with
        | Some entry => Result.data entry
        | None => VNull
        end
    | None => VNull
    end
  else VNull.

(** The common shape of [create] and [update] after the client is in
    place. *)
Definition save_body (id : option value) (employeeData : value)
    (method verb : string) (mk : string -> list EmployeeRecord -> request)
  : js EmployeeService.t value :=
  record <- EmployeeService.build_record id employeeData ;;
  response <- EmployeeService.call method (fun table => mk table [record]) ;;
  EmployeeService.single_result verb response.

Definition save_catch (prefix : string) (error : value) : js EmployeeService.t value :=
  EmployeeService.report (VStr prefix) error ;; ret VNull.

(** Sample data for the worked instances below. *)
Definition answering (o : outcome) : ApperClient := fun _ => o.

Definition jane_record : value :=
  VObj [("Id", VNum (Int 7)); ("Name", VStr "Jane Doe")].

Definition refused : Response.t :=
  {| Response.success := false;
     Response.message := VStr "Record does not exist";
     Response.data := jane_record;
     Response.results := None |}.

Definition saved : Response.t :=
  {| Response.success := true;
     Response.message := VUndefined;
     Response.data := VUndefined;
     Response.results :=
       Some [ {| Result.success := false;
                 Result.data := VUndefined;
                 Result.errors :=
                   Some [ {| ErrorEntry.fieldLabel := VStr "Email";
                             ErrorEntry.message := VStr "already in use" |} ];
                 Result.message := VStr "1 record failed" |};
              {| Result.success := true;
                 Result.data := jane_record;
                 Result.errors := None;
                 Result.message := VUndefined |} ] |}.

Definition jane : value :=
  VObj [("fullName", VStr "Jane Doe"); ("email", VStr "jane@example.com");
        ("departmentId", VStr "12")].

Definition service_with (o : outcome) : EmployeeService.t :=
  EmployeeService.constructor (Some (answering o)).

Definition cher : value := VObj [("fullName", VStr "Cher")].

(** The record [create] sends for [jane]. *)
Definition jane_sent : EmployeeRecord :=
  {| Id := None;
     Name := VStr "Jane Doe";
     first_name_c := VStr "Jane";
     last_name_c := VStr "Doe";
     email_c := VStr "jane@example.com";
     phone_c := VStr "";
     role_c := VStr "";
     department_id_c := VNum (Int 12);
     hire_date_c := VStr "";
     status_c := VStr "active";
     avatar_c := VStr "" |}.

(** [quiet m]: however [m] completes, it sends nothing to the store and
    leaves the state alone. *)
Definition quiet {S A} (m : js S A) : Prop :=
  forall s, state_of (m s) = s /\ sent (trace_of (m s)) = [].

(** The one request a method sends when it has a client, none when it has
    not. *)
Definition requests (ApperSDK : option ApperClient) (this : EmployeeService.t)
    (req : request) : list request :=
  match client_in_use ApperSDK this with
  | Some _ => [req]
  | None => []
  end.

(** The toasts [delete] shows for the entries of [results]: the message of
    each failed entry that has one. *)
Definition delete_toasts (results : list Result.t) : list event :=
  flat_map (fun record =>
              if truthy (Result.message record)
              then [ToastError (Result.message record)] else [])
    (List.filter (fun result => negb (Result.success result)) results).

(** A response that lists one employee. *)
Definition listed : Response.t :=
  {| Response.success := true;
     Response.message := VUndefined;
     Response.data := VArr [jane_record];
     Response.results := None |}.

(** The ten fields of a record of [params.records], [Id] apart. *)
Definition fields_of (record : EmployeeRecord) : list value :=
  [Name record; first_name_c record; last_name_c record; email_c record;
   phone_c record; role_c record; department_id_c record; hire_date_c record;
   status_c record; avatar_c record].

(** Responses to a save: every entry succeeded; no entry succeeded. *)
Definition all_saved : Response.t :=
  {| Response.success := true;
     Response.message := VUndefined;
     Response.data := VUndefined;
     Response.results :=
       Some [ {| Result.success := true;
                 Result.data := jane_record;
                 Result.errors := None;
                 Result.message := VUndefined |} ] |}.

Definition none_saved : Response.t :=
  {| Response.success := true;
     Response.message := VUndefined;
     Response.data := VUndefined;
     Response.results :=
       Some [ {| Result.success := false;
                 Result.data := VUndefined;
                 Result.errors := None;
                 Result.message := VStr "Email already in use" |} ] |}.

(** The call of the service [handleSubmit] makes for the draft [f]: an
    update of [employee.Id] when there is an [employee], a creation when
    there is none. *)
Definition service_call (ApperSDK : option ApperClient) (employee : value)
    (f : EmployeeModal.FormData) : js EmployeeService.t value :=
  if truthy employee
  then EmployeeService.update ApperSDK (prop employee "Id") (EmployeeModal.object_of f)
  else EmployeeService.create ApperSDK (EmployeeModal.object_of f).

Definition success_text (employee : value) : value :=
  VStr (if truthy employee then "Employee updated successfully"
        else "Employee created successfully").

(** The dialog once a submit is over: the draft kept, no errors, not
    loading, the service as the call left it. *)
Definition submitted (w : EmployeeModal.World) (svc : EmployeeService.t)
  : EmployeeModal.World :=
  {| EmployeeModal.formData := EmployeeModal.formData w;
     EmployeeModal.loading := false;
     EmployeeModal.errors := ∅;
     EmployeeModal.employeeService := svc |}.

(** The record the service builds from the draft [f]. *)
Definition record_of_form (id : option value) (f : EmployeeModal.FormData)
  : EmployeeRecord :=
  {| Id := id;
     Name := VStr (EmployeeModal.fullName f);
     first_name_c := VStr (hd "" (split " " (EmployeeModal.fullName f)));
     last_name_c := VStr (join " " (tl (split " " (EmployeeModal.fullName f))));
     email_c := VStr (EmployeeModal.email f);
     phone_c := VStr (EmployeeModal.phone f);
     role_c := VStr (EmployeeModal.role f);
     department_id_c :=
       VNum (parseInt (or_else (EmployeeModal.departmentId f) (VNum (Int 0))));
     hire_date_c := VStr (EmployeeModal.hireDate f);
     status_c := VStr (if EmployeeModal.is_empty (EmployeeModal.status f)
                       then "active" else EmployeeModal.status f);
     avatar_c := VStr "" |}.

Definition submit_end (employee : value) (c : completion value)
  : list event * completion value :=
  match c with
  | Normal _ => ([ToastSuccess (success_text employee); OnSuccess; OnClose],
                 Normal VUndefined)
  | Throw e =>
      if nullish e then
        ([], Throw (TypeError ("Cannot read properties of " +:+ to_string e +:+
                               " (reading '" +:+ "message" +:+ "')")))
      else ([ToastError (or_else (prop e "message") (VStr "Failed to save employee"))],
            Normal VUndefined)
  end.

(** The request of the call [handleSubmit] makes. *)
Definition submit_request (employee : value) (this : EmployeeService.t)
    (f : EmployeeModal.FormData) : request :=
  if truthy employee
  then updateRecord (EmployeeService.tableName this)
         [record_of_form (Some (prop employee "Id")) f]
  else createRecord (EmployeeService.tableName this) [record_of_form None f].

(** A stored field as the form shows it: the string it holds, [default]
    when it holds none. *)
Definition text_or (default : string) (v : value) : string :=
  match v with
  | VStr s => if String.eqb s "" then default else s
  | _ => default
  end.

(** A string, or nothing that counts. *)
Definition textual (v : value) : bool :=
  match v with
  | VStr _ => true
  | _ => negb (truthy v)
  end.

(** The draft of an employee whose text fields are [textual]. *)
Definition loaded_form (employee : value) : EmployeeModal.FormData :=
  {| EmployeeModal.fullName :=
       text_or (trim (text_or "" (prop employee "first_name_c") +:+ " " +:+
                      text_or "" (prop employee "last_name_c")))
               (prop employee "Name");
     EmployeeModal.email := text_or "" (prop employee "email_c");
     EmployeeModal.phone := text_or "" (prop employee "phone_c");
     EmployeeModal.role := text_or "" (prop employee "role_c");
     EmployeeModal.departmentId := or_else (prop employee "department_id_c") (VStr "");
     EmployeeModal.hireDate := text_or "" (prop employee "hire_date_c");
     EmployeeModal.status := text_or "active" (prop employee "status_c") |}.

Definition jane_stored : value :=
  VObj [("Id", VNum (Int 7)); ("Name", VStr "Jane Doe");
        ("first_name_c", VStr "Jane"); ("last_name_c", VStr "Doe");
        ("email_c", VStr "jane@example.com"); ("phone_c", VStr "555 0100");
        ("role_c", VStr "Engineer"); ("department_id_c", VNum (Int 12));
        ("hire_date_c", VStr "2024-03-01"); ("status_c", VStr "inactive");
        ("avatar_c", VStr "https://example.com/jane.png")].

(** The fields [validateForm] checks. *)
Definition required_names : list string :=
  ["fullName"; "email"; "phone"; "role"; "departmentId"; "hireDate"].

(** The toasts [create] and [update] show for the entries that failed: one
    for each of an entry's [errors], then the entry's [message] if it has
    one. *)
Definition failure_toasts (failed : list Result.t) : list event :=
  flat_map (fun record =>
              match Result.errors record with
              | Some errors =>
                  map (fun error =>
                         ToastError
                           (VStr (to_string (ErrorEntry.fieldLabel error) +:+ ": " +:+
                                  to_string (ErrorEntry.message error))))
                      errors
              | None => []
              end ++
              (if truthy (Result.message record)
               then [ToastError (Result.message record)] else []))
           failed.

Definition partly_saved : Response.t :=
  {| Response.success := true;
     Response.message := VUndefined;
     Response.data := VUndefined;
     Response.results :=
       Some [ {| Result.success := false;
                 Result.data := VUndefined;
                 Result.errors :=
                   Some [ {| ErrorEntry.fieldLabel := VStr "Email";
                             ErrorEntry.message := VStr "already in use" |};
                          {| ErrorEntry.fieldLabel := VStr "Phone";
                             ErrorEntry.message := VStr "too short" |} ];
                 Result.message := VStr "Record not saved" |};
              {| Result.success := true;
                 Result.data := jane_record;
                 Result.errors := None;
                 Result.message := VUndefined |} ] |}.

(** [Number.MAX_SAFE_INTEGER], 2^53 - 1. *)
Definition MAX_SAFE_INTEGER : Z := 9007199254740991.

(** [Number.isSafeInteger]: the integers a number holds exactly, which
    [String] prints as plain numerals and [parseInt] reads back as they
    are. *)
Definition isSafeInteger (z : Z) : bool := Z.abs z <=? MAX_SAFE_INTEGER.

(** A decimal digit, by its code. *)
Definition is_digit (c : ascii) : bool :=
  let n := nat_of_ascii c in ((48 <=? n) && (n <=? 57))%nat.

(** Whether a text begins as a numeral may: with white space, a sign or a
    decimal digit. *)
Definition begins_numeral (s : string) : bool :=
  match s with
  | String c _ =>
      is_space c || Ascii.eqb c "+" || Ascii.eqb c "-" || is_digit c
  | EmptyString => false
  end.

(** Whether the record literal of [create] and [update] can be evaluated:
    [employeeData] is neither [null] nor [undefined], and [fullName], where
    it has to be split (an explicit first or last name is missing), is a
    string, [null] or [undefined]. *)
Definition builds (employeeData : value) : bool :=
  negb (nullish employeeData)
  && (truthy (prop employeeData "first_name_c")
      && truthy (prop employeeData "last_name_c")
      || match prop employeeData "fullName" with
         | VUndefined | VNull | VStr _ => true
         | _ => false
         end).

(** The names of a record put [fullName] together again: the first name
    holds no space, and is followed by a space and the last name when
    [fullName] holds one; otherwise it is [fullName] and the last name is
    empty. *)
Definition recomposes (fullName : string) (record : EmployeeRecord) : Prop :=
  exists first last,
    first_name_c record = VStr first
    /\ last_name_c record = VStr last
    /\ has_char " " first = false
    /\ if has_char " " fullName
       then first +:+ " " +:+ last = fullName
       else first = fullName /\ last = "".

(** * Properties *)

Section Examples.
Example parseInt_42 : parseInt (VStr "  42px") = Int 42.
Proof. reflexivity. Qed.
Example parseInt_hex : parseInt (VStr "0x1f") = Int 31.
Proof. reflexivity. Qed.
Example parseInt_neg : parseInt (VNum (Int (-7))) = Int (-7).
Proof. reflexivity. Qed.
Example parseInt_abc : parseInt (VStr "abc") = NaN.
Proof. reflexivity. Qed.
Example parseInt_obj : parseInt (VObj [("Id", VNum (Int 3))]) = NaN.
Proof. reflexivity. Qed.
Example split_jane : split " " "Jane Doe" = ["Jane"; "Doe"].
Proof. reflexivity. Qed.
Example split_empty : split " " " a  b" = [""; "a"; ""; "b"].
Proof. reflexivity. Qed.
Example trim_ex : trim "  a b  " = "a b".
Proof. reflexivity. Qed.
Example to_string_arr : to_string (VArr [VNum (Int 1); VNull; VArr [VStr "a"; VStr "b"]]) = "1,,a,b".
Proof. reflexivity. Qed.

End Examples.

(** ** The service: what every method shares *)

Section ServiceFacts.
Import EmployeeService.
Variable ApperSDK : option ApperClient.

Lemma ensure_client_spec this :
  ensure_client ApperSDK this = (ready ApperSDK this, [], Normal tt).
Proof.
  unfold ensure_client, initializeClient, ready, client_in_use, bind,
    get_state, set_state, ret.
  destruct this as [[c|] tn]; simpl; [reflexivity|].
  destruct ApperSDK; reflexivity.
Qed.

Lemma ready_table this : tableName (ready ApperSDK this) = tableName this.
Proof. reflexivity. Qed.

(** A method is its body run on the service with its client in place. *)
Lemma method_ready {A} (body : js t A) handler this :
  try_catch (ensure_client ApperSDK ;; body) handler this
  = try_catch body handler (ready ApperSDK this).
Proof.
  unfold try_catch, bind. rewrite ensure_client_spec. simpl.
  destruct (body (ready ApperSDK this)) as [[s1 t1] [a|e]]; reflexivity.
Qed.

Lemma call_spec method req this client :
  apperClient this = Some client ->
  call method req this
  = (this, [SdkCall (req (tableName this))],
     match client (req (tableName this)) with
     | Rejects error => Throw error
     | Resolves response => Normal response
     end).
Proof.
  intros Hc. unfold call, bind, get_state, emit, throw, ret. simpl.
  rewrite Hc. destruct (client _); reflexivity.
Qed.

Lemma call_no_client method req this :
  apperClient this = None ->
  exists msg, call method req this = (this, [], Throw (TypeError msg)).
Proof.
  intros Hc. unfold call, bind, get_state, throw. simpl. rewrite Hc.
  eexists; reflexivity.
Qed.

(** The [catch] block logs once and completes, unless what was thrown is
    [null] or [undefined]. *)
Lemma report_spec prefix error (this : t) :
  nullish error = false ->
  exists args, report prefix error this = (this, [ConsoleError args], Normal tt).
Proof.
  intros Hn. unfold report.
  destruct (truthy _).
  - eexists; reflexivity.
  - unfold get, bind. rewrite Hn. eexists; reflexivity.
Qed.

Lemma report_nullish prefix error (this : t) :
  nullish error = true ->
  exists msg, report prefix error this = (this, [], Throw (TypeError msg)).
Proof.
  intros Hn. unfold report, opt_prop. rewrite Hn. simpl.
  unfold get, bind. rewrite Hn. eexists; reflexivity.
Qed.

(** A [catch] block that reports and returns a sentinel. *)
Lemma catch_sentinel {A} prefix (sentinel : A) error (this : t) :
  nullish error = false ->
  exists args,
    (report prefix error ;; ret sentinel) this
    = (this, [ConsoleError args], Normal sentinel).
Proof.
  intros Hn. destruct (report_spec prefix error this Hn) as [args Hr].
  exists args. unfold bind. rewrite Hr. reflexivity.
Qed.
End ServiceFacts.

(** ** Code that only computes *)

Section Tame.
Context {S : Type}.

Lemma tame_ret {A} (a : A) : tame (S := S) (ret a).
Proof. intros s. exists (Normal a). split; [reflexivity | exact I]. Qed.

Lemma tame_throw_TypeError {A} msg : tame (@throw S A (TypeError msg)).
Proof. intros s. exists (Throw (TypeError msg)). split; reflexivity. Qed.

Lemma tame_bind {A B} (m : js S A) (k : A -> js S B) :
  tame m -> (forall a, tame (k a)) -> tame (x <- m ;; k x).
Proof.
  intros Hm Hk s. destruct (Hm s) as [[a|e] [Em Hc]].
  - destruct (Hk a s) as [c [Ek Hc']]. exists c.
    unfold bind. rewrite Em, Ek. split; [reflexivity | exact Hc'].
  - exists (Throw e). unfold bind. rewrite Em. split; [reflexivity | exact Hc].
Qed.

Lemma tame_get v k : tame (@get S v k).
Proof.
  unfold get. destruct (nullish v).
  - apply tame_throw_TypeError.
  - apply tame_ret.
Qed.

Lemma tame_or_lazy a (b : js S value) : tame b -> tame (or_lazy a b).
Proof. intros Hb. unfold or_lazy. destruct (truthy a); [apply tame_ret | exact Hb]. Qed.

Lemma tame_opt_split v : tame (@opt_split S v).
Proof.
  destruct v; simpl; first [apply tame_ret | apply tame_throw_TypeError].
Qed.
End Tame.

Ltac tame_steps :=
  repeat first
    [ apply tame_ret | apply tame_get | apply tame_opt_split
    | apply tame_or_lazy | (apply tame_bind; [| intros ?]) ].

Lemma tame_build_record id employeeData :
  tame (EmployeeService.build_record id employeeData).
Proof. unfold EmployeeService.build_record. tame_steps. Qed.

(** On an object (anything but [null] and [undefined]), a property read is
    a lookup. *)
Lemma get_object {S} (v : value) k (s : S) :
  nullish v = false -> get v k s = (s, [], Normal (prop v k)).
Proof. intros Hn. unfold get. rewrite Hn. reflexivity. Qed.

(** ** The service: how each method ends *)

Section ServiceRuns.
Import EmployeeService.
Variable ApperSDK : option ApperClient.
Variable this : t.
Variable client : ApperClient.
Hypothesis in_use : client_in_use ApperSDK this = Some client.

Let table := tableName this.

Lemma ready_client : apperClient (ready ApperSDK this) = Some client.
Proof. exact in_use. Qed.

(** What the [try] block of a method gives once the call has been made,
    for a continuation [k] of the awaited response. *)
Lemma call_then {A} method req (k : option Response.t -> js t A) :
  (response <- call method req ;; k response) (ready ApperSDK this)
  = match client (req table) with
    | Rejects error =>
        (ready ApperSDK this, [SdkCall (req table)], Throw error)
    | Resolves response =>
        let '(s, trace, c) := k response (ready ApperSDK this) in
        (s, SdkCall (req table) :: trace, c)
    end.
Proof.
  unfold bind. rewrite (call_spec method req _ client ready_client).
  rewrite ready_table. fold table.
  destruct (client (req table)) as [error|response]; [reflexivity|].
  destruct (k response (ready ApperSDK this)) as [[s trace] c]. reflexivity.
Qed.

Lemma getById_rejected id error :
  client (getRecordById table id employee_fields) = Rejects error ->
  nullish error = false ->
  exists args,
    getById ApperSDK id this
    = (ready ApperSDK this,
       [SdkCall (getRecordById table id employee_fields); ConsoleError args],
       Normal VNull).
Proof.
  intros Hr Hn. unfold getById. rewrite method_ready.
  unfold try_catch. rewrite call_then, Hr.
  destruct (catch_sentinel
              (VStr ("Error fetching employee with ID " +:+ to_string id +:+ ":"))
              VNull error (ready ApperSDK this) Hn) as [args Hc].
  exists args. rewrite Hc. reflexivity.
Qed.

Lemma getById_resolved id response :
  client (getRecordById table id employee_fields) = Resolves response ->
  getById ApperSDK id this
  = (ready ApperSDK this, [SdkCall (getRecordById table id employee_fields)],
     Normal match response with
            | Some r => if truthy (Response.data r) then Response.data r else VNull
            | None => VNull
            end).
Proof.
  intros Hr. unfold getById. rewrite method_ready.
  unfold try_catch. rewrite call_then, Hr.
  destruct response as [r|]; [|reflexivity].
  destruct (truthy (Response.data r)); reflexivity.
Qed.

Lemma getById_rejected_nullish id error :
  client (getRecordById table id employee_fields) = Rejects error ->
  nullish error = true ->
  exists msg,
    getById ApperSDK id this
    = (ready ApperSDK this, [SdkCall (getRecordById table id employee_fields)],
       Throw (TypeError msg)).
Proof.
  intros Hr Hn. unfold getById. rewrite method_ready.
  unfold try_catch. rewrite call_then, Hr.
  destruct (report_nullish
              (VStr ("Error fetching employee with ID " +:+ to_string id +:+ ":"))
              error (ready ApperSDK this) Hn) as [msg Hc].
  exists msg. unfold bind. rewrite Hc. reflexivity.
Qed.

Lemma getById_no_toast id : toasts (trace_of (getById ApperSDK id this)) = [].
Proof.
  destruct (client (getRecordById table id employee_fields)) as [error|response] eqn:E.
  - destruct (nullish error) eqn:Hn.
    + destruct (getById_rejected_nullish id error E Hn) as [msg ->]. reflexivity.
    + destruct (getById_rejected id error E Hn) as [args ->]. reflexivity.
  - rewrite (getById_resolved id response E). reflexivity.
Qed.

(** A failed outcome of the call, seen from a method whose [try] block
    tests [response.success] first and whose [catch] block returns the
    same [sentinel]. *)
Lemma failed_call_sentinel method req prefix (sentinel : value)
      (k : Response.t -> js t value) :
  failed (client (req table)) = true ->
  exists trace,
    try_catch
      (response <- call method req ;;
       r <- deref response "success" ;;
       if negb (Response.success r) then
         console_error [Response.message r] ;;
         toast_error (Response.message r) ;;
         ret sentinel
       else k r)
      (fun error => report prefix error ;; ret sentinel)
      (ready ApperSDK this)
    = (ready ApperSDK this, SdkCall (req table) :: trace, Normal sentinel)
    /\ toasts trace
       = match client (req table) with
         | Resolves (Some r) => [ToastError (Response.message r)]
         | _ => []
         end.
Proof.
  intros Hf. unfold try_catch. rewrite call_then.
  destruct (client (req table)) as [error|[r|]]; simpl in Hf; try discriminate.
  - apply negb_true_iff in Hf.
    destruct (catch_sentinel prefix sentinel error (ready ApperSDK this) Hf)
      as [args Hc].
    rewrite Hc. eexists. split; reflexivity.
  - unfold bind at 1. simpl. rewrite Hf. eexists. split; reflexivity.
Qed.
End ServiceRuns.

(** ** Statements that only notify *)

Lemma sent_app t1 t2 : sent (t1 ++ t2) = sent t1 ++ sent t2.
Proof.
  induction t1 as [|e t1 IH]; simpl; [reflexivity|].
  destruct e; simpl; rewrite ?IH; reflexivity.
Qed.

Section Steady.
Context {S : Type}.

Lemma steady_ret : steady (S := S) (ret tt).
Proof. intros s. exists []. split; reflexivity. Qed.

Lemma steady_emit e : is_sdk_call e = false -> steady (S := S) (emit e).
Proof.
  intros He s. exists [e]. split; [reflexivity|].
  destruct e; try reflexivity. discriminate.
Qed.

Lemma steady_bind (m : js S unit) (k : js S unit) :
  steady m -> steady k -> steady (m ;; k).
Proof.
  intros Hm Hk s.
  destruct (Hm s) as [t1 [E1 S1]]. destruct (Hk s) as [t2 [E2 S2]].
  exists (t1 ++ t2). unfold bind. rewrite E1, E2.
  split; [reflexivity|]. rewrite sent_app, S1, S2. reflexivity.
Qed.

Lemma steady_when b (m : js S unit) : steady m -> steady (when b m).
Proof. intros Hm. destruct b; [exact Hm | apply steady_ret]. Qed.

Lemma steady_for_each {A} (items : list A) (body : A -> js S unit) :
  (forall x, steady (body x)) -> steady (for_each items body).
Proof.
  intros Hb. induction items as [|x rest IH]; simpl.
  - apply steady_ret.
  - apply steady_bind; [apply Hb | exact IH].
Qed.
End Steady.

Lemma steady_toast_failed failed : steady (EmployeeService.toast_failed failed).
Proof.
  unfold EmployeeService.toast_failed.
  apply steady_for_each. intros record. apply steady_bind.
  - destruct (Result.errors record) as [errors|]; [|apply steady_ret].
    apply steady_for_each. intros error. apply steady_emit. reflexivity.
  - apply steady_when, steady_emit. reflexivity.
Qed.

(** [successful.length > 0 ? successful[0] : ...] picks the first entry
    that succeeded. *)
Lemma filter_head_find {A} (f : A -> bool) (l : list A) :
  match List.filter f l with
  | x :: _ => Some x
  | [] => None
  end = find f l.
Proof.
  induction l as [|a l IH]; simpl; [reflexivity|].
  destruct (f a); [reflexivity | exact IH].
Qed.

Lemma single_result_spec verb r (s : EmployeeService.t) :
  exists trace,
    EmployeeService.single_result verb (Some r) s
    = (s, trace, Normal (returned_record r)) /\
    sent trace = [] /\
    (Response.success r = false -> toasts trace = [ToastError (Response.message r)]).
Proof.
  unfold EmployeeService.single_result, returned_record, bind at 1. simpl.
  destruct (Response.success r) eqn:Hs; simpl.
  - destruct (Response.results r) as [results|].
    + set (failed := List.filter (fun result => negb (Result.success result)) results).
      assert (Hst : steady (S := EmployeeService.t) (when (0 <? length failed)%nat
                  (emit (ConsoleErrorFailed verb failed) ;;
                   EmployeeService.toast_failed failed))).
      { apply steady_when, steady_bind;
          [apply steady_emit; reflexivity | apply steady_toast_failed]. }
      destruct (Hst s) as [trace [Et St]]. exists trace.
      unfold bind at 1. rewrite Et. simpl. rewrite app_nil_r.
      split; [|split; [exact St | discriminate]].
      rewrite <- (filter_head_find Result.success results).
      change (fun result => Result.success result) with Result.success.
      destruct (List.filter Result.success results); reflexivity.
    + exists []. split; [reflexivity | split; [reflexivity | discriminate]].
  - eexists. split; [reflexivity | split; reflexivity].
Qed.

(** A [try] block whose first statement only computes. *)
Lemma try_catch_bind_normal {S A B} (m : js S A) (k : A -> js S B) h s a :
  m s = (s, [], Normal a) ->
  try_catch (x <- m ;; k x) h s = try_catch (k a) h s.
Proof.
  intros Em. unfold try_catch, bind. rewrite Em.
  destruct (k a s) as [[s2 t2] [b|e]]; reflexivity.
Qed.

Lemma try_catch_bind_throw {S A B} (m : js S A) (k : A -> js S B) h s e :
  m s = (s, [], Throw e) ->
  try_catch (x <- m ;; k x) h s = h e s.
Proof.
  intros Em. unfold try_catch, bind. rewrite Em.
  destruct (h e s) as [[s2 t2] c]. reflexivity.
Qed.

Section SaveRuns.
Import EmployeeService.
Variable ApperSDK : option ApperClient.
Variable this : t.
Variable client : ApperClient.
Hypothesis in_use : client_in_use ApperSDK this = Some client.

Let table := tableName this.

Lemma create_is_save employeeData :
  create ApperSDK employeeData this
  = try_catch (save_body None employeeData "createRecord" "create" createRecord)
      (save_catch "Error creating employee:") (ready ApperSDK this).
Proof. unfold create. apply method_ready. Qed.

Lemma update_is_save id employeeData :
  update ApperSDK id employeeData this
  = try_catch (save_body (Some id) employeeData "updateRecord" "update" updateRecord)
      (save_catch "Error updating employee:") (ready ApperSDK this).
Proof. unfold update. apply method_ready. Qed.

(** How a save runs: either the record literal throws and nothing is sent,
    or exactly one request, carrying the record, is sent and its outcome
    decides the result. *)
Lemma save_run id employeeData method verb mk prefix :
  let run := try_catch (save_body id employeeData method verb mk)
               (save_catch prefix) (ready ApperSDK this) in
  (exists e args,
     build_record id employeeData (ready ApperSDK this)
     = (ready ApperSDK this, [], Throw e) /\
     run = (ready ApperSDK this, [ConsoleError args], Normal VNull))
  \/
  (exists record trace,
     build_record id employeeData (ready ApperSDK this)
     = (ready ApperSDK this, [], Normal record) /\
     state_of run = ready ApperSDK this /\
     trace_of run = SdkCall (mk table [record]) :: trace /\
     sent trace = [] /\
     match client (mk table [record]) with
     | Rejects error =>
         toasts trace = [] /\
         (nullish error = false -> completion_of run = Normal VNull)
     | Resolves (Some r) =>
         completion_of run = Normal (returned_record r) /\
         (Response.success r = false ->
          toasts trace = [ToastError (Response.message r)])
     | Resolves None => toasts trace = [] /\ completion_of run = Normal VNull
     end).
Proof.
  intros run. subst run. unfold save_body.
  destruct (tame_build_record id employeeData (ready ApperSDK this))
    as [[record|e] [Eb He]].
  - right. exists record.
    rewrite (try_catch_bind_normal _ _ _ _ _ Eb).
    unfold try_catch.
    rewrite (call_then ApperSDK this client in_use _ _ (single_result verb)).
    fold table.
    destruct (client (mk table [record])) as [error|[r|]] eqn:Ec.
    + destruct (nullish error) eqn:Hn.
      * destruct (report_nullish (VStr prefix) error (ready ApperSDK this) Hn)
          as [msg Hr].
        unfold save_catch, bind. rewrite Hr. simpl.
        exists []. repeat split; try reflexivity; try assumption; discriminate.
      * destruct (catch_sentinel (VStr prefix) VNull error
                    (ready ApperSDK this) Hn) as [args Hr].
        unfold save_catch. rewrite Hr. simpl.
        exists [ConsoleError args]. repeat split; try reflexivity; assumption.
    + destruct (single_result_spec verb r (ready ApperSDK this))
        as [trace [Es [Hs Ht]]].
      rewrite Es. simpl. exists trace. repeat split; try reflexivity; assumption.
    + destruct (catch_sentinel (VStr prefix) VNull
                  (TypeError "Cannot read properties of undefined (reading 'success')")
                  (ready ApperSDK this) eq_refl) as [args Hr].
      change (single_result verb None (ready ApperSDK this))
        with (ready ApperSDK this, @nil event,
              @Throw value
                (TypeError "Cannot read properties of undefined (reading 'success')")).
      unfold save_catch. rewrite Hr. simpl.
      exists [ConsoleError args]. repeat split; try reflexivity; assumption.
  - left. rewrite (try_catch_bind_throw _ _ _ _ _ Eb).
    destruct (catch_sentinel (VStr prefix) VNull e (ready ApperSDK this) He)
      as [args Hr].
    unfold save_catch. rewrite Hr. exists e, args. split; [exact Eb | reflexivity].
Qed.
End SaveRuns.

(** ** The service: failures, pass-through and [getById] *)

Section ServiceOutcomes.
Import EmployeeService.
Variable ApperSDK : option ApperClient.
Variable this : t.
Variable client : ApperClient.
Hypothesis in_use : client_in_use ApperSDK this = Some client.

Let table := tableName this.

Lemma getAll_failed :
  failed (client (fetchRecords table employee_fields)) = true ->
  exists trace,
    getAll ApperSDK this
    = (ready ApperSDK this,
       SdkCall (fetchRecords table employee_fields) :: trace, Normal (VArr []))
    /\ toasts trace
       = match client (fetchRecords table employee_fields) with
         | Resolves (Some r) => [ToastError (Response.message r)]
         | _ => []
         end.
Proof.
  intros Hf. unfold getAll. rewrite method_ready.
  exact (failed_call_sentinel ApperSDK this client in_use "fetchRecords"
           (fun table => fetchRecords table employee_fields)
           (VStr "Error fetching employees:") (VArr [])
           (fun r => ret (or_else (Response.data r) (VArr []))) Hf).
Qed.

Lemma delete_failed id :
  failed (client (deleteRecord table [id])) = true ->
  exists trace,
    delete ApperSDK id this
    = (ready ApperSDK this, SdkCall (deleteRecord table [id]) :: trace,
       Normal (VBool false))
    /\ toasts trace
       = match client (deleteRecord table [id]) with
         | Resolves (Some r) => [ToastError (Response.message r)]
         | _ => []
         end.
Proof.
  intros Hf. unfold delete. rewrite method_ready.
  exact (failed_call_sentinel ApperSDK this client in_use "deleteRecord"
           (fun table => deleteRecord table [id])
           (VStr "Error deleting employee:") (VBool false) _ Hf).
Qed.

(** A save whose call of the store failed returns [null]. *)
Lemma save_failed id employeeData method verb mk prefix :
  let run := try_catch (save_body id employeeData method verb mk)
               (save_catch prefix) (ready ApperSDK this) in
  (forall req, In req (sent (trace_of run)) -> failed (client req) = true) ->
  completion_of run = Normal VNull.
Proof.
  intros run Hf.
  destruct (save_run ApperSDK this client in_use id employeeData method verb mk prefix)
    as [(e & args & _ & E) | (record & trace & _ & _ & Et & _ & Hc)];
    fold run in E || fold run in Et, Hc.
  - rewrite E. reflexivity.
  - fold table in Et, Hc.
    assert (Hin : In (mk table [record]) (sent (trace_of run))).
    { rewrite Et. simpl. left. reflexivity. }
    specialize (Hf _ Hin).
    destruct (client (mk table [record])) as [error|[r|]]; simpl in Hf;
      try discriminate.
    + apply negb_true_iff in Hf. destruct Hc as [_ Hc]. exact (Hc Hf).
    + destruct Hc as [Hc _]. rewrite Hc. unfold returned_record.
      apply negb_true_iff in Hf. rewrite Hf. reflexivity.
Qed.

(** A save whose call of the store was answered by [r] returns the record
    [r] hands back. *)
Lemma save_answered id employeeData method verb mk prefix req r :
  let run := try_catch (save_body id employeeData method verb mk)
               (save_catch prefix) (ready ApperSDK this) in
  sent (trace_of run) = [req] ->
  client req = Resolves (Some r) ->
  completion_of run = Normal (returned_record r)
  /\ (Response.success r = false ->
      toasts (trace_of run) = [ToastError (Response.message r)]).
Proof.
  intros run Hs Hr.
  destruct (save_run ApperSDK this client in_use id employeeData method verb mk prefix)
    as [(e & args & _ & E) | (record & trace & _ & _ & Et & Hst & Hc)];
    fold run in E || fold run in Et, Hc.
  - rewrite E in Hs. discriminate.
  - fold table in Et, Hc. rewrite Et in Hs. simpl in Hs. rewrite Hst in Hs.
    inversion Hs; subst req. rewrite Hr in Hc. destruct Hc as [Hc Ht].
    split; [exact Hc|]. intros Hfalse. rewrite Et. exact (Ht Hfalse).
Qed.
End ServiceOutcomes.

Lemma getById_no_client ApperSDK this id :
  client_in_use ApperSDK this = None ->
  exists args,
    EmployeeService.getById ApperSDK id this
    = (ready ApperSDK this, [ConsoleError args], Normal VNull).
Proof.
  intros Hc. unfold EmployeeService.getById. rewrite method_ready.
  destruct (call_no_client "getRecordById"
              (fun table => getRecordById table id EmployeeService.employee_fields)
              (ready ApperSDK this) Hc) as [msg Ec].
  rewrite (try_catch_bind_throw _ _ _ _ _ Ec).
  apply catch_sentinel. reflexivity.
Qed.

(** C1, as amended. When the call of the SDK throws an error (any value but
    [null] and [undefined]) or its response has [success] false, [getAll]
    returns the empty list, [create] and [update] return [null] and [delete]
    returns [false], and none of them throws. [getById] returns [null] when
    the call throws an error; it does not look at [success]: of a response
    it returns the [data] when there is one and [null] when there is none. *)
Theorem C1_failures_give_sentinels
    ApperSDK this client (id employeeData : value) :
  client_in_use ApperSDK this = Some client ->
  (failed (client (fetchRecords (EmployeeService.tableName this)
                     EmployeeService.employee_fields)) = true ->
   completion_of (EmployeeService.getAll ApperSDK this) = Normal (VArr []))
  /\ ((forall req,
         In req (sent (trace_of (EmployeeService.create ApperSDK employeeData this))) ->
         failed (client req) = true) ->
      completion_of (EmployeeService.create ApperSDK employeeData this) = Normal VNull)
  /\ ((forall req,
         In req (sent (trace_of (EmployeeService.update ApperSDK id employeeData this))) ->
         failed (client req) = true) ->
      completion_of (EmployeeService.update ApperSDK id employeeData this)
      = Normal VNull)
  /\ (failed (client (deleteRecord (EmployeeService.tableName this) [id])) = true ->
      completion_of (EmployeeService.delete ApperSDK id this) = Normal (VBool false))
  /\ (forall error,
        client (getRecordById (EmployeeService.tableName this) id
                  EmployeeService.employee_fields) = Rejects error ->
        nullish error = false ->
        completion_of (EmployeeService.getById ApperSDK id this) = Normal VNull)
  /\ (forall response,
        client (getRecordById (EmployeeService.tableName this) id
                  EmployeeService.employee_fields) = Resolves response ->
        completion_of (EmployeeService.getById ApperSDK id this)
        = Normal match response with
                 | Some r =>
                     if truthy (Response.data r) then Response.data r else VNull
                 | None => VNull
                 end).
Proof.
  intros Hc. refine (conj _ (conj _ (conj _ (conj _ (conj _ _))))).
  - intros Hf. destruct (getAll_failed ApperSDK this client Hc Hf) as [trace [E _]].
    rewrite E. reflexivity.
  - rewrite (create_is_save ApperSDK this). apply (save_failed ApperSDK this client Hc).
  - rewrite (update_is_save ApperSDK this). apply (save_failed ApperSDK this client Hc).
  - intros Hf. destruct (delete_failed ApperSDK this client Hc id Hf) as [trace [E _]].
    rewrite E. reflexivity.
  - intros error Hr Hn.
    destruct (getById_rejected ApperSDK this client Hc id error Hr Hn) as [args E].
    rewrite E. reflexivity.
  - intros response Hr.
    rewrite (getById_resolved ApperSDK this client Hc id response Hr). reflexivity.
Qed.

Lemma C1_failures_give_sentinels_witness :
  completion_of (EmployeeService.getAll None (service_with (Resolves (Some refused))))
  = Normal (VArr [])
  /\ completion_of (EmployeeService.create None jane
                      (service_with (Resolves (Some refused)))) = Normal VNull
  /\ completion_of (EmployeeService.update None (VNum (Int 7)) jane
                      (service_with (Resolves (Some refused)))) = Normal VNull
  /\ completion_of (EmployeeService.delete None (VNum (Int 7))
                      (service_with (Resolves (Some refused)))) = Normal (VBool false).
Proof.
  destruct (C1_failures_give_sentinels None (service_with (Resolves (Some refused)))
              (answering (Resolves (Some refused))) (VNum (Int 7)) jane eq_refl)
    as (H1 & H2 & H3 & H4 & _ & _).
  refine (conj _ (conj _ (conj _ _))).
  - apply H1. reflexivity.
  - apply H2. intros req _. reflexivity.
  - apply H3. intros req _. reflexivity.
  - apply H4. reflexivity.
Defined.

(** C1 as stated fails for [getById]: a response that reports failure and
    carries data is returned, not replaced by [null]. *)
Lemma C1_getById_returns_data_of_failed_response :
  let this := service_with (Resolves (Some refused)) in
  let id := VNum (Int 7) in
  failed (answering (Resolves (Some refused))
            (getRecordById (EmployeeService.tableName this) id
               EmployeeService.employee_fields)) = true
  /\ completion_of (EmployeeService.getById None id this) = Normal jane_record
  /\ completion_of (EmployeeService.getById None id this) <> Normal VNull.
Proof. repeat split. discriminate. Qed.

(** C2. When the store answers the call of [create] (of [update]) with a
    response whose [success] is true and that has a [results] array, and
    [entry] is the first entry of [results] whose [success] is true, then
    [create] ([update]) returns exactly the [data] of [entry]. *)
Theorem C2_successful_record_passed_through
    ApperSDK this client (id employeeData : value) r results entry :
  client_in_use ApperSDK this = Some client ->
  Response.success r = true ->
  Response.results r = Some results ->
  find Result.success results = Some entry ->
  (forall req,
     sent (trace_of (EmployeeService.create ApperSDK employeeData this)) = [req] ->
     client req = Resolves (Some r) ->
     completion_of (EmployeeService.create ApperSDK employeeData this)
     = Normal (Result.data entry))
  /\ (forall req,
        sent (trace_of (EmployeeService.update ApperSDK id employeeData this)) = [req] ->
        client req = Resolves (Some r) ->
        completion_of (EmployeeService.update ApperSDK id employeeData this)
        = Normal (Result.data entry)).
Proof.
  intros Hc Hs Hres Hfind.
  assert (Hret : returned_record r = Result.data entry).
  { unfold returned_record. rewrite Hs, Hres, Hfind. reflexivity. }
  split; intros req Hsent Hr.
  - rewrite (create_is_save ApperSDK this) in *.
    destruct (save_answered ApperSDK this client Hc _ _ _ _ _ _ req r Hsent Hr)
      as [E _].
    rewrite E, Hret. reflexivity.
  - rewrite (update_is_save ApperSDK this) in *.
    destruct (save_answered ApperSDK this client Hc _ _ _ _ _ _ req r Hsent Hr)
      as [E _].
    rewrite E, Hret. reflexivity.
Qed.

Lemma C2_successful_record_passed_through_witness :
  completion_of (EmployeeService.create None jane (service_with (Resolves (Some saved))))
  = Normal jane_record
  /\ completion_of (EmployeeService.update None (VNum (Int 7)) jane
                      (service_with (Resolves (Some saved))))
     = Normal jane_record.
Proof.
  destruct (C2_successful_record_passed_through None
              (service_with (Resolves (Some saved)))
              (answering (Resolves (Some saved))) (VNum (Int 7)) jane saved
              _ _ eq_refl eq_refl eq_refl eq_refl) as [Hcreate Hupdate].
  split.
  - eapply Hcreate; reflexivity.
  - eapply Hupdate; reflexivity.
Defined.

(** C8. [getById] never emits a toast and never looks at the [success] flag:
    of a response that carries data it returns the data, also when [success]
    is false; it returns [null] when there is no response or no data. The
    other four methods do look at the flag: of a response with [success]
    false they emit one toast, the response's message. *)
Theorem C8_getById_ignores_success_flag ApperSDK this (id : value) :
  toasts (trace_of (EmployeeService.getById ApperSDK id this)) = []
  /\ forall client,
       client_in_use ApperSDK this = Some client ->
       (forall r,
          client (getRecordById (EmployeeService.tableName this) id
                    EmployeeService.employee_fields) = Resolves (Some r) ->
          truthy (Response.data r) = true ->
          completion_of (EmployeeService.getById ApperSDK id this)
          = Normal (Response.data r))
       /\ (forall response,
             client (getRecordById (EmployeeService.tableName this) id
                       EmployeeService.employee_fields) = Resolves response ->
             match response with
             | Some r => truthy (Response.data r) = false
             | None => True
             end ->
             completion_of (EmployeeService.getById ApperSDK id this) = Normal VNull)
       /\ (forall r employeeData,
             Response.success r = false ->
             (client (fetchRecords (EmployeeService.tableName this)
                        EmployeeService.employee_fields) = Resolves (Some r) ->
              toasts (trace_of (EmployeeService.getAll ApperSDK this))
              = [ToastError (Response.message r)])
             /\ (forall req,
                   sent (trace_of (EmployeeService.create ApperSDK employeeData this))
                   = [req] ->
                   client req = Resolves (Some r) ->
                   toasts (trace_of (EmployeeService.create ApperSDK employeeData this))
                   = [ToastError (Response.message r)])
             /\ (forall req,
                   sent (trace_of (EmployeeService.update ApperSDK id employeeData this))
                   = [req] ->
                   client req = Resolves (Some r) ->
                   toasts (trace_of (EmployeeService.update ApperSDK id employeeData this))
                   = [ToastError (Response.message r)])
             /\ (client (deleteRecord (EmployeeService.tableName this) [id])
                 = Resolves (Some r) ->
                 toasts (trace_of (EmployeeService.delete ApperSDK id this))
                 = [ToastError (Response.message r)])).
Proof.
  split.
  - destruct (client_in_use ApperSDK this) as [client|] eqn:Hc.
    + apply (getById_no_toast ApperSDK this client Hc).
    + destruct (getById_no_client ApperSDK this id Hc) as [args E].
      rewrite E. reflexivity.
  - intros client Hc. refine (conj _ (conj _ _)).
    + intros r Hr Hd.
      rewrite (getById_resolved ApperSDK this client Hc id _ Hr), Hd. reflexivity.
    + intros response Hr Hd.
      rewrite (getById_resolved ApperSDK this client Hc id _ Hr).
      destruct response as [r|]; [rewrite Hd|]; reflexivity.
    + intros r employeeData Hs. refine (conj _ (conj _ (conj _ _))).
      * intros Hr.
        assert (Hf : failed (client (fetchRecords (EmployeeService.tableName this)
                                       EmployeeService.employee_fields)) = true).
        { rewrite Hr. simpl. rewrite Hs. reflexivity. }
        destruct (getAll_failed ApperSDK this client Hc Hf) as [trace [E Ht]].
        rewrite E. rewrite Hr in Ht. exact Ht.
      * intros req Hsent Hr. rewrite (create_is_save ApperSDK this) in *.
        destruct (save_answered ApperSDK this client Hc _ _ _ _ _ _ req r Hsent Hr)
          as [_ Ht].
        exact (Ht Hs).
      * intros req Hsent Hr. rewrite (update_is_save ApperSDK this) in *.
        destruct (save_answered ApperSDK this client Hc _ _ _ _ _ _ req r Hsent Hr)
          as [_ Ht].
        exact (Ht Hs).
      * intros Hr.
        assert (Hf : failed (client (deleteRecord (EmployeeService.tableName this) [id]))
                     = true).
        { rewrite Hr. simpl. rewrite Hs. reflexivity. }
        destruct (delete_failed ApperSDK this client Hc id Hf) as [trace [E Ht]].
        rewrite E. rewrite Hr in Ht. exact Ht.
Qed.

Lemma C8_getById_ignores_success_flag_witness :
  completion_of (EmployeeService.getById None (VNum (Int 7))
                   (service_with (Resolves (Some refused)))) = Normal jane_record
  /\ completion_of (EmployeeService.getById None (VNum (Int 7))
                      (service_with (Resolves None))) = Normal VNull
  /\ toasts (trace_of (EmployeeService.getAll None
                         (service_with (Resolves (Some refused)))))
     = [ToastError (VStr "Record does not exist")].
Proof.
  refine (conj _ (conj _ _)).
  - destruct (C8_getById_ignores_success_flag None
                (service_with (Resolves (Some refused))) (VNum (Int 7)))
      as [_ H].
    destruct (H (answering (Resolves (Some refused))) eq_refl) as (Hdata & _ & _).
    apply (Hdata refused); reflexivity.
  - destruct (C8_getById_ignores_success_flag None
                (service_with (Resolves None)) (VNum (Int 7)))
      as [_ H].
    destruct (H (answering (Resolves None)) eq_refl) as (_ & Hnone & _).
    apply (Hnone None); [reflexivity | exact I].
  - destruct (C8_getById_ignores_success_flag None
                (service_with (Resolves (Some refused))) (VNum (Int 7)))
      as [_ H].
    destruct (H (answering (Resolves (Some refused))) eq_refl) as (_ & _ & Hother).
    destruct (Hother refused jane eq_refl) as (HgetAll & _).
    apply HgetAll. reflexivity.
Defined.

(** ** Strings: split, join, trim *)

Lemma split_no_sep sep w : has_char sep w = false -> split sep w = [w].
Proof.
  induction w as [|c w IH]; simpl; [reflexivity|].
  intros H. apply orb_false_iff in H as [Hc Hw].
  rewrite Hc, (IH Hw). reflexivity.
Qed.

Lemma split_word sep w rest :
  has_char sep w = false ->
  split sep (w +:+ String sep rest) = w :: split sep rest.
Proof.
  induction w as [|c w IH]; simpl.
  - intros _. rewrite Ascii.eqb_refl. reflexivity.
  - intros H. apply orb_false_iff in H as [Hc Hw].
    rewrite Hc, (IH Hw). reflexivity.
Qed.

Lemma split_two_words w1 w2 :
  has_char " " w1 = false -> has_char " " w2 = false ->
  split " " (w1 +:+ " " +:+ w2) = [w1; w2].
Proof.
  intros H1 H2. change (" " +:+ w2) with (String " " w2).
  rewrite (split_word _ _ _ H1), (split_no_sep _ _ H2). reflexivity.
Qed.

Lemma or_else_text x : or_else (VStr x) (VStr "") = VStr x.
Proof.
  unfold or_else. simpl. destruct (String.eqb_spec x ""); [subst|]; reflexivity.
Qed.

(** ** The record literal *)

Lemma bind_object_get {S A} (v : value) k (f : value -> js S A) s :
  nullish v = false -> (x <- get v k ;; f x) s = f (prop v k) s.
Proof.
  intros Hn. unfold bind. rewrite (get_object v k s Hn).
  destruct (f (prop v k) s) as [[s2 t2] c]. reflexivity.
Qed.

Lemma bind_normal {S A B} (m : js S A) (f : A -> js S B) s a :
  m s = (s, [], Normal a) -> (x <- m ;; f x) s = f a s.
Proof.
  intros Em. unfold bind. rewrite Em.
  destruct (f a s) as [[s2 t2] c]. reflexivity.
Qed.

Lemma bind_run {S A B} (m : js S A) (f : A -> js S B) s s1 t1 a :
  m s = (s1, t1, Normal a) ->
  (x <- m ;; f x) s
  = (state_of (f a s1), t1 ++ trace_of (f a s1), completion_of (f a s1)).
Proof.
  intros Em. unfold bind. rewrite Em.
  destruct (f a s1) as [[s2 t2] c]. reflexivity.
Qed.

Lemma bind_throw {S A B} (m : js S A) (f : A -> js S B) s e :
  m s = (s, [], Throw e) -> (x <- m ;; f x) s = (s, [], Throw e).
Proof. intros Em. unfold bind. rewrite Em. reflexivity. Qed.

Lemma bind_ret {S A B} (a : A) (f : A -> js S B) s :
  (x <- ret a ;; f x) s = f a s.
Proof. apply bind_normal. reflexivity. Qed.

(** The three names, when the explicit first and last names are missing
    and [fullName] is a string. *)
Lemma build_record_names id employeeData fullName (s : EmployeeService.t) :
  prop employeeData "fullName" = VStr fullName ->
  truthy (prop employeeData "first_name_c") = false ->
  truthy (prop employeeData "last_name_c") = false ->
  exists record,
    EmployeeService.build_record id employeeData s = (s, [], Normal record)
    /\ Id record = id
    /\ names_from fullName record.
Proof.
  intros Hfull Hfirst Hlast.
  assert (Hn : nullish employeeData = false).
  { destruct employeeData; try reflexivity; discriminate. }
  assert (HName :
    or_lazy (VStr fullName)
      (first <- get employeeData "first_name_c" ;;
       last <- get employeeData "last_name_c" ;;
       ret (VStr (trim (to_string (or_else first (VStr "")) +:+ " " +:+
                        to_string (or_else last (VStr "")))))) s
    = (s, [], Normal (VStr fullName))).
  { unfold or_lazy. simpl.
    destruct (String.eqb_spec fullName "") as [->|]; simpl; [|reflexivity].
    rewrite (bind_object_get _ _ _ _ Hn), (bind_object_get _ _ _ _ Hn).
    unfold or_else. rewrite Hfirst, Hlast. reflexivity. }
  assert (HFirst :
    or_lazy (prop employeeData "first_name_c")
      (fullName <- get employeeData "fullName" ;;
       pieces <- opt_split fullName ;;
       ret (or_else (match pieces with
                     | Some l => VStr (hd "" l)
                     | None => VUndefined
                     end) (VStr ""))) s
    = (s, [], Normal (VStr (hd "" (split " " fullName))))).
  { unfold or_lazy. rewrite Hfirst, (bind_object_get _ _ _ _ Hn), Hfull.
    simpl opt_split. rewrite bind_ret, or_else_text. reflexivity. }
  assert (HLast :
    or_lazy (prop employeeData "last_name_c")
      (fullName <- get employeeData "fullName" ;;
       pieces <- opt_split fullName ;;
       ret (or_else (match pieces with
                     | Some l => VStr (join " " (tl l))
                     | None => VUndefined
                     end) (VStr ""))) s
    = (s, [], Normal (VStr (join " " (tl (split " " fullName)))))).
  { unfold or_lazy. rewrite Hlast, (bind_object_get _ _ _ _ Hn), Hfull.
    simpl opt_split. rewrite bind_ret, or_else_text. reflexivity. }
  unfold EmployeeService.build_record.
  rewrite (bind_object_get _ _ _ _ Hn), Hfull, (bind_normal _ _ _ _ HName).
  rewrite (bind_object_get _ _ _ _ Hn), (bind_normal _ _ _ _ HFirst).
  rewrite (bind_object_get _ _ _ _ Hn), (bind_normal _ _ _ _ HLast).
  do 14 rewrite (bind_object_get _ _ _ _ Hn).
  eexists. split; [reflexivity|]. split; [reflexivity|].
  unfold names_from; simpl. repeat split.
Qed.

Lemma bind_tame_inv {S A B} (m : js S A) (f : A -> js S B) s s' trace b :
  tame m ->
  (x <- m ;; f x) s = (s', trace, Normal b) ->
  exists a, m s = (s, [], Normal a) /\ f a s = (s', trace, Normal b).
Proof.
  intros Hm E. destruct (Hm s) as [[a|e] [Em _]].
  - exists a. split; [exact Em|]. rewrite (bind_normal _ _ _ _ Em) in E. exact E.
  - rewrite (bind_throw _ _ _ _ Em) in E. discriminate.
Qed.

Lemma build_record_needs_object id employeeData (s : EmployeeService.t) record :
  EmployeeService.build_record id employeeData s = (s, [], Normal record) ->
  nullish employeeData = false.
Proof.
  intros E. destruct (nullish employeeData) eqn:Hn; [|reflexivity].
  unfold EmployeeService.build_record in E.
  rewrite (bind_throw (get employeeData "fullName") _ s
             (TypeError ("Cannot read properties of " +:+ to_string employeeData +:+
                         " (reading '" +:+ "fullName" +:+ "')"))) in E.
  - discriminate.
  - unfold get. rewrite Hn. reflexivity.
Qed.

(** The fields of the literal that do not depend on the names. *)
Lemma build_record_department id employeeData (s : EmployeeService.t) record :
  EmployeeService.build_record id employeeData s = (s, [], Normal record) ->
  Id record = id
  /\ department_id_c record
     = VNum (parseInt (or_else (or_else (prop employeeData "department_id_c")
                                        (prop employeeData "departmentId"))
                               (VNum (Int 0)))).
Proof.
  intros E. pose proof (build_record_needs_object _ _ _ _ E) as Hn.
  unfold EmployeeService.build_record in E.
  rewrite (bind_object_get _ _ _ _ Hn) in E.
  apply bind_tame_inv in E; [|tame_steps]. destruct E as [Name_ [_ E]].
  rewrite (bind_object_get _ _ _ _ Hn) in E.
  apply bind_tame_inv in E; [|tame_steps]. destruct E as [first_ [_ E]].
  rewrite (bind_object_get _ _ _ _ Hn) in E.
  apply bind_tame_inv in E; [|tame_steps]. destruct E as [last_ [_ E]].
  do 14 rewrite (bind_object_get _ _ _ _ Hn) in E.
  inversion E. split; reflexivity.
Qed.

(** ** What a save sends *)

Section SaveSends.
Import EmployeeService.
Variable ApperSDK : option ApperClient.
Variable this : t.

Lemma save_no_client id employeeData method verb mk prefix :
  client_in_use ApperSDK this = None ->
  exists args,
    try_catch (save_body id employeeData method verb mk)
      (save_catch prefix) (ready ApperSDK this)
    = (ready ApperSDK this, [ConsoleError args], Normal VNull).
Proof.
  intros Hc. unfold save_body, save_catch.
  destruct (tame_build_record id employeeData (ready ApperSDK this))
    as [[record|e] [Eb He]].
  - rewrite (try_catch_bind_normal _ _ _ _ _ Eb).
    destruct (call_no_client method (fun table => mk table [record])
                (ready ApperSDK this) Hc) as [msg Ec].
    rewrite (try_catch_bind_throw _ _ _ _ _ Ec).
    apply catch_sentinel. reflexivity.
  - rewrite (try_catch_bind_throw _ _ _ _ _ Eb).
    apply catch_sentinel. exact He.
Qed.

(** A save sends the record its literal builds, once, or nothing. *)
Lemma save_sends id employeeData method verb mk prefix record :
  (forall table records, records_of (mk table records) = records) ->
  In record
     (records_sent
        (trace_of (try_catch (save_body id employeeData method verb mk)
                     (save_catch prefix) (ready ApperSDK this)))) ->
  build_record id employeeData (ready ApperSDK this)
  = (ready ApperSDK this, [], Normal record).
Proof.
  intros Hmk Hin.
  destruct (client_in_use ApperSDK this) as [client|] eqn:Hc.
  - destruct (save_run ApperSDK this client Hc id employeeData method verb mk prefix)
      as [(e & args & _ & E) | (record' & trace & Eb & _ & Et & Hst & _)].
    + rewrite E in Hin. destruct Hin.
    + rewrite Et in Hin. unfold records_sent in Hin. simpl in Hin.
      rewrite Hst, Hmk in Hin. simpl in Hin.
      destruct Hin as [<-|[]]. exact Eb.
  - destruct (save_no_client id employeeData method verb mk prefix Hc) as [args E].
    rewrite E in Hin. destruct Hin.
Qed.

(** A save always leaves an event: the request it sent, or the error it
    logged. *)
Lemma save_never_silent id employeeData method verb mk prefix :
  trace_of (try_catch (save_body id employeeData method verb mk)
              (save_catch prefix) (ready ApperSDK this)) <> [].
Proof.
  destruct (client_in_use ApperSDK this) as [client|] eqn:Hc.
  - destruct (save_run ApperSDK this client Hc id employeeData method verb mk prefix)
      as [(e & args & _ & E) | (record & trace & _ & _ & Et & _)].
    + rewrite E. discriminate.
    + rewrite Et. discriminate.
  - destruct (save_no_client id employeeData method verb mk prefix Hc) as [args E].
    rewrite E. discriminate.
Qed.

Lemma save_sends_built client id employeeData method verb mk prefix record :
  client_in_use ApperSDK this = Some client ->
  (forall table records, records_of (mk table records) = records) ->
  build_record id employeeData (ready ApperSDK this)
  = (ready ApperSDK this, [], Normal record) ->
  records_sent
    (trace_of (try_catch (save_body id employeeData method verb mk)
                 (save_catch prefix) (ready ApperSDK this)))
  = [record].
Proof.
  intros Hc Hmk Eb.
  destruct (save_run ApperSDK this client Hc id employeeData method verb mk prefix)
    as [(e & args & Eb' & _) | (record' & trace & Eb' & _ & Et & Hst & _)];
    rewrite Eb in Eb'; inversion Eb'; subst.
  rewrite Et. unfold records_sent. simpl. rewrite Hst, Hmk. reflexivity.
Qed.
End SaveSends.

(** ** parseInt on numerals *)

Lemma dec_prefix_numeral d :
  dec_prefix (DecimalString.NilEmpty.string_of_uint d) = d.
Proof. induction d; simpl; rewrite ?IHd; reflexivity. Qed.

Lemma parse_magnitude_numeral d :
  d <> Decimal.Nil ->
  parse_magnitude (DecimalString.NilEmpty.string_of_uint d) = Some (N.of_uint d).
Proof.
  intros Hd.
  assert (Hdec : forall s, dec_prefix s = d ->
            match dec_prefix s with
            | Decimal.Nil => None
            | u => Some (N.of_uint u)
            end = Some (N.of_uint d)).
  { intros s ->. destruct d; try reflexivity. contradiction. }
  destruct d as [|d'|d'|d'|d'|d'|d'|d'|d'|d'|d']; [contradiction| |..];
    try (unfold parse_magnitude; simpl DecimalString.NilEmpty.string_of_uint;
         cbv iota beta;
         match goal with
         | |- _ = Some (N.of_uint ?d) => exact (Hdec _ (dec_prefix_numeral d))
         end).
  destruct d'; unfold parse_magnitude; simpl DecimalString.NilEmpty.string_of_uint;
    cbv iota beta; simpl orb; cbv iota;
    try reflexivity;
    match goal with
    | |- Some (N.of_uint (dec_prefix ?s)) = Some (N.of_uint ?d) =>
        change s with (DecimalString.NilEmpty.string_of_uint d);
        rewrite dec_prefix_numeral; reflexivity
    end.
Qed.

Lemma numeral_starts_with_digit d :
  d <> Decimal.Nil ->
  exists c rest,
    DecimalString.NilEmpty.string_of_uint d = String c rest
    /\ is_space c = false /\ c <> "-"%char /\ c <> "+"%char.
Proof.
  intros Hd. destruct d; [contradiction|..]; simpl; eexists _, _;
    (split; [reflexivity | split; [reflexivity | split; discriminate]]).
Qed.

Lemma to_uint_not_nil n : N.to_uint n <> Decimal.Nil.
Proof.
  destruct n as [|p]; simpl; [discriminate|].
  apply DecimalPos.Unsigned.to_uint_nonnil.
Qed.

Lemma parse_signed_numeral n :
  parse_signed (string_of_N n) = Int (Z.of_N n).
Proof.
  unfold string_of_N.
  destruct (numeral_starts_with_digit _ (to_uint_not_nil n))
    as (c & rest & E & _ & Hminus & Hplus).
  unfold parse_signed.
  assert (Hbody :
    match DecimalString.NilEmpty.string_of_uint (N.to_uint n) with
    | String "-" s' => (true, s')
    | String "+" s' => (false, s')
    | _ => (false, DecimalString.NilEmpty.string_of_uint (N.to_uint n))
    end = (false, DecimalString.NilEmpty.string_of_uint (N.to_uint n))).
  { rewrite E.
    destruct (Ascii.eqb_spec c "-"); [contradiction|].
    destruct (Ascii.eqb_spec c "+"); [contradiction|].
    destruct c as [[] [] [] [] [] [] [] []]; try reflexivity; contradiction. }
  rewrite Hbody, (parse_magnitude_numeral _ (to_uint_not_nil n)).
  rewrite DecimalN.Unsigned.of_to. reflexivity.
Qed.

Lemma trimStart_numeral n : trimStart (string_of_N n) = string_of_N n.
Proof.
  unfold string_of_N.
  destruct (numeral_starts_with_digit _ (to_uint_not_nil n))
    as (c & rest & E & Hsp & _ & _).
  rewrite E. simpl. rewrite Hsp. reflexivity.
Qed.

(** [parseInt] gives back the integer whose decimal numeral it reads. *)
Lemma parseInt_string_of_Z z : parse_signed (trimStart (string_of_Z z)) = Int z.
Proof.
  unfold string_of_Z. destruct (Z.ltb_spec z 0) as [Hneg|Hpos].
  - change (trimStart ("-" +:+ string_of_N (Z.to_N (- z))))
      with (String "-" (string_of_N (Z.to_N (- z)))).
    unfold parse_signed. cbv iota beta. unfold string_of_N.
    rewrite (parse_magnitude_numeral _ (to_uint_not_nil _)).
    rewrite DecimalN.Unsigned.of_to. f_equal. lia.
  - rewrite trimStart_numeral, parse_signed_numeral. f_equal. lia.
Qed.

Lemma parseInt_integer z : parseInt (VNum (Int z)) = Int z.
Proof. apply parseInt_string_of_Z. Qed.

Lemma parseInt_numeral z : parseInt (VStr (string_of_Z z)) = Int z.
Proof. apply parseInt_string_of_Z. Qed.

(** ** The record sent: names and department *)

Lemma records_of_createRecord table records :
  records_of (createRecord table records) = records.
Proof. reflexivity. Qed.

Lemma records_of_updateRecord table records :
  records_of (updateRecord table records) = records.
Proof. reflexivity. Qed.

(** The one record [create] and [update] send when the names come from
    [fullName]. *)
Lemma saves_send_names ApperSDK this client (id employeeData : value) fullName :
  client_in_use ApperSDK this = Some client ->
  prop employeeData "fullName" = VStr fullName ->
  truthy (prop employeeData "first_name_c") = false ->
  truthy (prop employeeData "last_name_c") = false ->
  (exists record,
     records_sent (trace_of (EmployeeService.create ApperSDK employeeData this))
     = [record]
     /\ Id record = None /\ names_from fullName record)
  /\ (exists record,
        records_sent (trace_of (EmployeeService.update ApperSDK id employeeData this))
        = [record]
        /\ Id record = Some id /\ names_from fullName record).
Proof.
  intros Hc Hfull Hfirst Hlast. split.
  - destruct (build_record_names None employeeData fullName (ready ApperSDK this)
                Hfull Hfirst Hlast) as (record & Eb & Hid & Hnames).
    exists record. split; [|split; assumption].
    rewrite (create_is_save ApperSDK this).
    exact (save_sends_built ApperSDK this client _ _ _ _ _ _ record Hc
             records_of_createRecord Eb).
  - destruct (build_record_names (Some id) employeeData fullName (ready ApperSDK this)
                Hfull Hfirst Hlast) as (record & Eb & Hid & Hnames).
    exists record. split; [|split; assumption].
    rewrite (update_is_save ApperSDK this).
    exact (save_sends_built ApperSDK this client _ _ _ _ _ _ record Hc
             records_of_updateRecord Eb).
Qed.

(** C3. With no [first_name_c] and no [last_name_c] given (absent, or
    falsy in any other way) and a string for [fullName], the record [create]
    sends, and the one [update] sends, has [Name] equal to [fullName],
    [first_name_c] equal to the first piece of [fullName] split at spaces
    and [last_name_c] equal to the other pieces joined by spaces; for two
    words [w1 w2] (as in "Jane Doe") these are [w1] and [w2]. *)
Theorem C3_fullName_splits_into_names
    ApperSDK this client (id employeeData : value) fullName :
  client_in_use ApperSDK this = Some client ->
  prop employeeData "fullName" = VStr fullName ->
  truthy (prop employeeData "first_name_c") = false ->
  truthy (prop employeeData "last_name_c") = false ->
  (exists record,
     records_sent (trace_of (EmployeeService.create ApperSDK employeeData this))
     = [record]
     /\ names_from fullName record
     /\ forall w1 w2,
          fullName = w1 +:+ " " +:+ w2 ->
          has_char " " w1 = false -> has_char " " w2 = false ->
          first_name_c record = VStr w1 /\ last_name_c record = VStr w2)
  /\ (exists record,
        records_sent (trace_of (EmployeeService.update ApperSDK id employeeData this))
        = [record]
        /\ names_from fullName record
        /\ forall w1 w2,
             fullName = w1 +:+ " " +:+ w2 ->
             has_char " " w1 = false -> has_char " " w2 = false ->
             first_name_c record = VStr w1 /\ last_name_c record = VStr w2).
Proof.
  intros Hc Hfull Hfirst Hlast.
  assert (Htwo : forall record, names_from fullName record ->
            forall w1 w2,
              fullName = w1 +:+ " " +:+ w2 ->
              has_char " " w1 = false -> has_char " " w2 = false ->
              first_name_c record = VStr w1 /\ last_name_c record = VStr w2).
  { intros record (_ & Hf & Hl) w1 w2 -> H1 H2.
    rewrite Hf, Hl, (split_two_words w1 w2 H1 H2). split; reflexivity. }
  destruct (saves_send_names ApperSDK this client id employeeData fullName
              Hc Hfull Hfirst Hlast)
    as [(rc & Ec & _ & Hnc) (ru & Eu & _ & Hnu)].
  split; [exists rc | exists ru]; (split; [assumption | split; [assumption | auto]]).
Qed.

Lemma C3_fullName_splits_into_names_witness :
  exists record,
    records_sent (trace_of (EmployeeService.create None jane
                              (service_with (Resolves (Some saved)))))
    = [record]
    /\ Name record = VStr "Jane Doe"
    /\ first_name_c record = VStr "Jane"
    /\ last_name_c record = VStr "Doe".
Proof.
  destruct (C3_fullName_splits_into_names None (service_with (Resolves (Some saved)))
              (answering (Resolves (Some saved))) (VNum (Int 7)) jane "Jane Doe"
              eq_refl eq_refl eq_refl eq_refl)
    as [(record & Esent & (HName & _ & _) & Htwo) _].
  exists record.
  destruct (Htwo "Jane" "Doe" eq_refl eq_refl eq_refl) as [Hfirst Hlast].
  repeat split; assumption.
Defined.

(** C9. With no [first_name_c] and no [last_name_c] given and a [fullName]
    of one word (no space in it), the record [create] sends, and the one
    [update] sends, has [first_name_c] and [Name] equal to that word and
    [last_name_c] empty. *)
Theorem C9_single_word_fullName
    ApperSDK this client (id employeeData : value) word :
  client_in_use ApperSDK this = Some client ->
  prop employeeData "fullName" = VStr word ->
  has_char " " word = false ->
  truthy (prop employeeData "first_name_c") = false ->
  truthy (prop employeeData "last_name_c") = false ->
  (exists record,
     records_sent (trace_of (EmployeeService.create ApperSDK employeeData this))
     = [record]
     /\ first_name_c record = VStr word
     /\ last_name_c record = VStr ""
     /\ Name record = VStr word)
  /\ (exists record,
        records_sent (trace_of (EmployeeService.update ApperSDK id employeeData this))
        = [record]
        /\ first_name_c record = VStr word
        /\ last_name_c record = VStr ""
        /\ Name record = VStr word).
Proof.
  intros Hc Hfull Hword Hfirst Hlast.
  destruct (saves_send_names ApperSDK this client id employeeData word
              Hc Hfull Hfirst Hlast)
    as [(rc & Ec & _ & HNc & Hfc & Hlc) (ru & Eu & _ & HNu & Hfu & Hlu)].
  rewrite (split_no_sep _ _ Hword) in Hfc, Hlc, Hfu, Hlu. simpl in Hfc, Hlc, Hfu, Hlu.
  split; [exists rc | exists ru]; repeat split; assumption.
Qed.

Lemma C9_single_word_fullName_witness :
  exists record,
    records_sent (trace_of (EmployeeService.update None (VNum (Int 7)) cher
                              (service_with (Resolves (Some saved)))))
    = [record]
    /\ first_name_c record = VStr "Cher"
    /\ last_name_c record = VStr ""
    /\ Name record = VStr "Cher".
Proof.
  destruct (C9_single_word_fullName None (service_with (Resolves (Some saved)))
              (answering (Resolves (Some saved))) (VNum (Int 7)) cher "Cher"
              eq_refl eq_refl eq_refl eq_refl eq_refl) as [_ Hupdate].
  exact Hupdate.
Defined.

Lemma parseInt_not_numeral v : begins_numeral (to_string v) = false -> parseInt v = NaN.
Proof.
  unfold parseInt. destruct (to_string v) as [|c rest]; [reflexivity|].
  unfold begins_numeral.
  destruct c as [[] [] [] [] [] [] [] []]; intros H;
    try discriminate H; reflexivity.
Qed.

(** C5, as amended. In the record [create] or [update] sends,
    [department_id_c] is [parseInt] of the value given ([department_id_c],
    else [departmentId], else 0): it is 0 when neither is given; the
    integer [z] when the value given is the number [z] or its decimal
    numeral and [z] is a safe integer; and [NaN] whenever the text of the
    value given is empty or begins with a character that is neither white
    space, a sign nor a decimal digit. *)
Theorem C5_department_is_parseInt_of_given
    ApperSDK this (id employeeData : value) record :
  In record (records_sent (trace_of (EmployeeService.create ApperSDK employeeData this)))
  \/ In record
       (records_sent (trace_of (EmployeeService.update ApperSDK id employeeData this))) ->
  let given := or_else (or_else (prop employeeData "department_id_c")
                                (prop employeeData "departmentId"))
                       (VNum (Int 0)) in
  department_id_c record = VNum (parseInt given)
  /\ (truthy (prop employeeData "department_id_c") = false ->
      truthy (prop employeeData "departmentId") = false ->
      department_id_c record = VNum (Int 0))
  /\ (forall z,
        isSafeInteger z = true ->
        given = VNum (Int z) \/ given = VStr (string_of_Z z) ->
        department_id_c record = VNum (Int z))
  /\ (begins_numeral (to_string given) = false ->
      department_id_c record = VNum NaN).
Proof.
  intros Hin given.
  assert (Hd : department_id_c record = VNum (parseInt given)).
  { destruct Hin as [Hin|Hin].
    - rewrite (create_is_save ApperSDK this) in Hin.
      apply (save_sends ApperSDK this _ _ _ _ _ _ _ records_of_createRecord) in Hin.
      apply build_record_department in Hin. apply Hin.
    - rewrite (update_is_save ApperSDK this) in Hin.
      apply (save_sends ApperSDK this _ _ _ _ _ _ _ records_of_updateRecord) in Hin.
      apply build_record_department in Hin. apply Hin. }
  refine (conj Hd (conj _ (conj _ _))).
  - intros H1 H2. rewrite Hd. subst given. unfold or_else. rewrite H1, H2.
    reflexivity.
  - intros z _ [Hz|Hz]; rewrite Hd, Hz.
    + rewrite parseInt_integer. reflexivity.
    + rewrite parseInt_numeral. reflexivity.
  - intros Hb. rewrite Hd, (parseInt_not_numeral given Hb). reflexivity.
Qed.

Lemma C5_department_is_parseInt_of_given_witness :
  In jane_sent
     (records_sent (trace_of (EmployeeService.create None jane
                                (service_with (Resolves (Some saved))))))
  /\ department_id_c jane_sent = VNum (parseInt (VStr "12"))
  /\ department_id_c jane_sent = VNum (Int 12).
Proof.
  assert (Hin : In jane_sent
     (records_sent (trace_of (EmployeeService.create None jane
                                (service_with (Resolves (Some saved))))))).
  { left. reflexivity. }
  destruct (C5_department_is_parseInt_of_given None
              (service_with (Resolves (Some saved))) VNull jane jane_sent
              (or_introl Hin)) as (Hd & _ & Hz & _).
  refine (conj Hin (conj Hd _)).
  apply (Hz 12); [reflexivity | right; reflexivity].
Defined.

(** C5 as stated fails: a value that does not read as a numeral, such as
    the text "abc" or the lookup object the store returns for a department,
    gives [NaN], which is no integer. *)
Lemma C5_department_can_be_NaN :
  map department_id_c
    (records_sent
       (trace_of (EmployeeService.create None
                    (VObj [("fullName", VStr "Jane Doe"); ("departmentId", VStr "abc")])
                    (service_with (Resolves (Some saved))))))
  = [VNum NaN]
  /\ map department_id_c
       (records_sent
          (trace_of (EmployeeService.update None (VNum (Int 7))
                       (VObj [("fullName", VStr "Jane Doe");
                              ("department_id_c",
                               VObj [("Id", VNum (Int 12));
                                     ("Name", VStr "Engineering")])])
                       (service_with (Resolves (Some saved))))))
     = [VNum NaN].
Proof. split; reflexivity. Qed.

(** ** Regular expressions: the matcher decides the language *)

#[local] Arguments String.append : simpl nomatch.

Section RegexFacts.
Import Regex.

Lemma append_empty s1 s2 : s1 +:+ s2 = "" -> s1 = "" /\ s2 = "".
Proof. destruct s1; simpl; [auto | discriminate]. Qed.

Lemma nullable_spec r : nullable r = true <-> Matches r "".
Proof.
  split.
  - induction r; simpl; intros H; try discriminate.
    + constructor.
    + apply andb_true_iff in H as [H1 H2].
      change "" with ("" +:+ ""). constructor; auto.
    + apply orb_true_iff in H as [H|H]; [apply MAltL | apply MAltR]; auto.
    + constructor.
  - intros H. remember "" as s eqn:Es.
    induction H; simpl; try discriminate; try reflexivity.
    + apply append_empty in Es as [-> ->].
      rewrite IHMatches1, IHMatches2; reflexivity.
    + rewrite IHMatches; auto.
    + rewrite IHMatches; auto using orb_true_r.
Qed.

Lemma deriv_sound c r : forall s, Matches (deriv c r) s -> Matches r (String c s).
Proof.
  induction r as [| |p|r1 IH1 r2 IH2|r1 IH1 r2 IH2|r1 IH1]; simpl; intros s H.
  - inversion H.
  - inversion H.
  - destruct (p c) eqn:Hp; inversion H; subst. constructor. exact Hp.
  - assert (Hseq : forall s, Matches (Seq (deriv c r1) r2) s ->
                     Matches (Seq r1 r2) (String c s)).
    { intros s0 H0. inversion H0; subst.
      change (String c (s1 +:+ s2)) with (String c s1 +:+ s2).
      constructor; auto. }
    destruct (nullable r1) eqn:Hn.
    + inversion H; subst; [auto|].
      change (String c s) with ("" +:+ String c s).
      constructor; [apply nullable_spec; exact Hn | auto].
    + auto.
  - inversion H; subst; [apply MAltL | apply MAltR]; auto.
  - inversion H; subst.
    change (String c (s1 +:+ s2)) with (String c s1 +:+ s2).
    constructor; auto.
Qed.

Lemma deriv_complete r s' :
  Matches r s' -> forall c s, s' = String c s -> Matches (deriv c r) s.
Proof.
  induction 1 as [|p c0 Hp|r1 r2 s1 s2 H1 IH1 H2 IH2|r1 r2 s0 H0 IH0
                  |r1 r2 s0 H0 IH0|r0|r0 s1 s2 H1 IH1 H2 IH2];
    intros c s E; simpl.
  - discriminate.
  - inversion E; subst. rewrite Hp. constructor.
  - destruct s1 as [|c1 s1']; simpl in E.
    + subst s2. apply nullable_spec in H1. rewrite H1.
      apply MAltR. apply IH2. reflexivity.
    + inversion E; subst.
      assert (Hs : Matches (Seq (deriv c r1) r2) (s1' +:+ s2)).
      { constructor; [apply IH1; reflexivity | exact H2]. }
      destruct (nullable r1); [apply MAltL|]; exact Hs.
  - apply MAltL. apply IH0. exact E.
  - apply MAltR. apply IH0. exact E.
  - discriminate.
  - destruct s1 as [|c1 s1']; simpl in E.
    + apply IH2. exact E.
    + inversion E; subst. constructor; [apply IH1; reflexivity | exact H2].
Qed.

Lemma deriv_spec c r s : Matches (deriv c r) s <-> Matches r (String c s).
Proof.
  split; [apply deriv_sound | intros H; exact (deriv_complete _ _ H c s eq_refl)].
Qed.

Theorem test_spec r s : test r s = true <-> Matches r s.
Proof.
  revert r. induction s as [|c s IH]; intros r; simpl.
  - apply nullable_spec.
  - rewrite IH. apply deriv_spec.
Qed.
End RegexFacts.

(** ** The email pattern *)

Section EmailPattern.
Import Regex EmployeeModal.

Lemma star_class p s : Matches (Star (Class p)) s <-> all_chars p s = true.
Proof.
  split.
  - intros H. remember (Star (Class p)) as r eqn:Er.
    induction H; try discriminate; [reflexivity|].
    inversion Er; subst. inversion H; subst. simpl.
    rewrite IHMatches2 by reflexivity.
    match goal with Hp : p _ = true |- _ => rewrite Hp end. reflexivity.
  - induction s as [|c s IH]; simpl; intros H.
    + constructor.
    + apply andb_true_iff in H as [Hc Hs].
      change (String c s) with (String c "" +:+ s).
      constructor; [constructor; exact Hc | auto].
Qed.

Lemma plus_class p s :
  Matches (Plus (Class p)) s <-> s <> "" /\ all_chars p s = true.
Proof.
  unfold Plus. split.
  - intros H. inversion H as [| |r1 r2 s1 s2 H1 H2| | | |]; subst.
    inversion H1; subst. apply star_class in H2. simpl.
    split; [discriminate|].
    match goal with Hp : p _ = true |- _ => rewrite Hp end. exact H2.
  - intros [Hne Hs]. destruct s as [|c s]; [contradiction|].
    simpl in Hs. apply andb_true_iff in Hs as [Hc Hs].
    change (String c s) with (String c "" +:+ s).
    constructor; [constructor; exact Hc | apply star_class; exact Hs].
Qed.

Lemma char_match c s : Matches (Char c) s <-> s = String c "".
Proof.
  unfold Char. split.
  - intros H. inversion H; subst.
    match goal with Hp : Ascii.eqb _ _ = true |- _ =>
      apply Ascii.eqb_eq in Hp; subst end.
    reflexivity.
  - intros ->. constructor. apply Ascii.eqb_refl.
Qed.

Lemma seq_match r1 r2 s :
  Matches (Seq r1 r2) s <->
  exists s1 s2, s = s1 +:+ s2 /\ Matches r1 s1 /\ Matches r2 s2.
Proof.
  split.
  - intros H. inversion H; subst. eauto.
  - intros (s1 & s2 & -> & H1 & H2). constructor; assumption.
Qed.

Lemma email_pattern_shape s : Matches email_pattern s <-> email_shape s.
Proof.
  unfold email_pattern, email_shape, atom. split.
  - intros H.
    apply seq_match in H as (a & s1 & -> & Ha & H).
    apply seq_match in H as (at_ & s2 & -> & Hat & H).
    apply seq_match in H as (b & s3 & -> & Hb & H).
    apply seq_match in H as (dot & c & -> & Hdot & Hc).
    apply char_match in Hat as ->. apply char_match in Hdot as ->.
    apply plus_class in Ha, Hb, Hc.
    exists a, b, c. auto.
  - intros (a & b & c & -> & Ha & Hb & Hc).
    apply plus_class in Ha, Hb, Hc.
    constructor; [exact Ha|].
    constructor; [apply char_match; reflexivity|].
    constructor; [exact Hb|].
    constructor; [apply char_match; reflexivity | exact Hc].
Qed.

Lemma test_email_shape s : test email_pattern s = true <-> email_shape s.
Proof. rewrite test_spec. apply email_pattern_shape. Qed.

(** Counting characters along a concatenation. *)
Lemma has_char_app c s1 s2 :
  has_char c (s1 +:+ s2) = has_char c s1 || has_char c s2.
Proof.
  induction s1 as [|x s1 IH]; simpl; [reflexivity|].
  rewrite IH. apply orb_assoc.
Qed.

Lemma has_space_app s1 s2 : has_space (s1 +:+ s2) = has_space s1 || has_space s2.
Proof.
  induction s1 as [|x s1 IH]; simpl; [reflexivity|].
  rewrite IH. apply orb_assoc.
Qed.

Lemma count_char_app c s1 s2 :
  count_char c (s1 +:+ s2) = (count_char c s1 + count_char c s2)%nat.
Proof.
  induction s1 as [|x s1 IH]; simpl; [reflexivity|].
  rewrite IH. lia.
Qed.

Lemma atom_chars s :
  all_chars not_space_at s = true ->
  has_char "@" s = false /\ has_space s = false /\ count_char "@" s = 0%nat.
Proof.
  induction s as [|x s IH]; simpl; [auto|].
  intros H. apply andb_true_iff in H as [Hx Hs].
  destruct (IH Hs) as (H1 & H2 & H3).
  unfold not_space_at in Hx. apply negb_true_iff, orb_false_iff in Hx as [Hsp Hat].
  rewrite Hsp, Hat, H1, H2, H3. auto.
Qed.

(** A string is cut at a given character in one way only, when the
    character occurs nowhere else. *)
Lemma cut_unique x a r l d :
  a +:+ String x r = l +:+ String x d ->
  has_char x a = false -> has_char x r = false ->
  a = l /\ r = d.
Proof.
  revert l. induction a as [|y a IH]; intros l E Ha Hr.
  - destruct l as [|z l]; simpl in E.
    + inversion E. auto.
    + inversion E; subst. rewrite has_char_app in Hr. simpl in Hr.
      rewrite Ascii.eqb_refl, orb_true_r in Hr. discriminate.
  - simpl in Ha. apply orb_false_iff in Ha as [Hy Ha].
    destruct l as [|z l]; simpl in E.
    + inversion E; subst. rewrite Ascii.eqb_refl in Hy. discriminate.
    + inversion E; subst. destruct (IH l H1 Ha Hr) as [-> ->]. auto.
Qed.

(** What the pattern demands of a string it takes. *)
Lemma email_shape_demands s :
  email_shape s ->
  has_char "@" s = true
  /\ count_char "@" s = 1%nat
  /\ has_space s = false
  /\ forall l d, s = l +:+ "@" +:+ d -> has_char "." d = true.
Proof.
  intros (a & b & c & -> & [_ Ha] & [_ Hb] & [_ Hc]).
  apply atom_chars in Ha as (Ha1 & Ha2 & Ha3).
  apply atom_chars in Hb as (Hb1 & Hb2 & Hb3).
  apply atom_chars in Hc as (Hc1 & Hc2 & Hc3).
  refine (conj _ (conj _ (conj _ _))).
  - rewrite has_char_app. simpl. apply orb_true_r.
  - rewrite count_char_app. simpl. rewrite count_char_app. simpl.
    rewrite Ha3, Hb3, Hc3. reflexivity.
  - rewrite has_space_app. simpl. rewrite has_space_app. simpl.
    rewrite Ha2, Hb2, Hc2. reflexivity.
  - intros l d E.
    change (a +:+ String "@" (b +:+ "." +:+ c) = l +:+ String "@" d) in E.
    apply cut_unique in E as [_ <-]; [| exact Ha1 |].
    + rewrite has_char_app. simpl. apply orb_true_r.
    + rewrite has_char_app. simpl. rewrite Hb1, Hc1. reflexivity.
Qed.
End EmailPattern.

(** ** The form: validation *)

Section Validation.
Import EmployeeModal.

Lemma newErrors_fullName f :
  newErrors f !! "fullName"
  = if is_empty (trim (fullName f)) then Some "Full name is required" else None.
Proof. unfold newErrors. repeat case_match; by simplify_map_eq. Qed.

Lemma newErrors_email f : newErrors f !! "email" = email_error f.
Proof. unfold newErrors, email_error. repeat case_match; by simplify_map_eq. Qed.

Lemma newErrors_phone f :
  newErrors f !! "phone"
  = if is_empty (trim (phone f)) then Some "Phone is required" else None.
Proof. unfold newErrors. repeat case_match; by simplify_map_eq. Qed.

Lemma newErrors_role f :
  newErrors f !! "role"
  = if is_empty (trim (role f)) then Some "Role is required" else None.
Proof. unfold newErrors. repeat case_match; by simplify_map_eq. Qed.

Lemma newErrors_departmentId f :
  newErrors f !! "departmentId"
  = if negb (truthy (departmentId f)) then Some "Department is required" else None.
Proof. unfold newErrors. repeat case_match; by simplify_map_eq. Qed.

Lemma newErrors_hireDate f :
  newErrors f !! "hireDate"
  = if is_empty (hireDate f) then Some "Hire date is required" else None.
Proof. unfold newErrors. repeat case_match; by simplify_map_eq. Qed.
End Validation.

Section Blank.
Import EmployeeModal.

Lemma trimEnd_blank s : trimEnd s = "" <-> all_chars is_space s = true.
Proof.
  induction s as [|c s IH]; simpl; [tauto|].
  destruct (is_space c); simpl.
  - destruct (String.eqb_spec (trimEnd s) "") as [E|E].
    + split; [intros _; apply IH; exact E | reflexivity].
    + split; [discriminate | intros H; apply IH in H; contradiction].
  - split; discriminate.
Qed.

Lemma trimStart_blank s :
  all_chars is_space (trimStart s) = all_chars is_space s.
Proof.
  induction s as [|c s IH]; simpl; [reflexivity|].
  destruct (is_space c) eqn:Hc; simpl; [exact IH | rewrite Hc; reflexivity].
Qed.

(** [!s.trim()] holds for the empty and the white-space-only strings, and
    for no other. *)
Lemma is_empty_trim s : is_empty (trim s) = blank s.
Proof.
  unfold is_empty, trim, blank.
  destruct (String.eqb_spec (trimEnd (trimStart s)) "") as [E|E].
  - apply trimEnd_blank in E. rewrite trimStart_blank in E. auto.
  - destruct (all_chars is_space s) eqn:Hb; [|reflexivity].
    rewrite <- trimStart_blank in Hb. apply trimEnd_blank in Hb. contradiction.
Qed.

End Blank.

Section Submit.
Import EmployeeModal.
Variable ApperSDK : option ApperClient.
Variable employee : value.

Lemma validateForm_spec w :
  validateForm w
  = (with_errors w (newErrors (formData w)), [],
     Normal (size (newErrors (formData w)) =? 0)%nat).
Proof. reflexivity. Qed.

Lemma size_zero_empty (e : gmap string string) :
  (size e =? 0)%nat = true <-> e = ∅.
Proof. rewrite Nat.eqb_eq. apply map_size_empty_iff. Qed.

Lemma error_recorded_invalid (e : gmap string string) k msg :
  e !! k = Some msg -> (size e =? 0)%nat = false.
Proof.
  intros Hk. destruct (size e =? 0)%nat eqn:Hs; [|reflexivity].
  apply size_zero_empty in Hs. subst e. rewrite lookup_empty in Hk. discriminate.
Qed.

(** A draft that does not validate is not submitted: [handleSubmit] stops
    after [validateForm]. *)
Lemma handleSubmit_invalid w :
  (size (newErrors (formData w)) =? 0)%nat = false ->
  handleSubmit ApperSDK employee w
  = (with_errors w (newErrors (formData w)), [PreventDefault], Normal VUndefined).
Proof.
  intros Hs. unfold handleSubmit.
  rewrite (bind_normal get_state _ w w eq_refl).
  rewrite (bind_run (emit PreventDefault) _ w w [PreventDefault] tt eq_refl).
  rewrite (bind_run validateForm _ w _ _ _ (validateForm_spec w)), Hs.
  reflexivity.
Qed.

Lemma missing_invalid f :
  missing f = true -> (size (newErrors f) =? 0)%nat = false.
Proof.
  unfold missing. intros H.
  repeat (apply orb_true_iff in H as [H|H]).
  - apply (error_recorded_invalid _ "fullName" "Full name is required").
    rewrite newErrors_fullName, is_empty_trim, H. reflexivity.
  - pose proof (newErrors_email f) as He. unfold email_error in He.
    rewrite is_empty_trim, H in He.
    destruct (negb (is_empty (email f)) && _);
      exact (error_recorded_invalid _ _ _ He).
  - apply (error_recorded_invalid _ "phone" "Phone is required").
    rewrite newErrors_phone, is_empty_trim, H. reflexivity.
  - apply (error_recorded_invalid _ "role" "Role is required").
    rewrite newErrors_role, is_empty_trim, H. reflexivity.
  - apply (error_recorded_invalid _ "departmentId" "Department is required").
    rewrite newErrors_departmentId, H. reflexivity.
  - apply (error_recorded_invalid _ "hireDate" "Hire date is required").
    rewrite newErrors_hireDate, H. reflexivity.
Qed.

Lemma complete_valid f :
  missing f = false -> Regex.test email_pattern (email f) = true ->
  newErrors f = ∅.
Proof.
  unfold missing. intros H Ht.
  repeat (apply orb_false_iff in H as [H ?]).
  unfold newErrors. rewrite !is_empty_trim.
  match goal with H1 : negb _ = false, H2 : is_empty _ = false |- _ =>
    rewrite H1, H2 end.
  rewrite H, Ht.
  repeat match goal with Hb : blank _ = false |- _ => rewrite Hb; clear Hb end.
  rewrite andb_false_r. reflexivity.
Qed.

(** An email that is there and that the pattern refuses. *)
Lemma email_refused w :
  email (formData w) <> "" ->
  Regex.test email_pattern (email (formData w)) = false ->
  newErrors (formData w) !! "email" = Some "Please enter a valid email address"
  /\ validateForm w = (with_errors w (newErrors (formData w)), [], Normal false).
Proof.
  intros Hne Ht.
  assert (He : newErrors (formData w) !! "email"
               = Some "Please enter a valid email address").
  { rewrite newErrors_email. unfold email_error, is_empty at 1.
    destruct (String.eqb_spec (email (formData w)) ""); [contradiction|].
    rewrite Ht. reflexivity. }
  split; [exact He|].
  rewrite validateForm_spec, (error_recorded_invalid _ _ _ He). reflexivity.
Qed.
End Submit.

(** ** The form: required fields and the email *)

Lemma blank_has_space s : s <> "" -> blank s = true -> has_space s = true.
Proof.
  destruct s as [|c s]; [contradiction|]. unfold blank. simpl.
  intros _ H. apply andb_true_iff in H as [Hc _]. rewrite Hc. reflexivity.
Qed.

Lemma blank_email_message f :
  blank (EmployeeModal.email f) = true ->
  EmployeeModal.newErrors f !! "email"
  = Some (if EmployeeModal.is_empty (EmployeeModal.email f)
          then "Email is required"
          else "Please enter a valid email address").
Proof.
  intros Hb. rewrite newErrors_email. unfold email_error.
  rewrite is_empty_trim, Hb.
  unfold EmployeeModal.is_empty.
  destruct (String.eqb_spec (EmployeeModal.email f) "") as [E|E]; [reflexivity|].
  destruct (Regex.test EmployeeModal.email_pattern (EmployeeModal.email f)) eqn:Ht;
    [|reflexivity].
  apply test_email_shape, email_shape_demands in Ht as (_ & _ & Hsp & _).
  rewrite (blank_has_space _ E Hb) in Hsp. discriminate.
Qed.

(** C4. A draft whose full name, email, phone or role is empty or white
    space only, or whose department or hire date is empty, gets an error
    recorded for each such field; [validateForm] then returns false and
    [handleSubmit] stops there: it changes nothing but [errors] and calls
    neither [create] nor [update], a call of which always leaves an event.
    A draft with all six fields present and an email of the shape
    [local@domain.tld] validates. *)
Theorem C4_required_fields_are_checked ApperSDK employee w :
  let f := EmployeeModal.formData w in
  (blank (EmployeeModal.fullName f) = true ->
   EmployeeModal.newErrors f !! "fullName" = Some "Full name is required")
  /\ (blank (EmployeeModal.email f) = true ->
      EmployeeModal.newErrors f !! "email"
      = Some (if EmployeeModal.is_empty (EmployeeModal.email f)
              then "Email is required"
              else "Please enter a valid email address"))
  /\ (blank (EmployeeModal.phone f) = true ->
      EmployeeModal.newErrors f !! "phone" = Some "Phone is required")
  /\ (blank (EmployeeModal.role f) = true ->
      EmployeeModal.newErrors f !! "role" = Some "Role is required")
  /\ (truthy (EmployeeModal.departmentId f) = false ->
      EmployeeModal.newErrors f !! "departmentId" = Some "Department is required")
  /\ (EmployeeModal.hireDate f = "" ->
      EmployeeModal.newErrors f !! "hireDate" = Some "Hire date is required")
  /\ (missing f = true ->
      EmployeeModal.validateForm w
      = (with_errors w (EmployeeModal.newErrors f), [], Normal false)
      /\ EmployeeModal.handleSubmit ApperSDK employee w
         = (with_errors w (EmployeeModal.newErrors f), [PreventDefault],
            Normal VUndefined))
  /\ (forall id employeeData this,
        trace_of (EmployeeService.create ApperSDK employeeData this) <> []
        /\ trace_of (EmployeeService.update ApperSDK id employeeData this) <> [])
  /\ (missing f = false -> email_shape (EmployeeModal.email f) ->
      EmployeeModal.validateForm w = (with_errors w ∅, [], Normal true)).
Proof.
  intros f. subst f.
  refine (conj _ (conj _ (conj _ (conj _ (conj _ (conj _ (conj _ (conj _ _)))))))).
  - intros H. rewrite newErrors_fullName, is_empty_trim, H. reflexivity.
  - apply blank_email_message.
  - intros H. rewrite newErrors_phone, is_empty_trim, H. reflexivity.
  - intros H. rewrite newErrors_role, is_empty_trim, H. reflexivity.
  - intros H. rewrite newErrors_departmentId, H. reflexivity.
  - intros H. rewrite newErrors_hireDate, H. reflexivity.
  - intros H. pose proof (missing_invalid _ H) as Hs. split.
    + rewrite validateForm_spec, Hs. reflexivity.
    + apply handleSubmit_invalid. exact Hs.
  - intros id employeeData this. split.
    + rewrite (create_is_save ApperSDK this). apply save_never_silent.
    + rewrite (update_is_save ApperSDK this). apply save_never_silent.
  - intros H Hshape. apply test_email_shape in Hshape.
    rewrite validateForm_spec, (complete_valid _ H Hshape). reflexivity.
Qed.

Lemma C4_required_fields_are_checked_witness :
  EmployeeModal.handleSubmit None VNull (dialog EmployeeModal.emptyForm (Resolves (Some saved)))
  = (with_errors (dialog EmployeeModal.emptyForm (Resolves (Some saved)))
       (EmployeeModal.newErrors EmployeeModal.emptyForm),
     [PreventDefault], Normal VUndefined)
  /\ EmployeeModal.newErrors EmployeeModal.emptyForm !! "hireDate"
     = Some "Hire date is required"
  /\ EmployeeModal.validateForm (dialog jane_draft (Resolves (Some saved)))
     = (with_errors (dialog jane_draft (Resolves (Some saved))) ∅, [], Normal true).
Proof.
  refine (conj _ (conj _ _)).
  - destruct (C4_required_fields_are_checked None VNull
                (dialog EmployeeModal.emptyForm (Resolves (Some saved))))
      as (_ & _ & _ & _ & _ & _ & Hmissing & _ & _).
    apply Hmissing. reflexivity.
  - destruct (C4_required_fields_are_checked None VNull
                (dialog EmployeeModal.emptyForm (Resolves (Some saved))))
      as (_ & _ & _ & _ & _ & Hhire & _ & _ & _).
    apply Hhire. reflexivity.
  - destruct (C4_required_fields_are_checked None VNull
                (dialog jane_draft (Resolves (Some saved))))
      as (_ & _ & _ & _ & _ & _ & _ & _ & Hvalid).
    apply Hvalid; [reflexivity|].
    exists "jane", "example", "com".
    repeat split; discriminate.
Defined.

(** C6. A non-empty email with no "@" in it gets the email-format error,
    and [validateForm] returns false. *)
Theorem C6_email_without_at_is_refused w :
  EmployeeModal.email (EmployeeModal.formData w) <> "" ->
  has_char "@" (EmployeeModal.email (EmployeeModal.formData w)) = false ->
  EmployeeModal.newErrors (EmployeeModal.formData w) !! "email"
  = Some "Please enter a valid email address"
  /\ EmployeeModal.validateForm w
     = (with_errors w (EmployeeModal.newErrors (EmployeeModal.formData w)), [],
        Normal false).
Proof.
  intros Hne Hat. apply email_refused; [exact Hne|].
  destruct (Regex.test _ _) eqn:Ht; [|reflexivity].
  apply test_email_shape, email_shape_demands in Ht as (Hat' & _).
  rewrite Hat in Hat'. discriminate.
Qed.

Lemma C6_email_without_at_is_refused_witness :
  EmployeeModal.newErrors (with_email jane_draft "jane.example.com") !! "email"
  = Some "Please enter a valid email address"
  /\ completion_of (EmployeeModal.validateForm
                      (dialog (with_email jane_draft "jane.example.com")
                              (Resolves (Some saved))))
     = Normal false.
Proof.
  destruct (C6_email_without_at_is_refused
              (dialog (with_email jane_draft "jane.example.com")
                      (Resolves (Some saved))))
    as [Herr Hrun]; [discriminate | reflexivity |].
  split; [exact Herr | rewrite Hrun; reflexivity].
Defined.

(** C10. The pattern asks for more than an "@": every email it takes has
    one, and a non-empty email with no "." after an "@", or with white
    space, or with more than one "@", gets the email-format error and
    [validateForm] returns false. *)
Theorem C10_email_pattern_is_stricter w :
  let email := EmployeeModal.email (EmployeeModal.formData w) in
  (Regex.test EmployeeModal.email_pattern email = true -> has_char "@" email = true)
  /\ (email <> "" ->
      (exists l d, email = l +:+ "@" +:+ d /\ has_char "." d = false)
      \/ has_space email = true
      \/ (2 <= count_char "@" email)%nat ->
      EmployeeModal.newErrors (EmployeeModal.formData w) !! "email"
      = Some "Please enter a valid email address"
      /\ EmployeeModal.validateForm w
         = (with_errors w (EmployeeModal.newErrors (EmployeeModal.formData w)), [],
            Normal false)).
Proof.
  intros email. subst email. split.
  - intros Ht. apply test_email_shape, email_shape_demands in Ht. apply Ht.
  - intros Hne Hbad. apply email_refused; [exact Hne|].
    destruct (Regex.test _ _) eqn:Ht; [|reflexivity].
    apply test_email_shape, email_shape_demands in Ht as (_ & Hcount & Hsp & Hdot).
    destruct Hbad as [(l & d & E & Hd) | [Hs | Hc]].
    + rewrite (Hdot l d E) in Hd. discriminate.
    + rewrite Hs in Hsp. discriminate.
    + rewrite Hcount in Hc. lia.
Qed.

Lemma C10_email_pattern_is_stricter_witness :
  has_char "@" "a@b" = true
  /\ EmployeeModal.newErrors (with_email jane_draft "a@b") !! "email"
     = Some "Please enter a valid email address"
  /\ completion_of (EmployeeModal.validateForm
                      (dialog (with_email jane_draft "a@b") (Resolves (Some saved))))
     = Normal false.
Proof.
  split; [reflexivity|].
  destruct (C10_email_pattern_is_stricter
              (dialog (with_email jane_draft "a@b") (Resolves (Some saved))))
    as [_ Hstrict].
  destruct Hstrict as [Herr Hrun].
  - discriminate.
  - left. exists "a", "b". split; reflexivity.
  - split; [exact Herr | rewrite Hrun; reflexivity].
Defined.

(** ** The draft across a submit and a close *)

Section Draft.
Import EmployeeModal.
Variable ApperSDK : option ApperClient.
Variable employee : value.

Lemma keeps_ret {A} (a : A) : keeps_draft (ret a).
Proof. intros w. reflexivity. Qed.

Lemma keeps_emit e : keeps_draft (emit e).
Proof. intros w. reflexivity. Qed.

Lemma keeps_get v k : keeps_draft (get v k).
Proof. intros w. unfold get. destruct (nullish v); reflexivity. Qed.

Lemma keeps_bind {A B} (m : js World A) (k : A -> js World B) :
  keeps_draft m -> (forall a, keeps_draft (k a)) -> keeps_draft (x <- m ;; k x).
Proof.
  unfold keeps_draft, state_of. intros Hm Hk w. specialize (Hm w). unfold bind.
  destruct (m w) as [[s1 t1] [a|e]]; simpl in *; [|exact Hm].
  specialize (Hk a s1). destruct (k a s1) as [[s2 t2] c]. simpl in *.
  congruence.
Qed.

Lemma keeps_try_catch {A} (body : js World A) handler :
  keeps_draft body -> (forall e, keeps_draft (handler e)) ->
  keeps_draft (try_catch body handler).
Proof.
  unfold keeps_draft, state_of. intros Hb Hh w. specialize (Hb w). unfold try_catch.
  destruct (body w) as [[s1 t1] [a|e]]; simpl in *; [exact Hb|].
  specialize (Hh e s1). destruct (handler e s1) as [[s2 t2] c]. simpl in *.
  congruence.
Qed.

Lemma keeps_try_finally {A} (body : js World A) final :
  keeps_draft body -> keeps_draft final -> keeps_draft (try_finally body final).
Proof.
  unfold keeps_draft, state_of. intros Hb Hf w. specialize (Hb w). unfold try_finally.
  destruct (body w) as [[s1 t1] c]. simpl in *.
  specialize (Hf s1). destruct (final s1) as [[s2 t2] [u|e]]; simpl in *;
    congruence.
Qed.

Lemma keeps_setLoading b : keeps_draft (setLoading b).
Proof. intros w. reflexivity. Qed.

Lemma keeps_on_service {A} (m : js EmployeeService.t A) : keeps_draft (on_service m).
Proof.
  intros w. unfold on_service.
  destruct (m (employeeService w)) as [[svc trace] c]. reflexivity.
Qed.

Lemma keeps_validateForm : keeps_draft validateForm.
Proof. intros w. reflexivity. Qed.

(** [handleSubmit] never writes the draft: there is no [setFormData] on
    its path. *)
Lemma handleSubmit_keeps_draft : keeps_draft (handleSubmit ApperSDK employee).
Proof.
  unfold handleSubmit.
  apply keeps_bind; [intros w; reflexivity | intros w0].
  apply keeps_bind; [apply keeps_emit | intros _].
  apply keeps_bind; [apply keeps_validateForm | intros valid].
  destruct valid; unfold negb; cbv iota; [|apply keeps_ret].
  apply keeps_bind; [apply keeps_setLoading | intros _].
  apply keeps_try_finally; [|apply keeps_setLoading].
  apply keeps_try_catch.
  - apply keeps_bind.
    + destruct (truthy employee).
      * apply keeps_bind; [apply keeps_get | intros id].
        apply keeps_bind; [apply keeps_on_service | intros _]. apply keeps_emit.
      * apply keeps_bind; [apply keeps_on_service | intros _]. apply keeps_emit.
    + intros _. apply keeps_bind; [apply keeps_emit | intros _].
      apply keeps_bind; [apply keeps_emit | intros _]. apply keeps_ret.
  - intros e. apply keeps_bind; [apply keeps_get | intros msg].
    apply keeps_bind; [apply keeps_emit | intros _]. apply keeps_ret.
Qed.

(** [handleClose] puts the empty draft back and clears the errors. *)
Lemma handleClose_resets w :
  handleClose w
  = ({| formData := emptyForm; loading := loading w; errors := ∅;
        employeeService := employeeService w |},
     [OnClose], Normal VUndefined).
Proof. reflexivity. Qed.

(** The empty draft does not validate, so a draft that was submitted is
    not the empty one. *)
Lemma submitted_not_empty w :
  completion_of (validateForm w) = Normal true -> formData w <> emptyForm.
Proof.
  intros Hv E. rewrite validateForm_spec, E in Hv.
  unfold completion_of, snd in Hv.
  rewrite (missing_invalid emptyForm eq_refl) in Hv. discriminate.
Qed.
End Draft.

(** C7, on the code. [handleClose] puts the empty draft back. [handleSubmit]
    does not: whatever the service answers, the draft after it is the draft
    before it, and a draft that passed [validateForm] is never the empty
    one. *)
Theorem C7_submit_keeps_the_draft ApperSDK employee w :
  EmployeeModal.formData (state_of (EmployeeModal.handleClose w))
  = EmployeeModal.emptyForm
  /\ EmployeeModal.formData (state_of (EmployeeModal.handleSubmit ApperSDK employee w))
     = EmployeeModal.formData w
  /\ (completion_of (EmployeeModal.validateForm w) = Normal true ->
      EmployeeModal.formData
        (state_of (EmployeeModal.handleSubmit ApperSDK employee w))
      <> EmployeeModal.emptyForm).
Proof.
  refine (conj _ (conj _ _)).
  - rewrite handleClose_resets. reflexivity.
  - apply handleSubmit_keeps_draft.
  - intros Hv. rewrite handleSubmit_keeps_draft. apply submitted_not_empty. exact Hv.
Qed.

(** C7 at a concrete run: a new employee is created, the success toast is
    shown and the parent is told to close, and the draft is still there. *)
Lemma C7_submit_keeps_the_draft_witness :
  let w := dialog jane_draft (Resolves (Some saved)) in
  let run := EmployeeModal.handleSubmit None VNull w in
  completion_of run = Normal VUndefined
  /\ toasts (trace_of run)
     = [ToastError (VStr "Email: already in use");
        ToastError (VStr "1 record failed");
        ToastSuccess (VStr "Employee created successfully")]
  /\ EmployeeModal.formData (state_of run) = jane_draft
  /\ EmployeeModal.formData (state_of run) <> EmployeeModal.emptyForm.
Proof.
  intros w run.
  destruct (C7_submit_keeps_the_draft None VNull w) as (_ & Hkeep & Hne).
  refine (conj _ (conj _ (conj _ _))).
  - vm_compute. reflexivity.
  - vm_compute. reflexivity.
  - exact Hkeep.
  - apply Hne. vm_compute. reflexivity.
Defined.

(** * Further properties of the service *)

(** ** Code that sends nothing *)

Section Quiet.
Context {S : Type}.

Lemma quiet_ret {A} (a : A) : quiet (S := S) (ret a).
Proof. intros s. split; reflexivity. Qed.

Lemma quiet_throw {A} e : quiet (@throw S A e).
Proof. intros s. split; reflexivity. Qed.

Lemma quiet_emit e : is_sdk_call e = false -> quiet (S := S) (emit e).
Proof.
  intros He s. split; [reflexivity|]. destruct e; try reflexivity. discriminate.
Qed.

Lemma quiet_bind {A B} (m : js S A) (k : A -> js S B) :
  quiet m -> (forall a, quiet (k a)) -> quiet (x <- m ;; k x).
Proof.
  unfold quiet, state_of, trace_of. intros Hm Hk s. specialize (Hm s). unfold bind.
  destruct (m s) as [[s1 t1] [a|e]]; simpl in *; [|exact Hm].
  destruct Hm as [-> Ht1]. specialize (Hk a s).
  destruct (k a s) as [[s2 t2] c]. simpl in *. destruct Hk as [-> Ht2].
  split; [reflexivity|]. rewrite sent_app, Ht1, Ht2. reflexivity.
Qed.

Lemma quiet_try_catch {A} (body : js S A) handler :
  quiet body -> (forall e, quiet (handler e)) -> quiet (try_catch body handler).
Proof.
  unfold quiet, state_of, trace_of. intros Hb Hh s. specialize (Hb s).
  unfold try_catch.
  destruct (body s) as [[s1 t1] [a|e]]; simpl in *; [exact Hb|].
  destruct Hb as [-> Ht1]. specialize (Hh e s).
  destruct (handler e s) as [[s2 t2] c]. simpl in *. destruct Hh as [-> Ht2].
  split; [reflexivity|]. rewrite sent_app, Ht1, Ht2. reflexivity.
Qed.

Lemma quiet_when b (m : js S unit) : quiet m -> quiet (when b m).
Proof. intros Hm. destruct b; [exact Hm | apply quiet_ret]. Qed.

Lemma quiet_for_each {A} (items : list A) (body : A -> js S unit) :
  (forall x, quiet (body x)) -> quiet (for_each items body).
Proof.
  intros Hb. induction items as [|x rest IH]; simpl.
  - apply quiet_ret.
  - apply quiet_bind; [apply Hb | intros _; exact IH].
Qed.

Lemma quiet_get v k : quiet (@get S v k).
Proof. unfold get. destruct (nullish v); [apply quiet_throw | apply quiet_ret]. Qed.
End Quiet.

Lemma quiet_report prefix error : quiet (EmployeeService.report prefix error).
Proof.
  unfold EmployeeService.report. destruct (truthy _).
  - apply quiet_emit. reflexivity.
  - apply quiet_bind; [apply quiet_get | intros msg; apply quiet_emit; reflexivity].
Qed.

Lemma quiet_deref response k : quiet (EmployeeService.deref response k).
Proof. destruct response; [apply quiet_ret | apply quiet_throw]. Qed.

(** A [catch] block of the class. *)
Lemma quiet_catch prefix (sentinel : value) error :
  quiet (EmployeeService.report prefix error ;; ret sentinel).
Proof. apply quiet_bind; [apply quiet_report | intros _; apply quiet_ret]. Qed.

Ltac quiet_steps :=
  repeat first
    [ apply quiet_ret | apply quiet_throw | apply quiet_get | apply quiet_deref
    | apply quiet_report
    | (apply quiet_emit; reflexivity)
    | (apply quiet_when)
    | (apply quiet_for_each; intros ?)
    | (apply quiet_bind; [| intros ?])
    | match goal with |- quiet (if ?b then _ else _) => destruct b end
    | match goal with |- quiet (match ?o with Some _ => _ | None => _ end) =>
        destruct o end ].

(** ** One request at most, and the client kept *)

Lemma run_parts {S A} (r : S * list event * completion A) :
  r = (state_of r, trace_of r, completion_of r).
Proof. destruct r as [[s t] c]. reflexivity. Qed.

Lemma state_of_run {S A} (s : S) t (c : completion A) : state_of (s, t, c) = s.
Proof. reflexivity. Qed.

Lemma trace_of_run {S A} (s : S) t (c : completion A) : trace_of (s, t, c) = t.
Proof. reflexivity. Qed.

Lemma completion_of_run {S A} (s : S) t (c : completion A) :
  completion_of (s, t, c) = c.
Proof. reflexivity. Qed.

Lemma try_catch_throw_run {S A} (body : js S A) handler s s1 t1 e :
  body s = (s1, t1, Throw e) ->
  try_catch body handler s
  = (state_of (handler e s1), t1 ++ trace_of (handler e s1),
     completion_of (handler e s1)).
Proof.
  intros Eb. unfold try_catch. rewrite Eb.
  destruct (handler e s1) as [[s2 t2] c]. reflexivity.
Qed.

Lemma try_catch_normal_run {S A} (body : js S A) handler s s1 t1 a :
  body s = (s1, t1, Normal a) -> try_catch body handler s = (s1, t1, Normal a).
Proof. intros Eb. unfold try_catch. rewrite Eb. reflexivity. Qed.

Section OneRequest.
Import EmployeeService.
Variable ApperSDK : option ApperClient.
Variable this : t.

(** A method that calls the store first thing and then only computes and
    notifies. *)
Lemma calling_method_run {A} method req
      (k : option Response.t -> js t A) (handler : value -> js t A) :
  (forall response, quiet (k response)) ->
  (forall e, quiet (handler e)) ->
  let run := try_catch (ensure_client ApperSDK ;;
                        response <- call method req ;; k response)
               handler this in
  state_of run = ready ApperSDK this
  /\ sent (trace_of run) = requests ApperSDK this (req (tableName this)).
Proof.
  intros Hk Hh run. subst run. rewrite method_ready. unfold requests.
  destruct (client_in_use ApperSDK this) as [client|] eqn:Hc.
  - pose proof (call_then ApperSDK this client Hc method req k) as Eb.
    destruct (client (req (tableName this))) as [error|response].
    + rewrite (try_catch_throw_run _ _ _ _ _ _ Eb).
      destruct (Hh error (ready ApperSDK this)) as [Hs Ht].
      rewrite state_of_run, trace_of_run, sent_app, Hs, Ht.
      split; reflexivity.
    + rewrite (run_parts (k response (ready ApperSDK this))) in Eb.
      destruct (Hk response (ready ApperSDK this)) as [Hs Ht].
      rewrite Hs in Eb.
      destruct (completion_of (k response (ready ApperSDK this))) as [a|e].
      * rewrite (try_catch_normal_run _ _ _ _ _ _ Eb).
        rewrite state_of_run, trace_of_run. cbn [sent]. rewrite Ht.
        split; reflexivity.
      * rewrite (try_catch_throw_run _ _ _ _ _ _ Eb).
        destruct (Hh e (ready ApperSDK this)) as [Hs' Ht'].
        rewrite state_of_run, trace_of_run, sent_app. cbn [sent].
        rewrite Hs', Ht, Ht'. split; reflexivity.
  - destruct (call_no_client method req (ready ApperSDK this) Hc) as [msg Ec].
    rewrite (try_catch_bind_throw _ _ _ _ _ Ec).
    destruct (Hh (TypeError msg) (ready ApperSDK this)) as [Hs Ht].
    split; assumption.
Qed.

Lemma getAll_requests :
  state_of (getAll ApperSDK this) = ready ApperSDK this
  /\ sent (trace_of (getAll ApperSDK this))
     = requests ApperSDK this (fetchRecords (tableName this) employee_fields).
Proof.
  unfold getAll.
  apply (calling_method_run "fetchRecords"
           (fun table => fetchRecords table employee_fields)).
  - intros response. quiet_steps.
  - intros e. apply quiet_catch.
Qed.

Lemma getById_requests id :
  state_of (getById ApperSDK id this) = ready ApperSDK this
  /\ sent (trace_of (getById ApperSDK id this))
     = requests ApperSDK this (getRecordById (tableName this) id employee_fields).
Proof.
  unfold getById.
  apply (calling_method_run "getRecordById"
           (fun table => getRecordById table id employee_fields)).
  - intros response. quiet_steps.
  - intros e. apply quiet_catch.
Qed.

Lemma delete_requests id :
  state_of (delete ApperSDK id this) = ready ApperSDK this
  /\ sent (trace_of (delete ApperSDK id this))
     = requests ApperSDK this (deleteRecord (tableName this) [id]).
Proof.
  unfold delete.
  apply (calling_method_run "deleteRecord" (fun table => deleteRecord table [id])).
  - intros response. quiet_steps.
  - intros e. apply quiet_catch.
Qed.

Lemma save_requests id employeeData method verb mk prefix :
  let run := try_catch (save_body id employeeData method verb mk)
               (save_catch prefix) (ready ApperSDK this) in
  state_of run = ready ApperSDK this
  /\ (sent (trace_of run) = []
      \/ exists record,
           build_record id employeeData (ready ApperSDK this)
           = (ready ApperSDK this, [], Normal record)
           /\ sent (trace_of run) = [mk (tableName this) [record]]).
Proof.
  intros run. subst run.
  destruct (client_in_use ApperSDK this) as [client|] eqn:Hc.
  - destruct (save_run ApperSDK this client Hc id employeeData method verb mk prefix)
      as [(e & args & _ & E) | (record & trace & Eb & Hs & Et & Hst & _)].
    + rewrite E. split; [reflexivity | left; reflexivity].
    + split; [exact Hs|]. right. exists record. split; [exact Eb|].
      rewrite Et. simpl. rewrite Hst. reflexivity.
  - destruct (save_no_client ApperSDK this id employeeData method verb mk prefix Hc)
      as [args E].
    rewrite E. split; [reflexivity | left; reflexivity].
Qed.
End OneRequest.

(** The record literal is evaluated exactly when [builds] says so. *)
Section Builds.
Variable id : option value.
Variable employeeData : value.
Variable s : EmployeeService.t.

Lemma build_record_builds :
  match completion_of (EmployeeService.build_record id employeeData s) with
  | Normal _ => builds employeeData = true
  | Throw _ => builds employeeData = false
  end.
Proof.
  unfold builds.
  destruct (nullish employeeData) eqn:Hn.
  - unfold EmployeeService.build_record.
    rewrite (bind_throw (get employeeData "fullName") _ s
               (TypeError ("Cannot read properties of " +:+ to_string employeeData +:+
                           " (reading '" +:+ "fullName" +:+ "')"))).
    + reflexivity.
    + unfold get. rewrite Hn. reflexivity.
  - unfold EmployeeService.build_record, get. rewrite Hn.
    unfold or_lazy, opt_split, bind, ret, throw, completion_of.
    destruct (truthy (prop employeeData "first_name_c")) eqn:Hf;
      destruct (truthy (prop employeeData "last_name_c")) eqn:Hl;
      destruct (truthy (prop employeeData "fullName")) eqn:HN;
      repeat progress (cbv beta iota zeta; rewrite ?Hf, ?Hl, ?HN);
      try reflexivity;
      destruct (prop employeeData "fullName") as [| |b|n|t|items|fields];
      try discriminate HN;
      repeat progress (cbv beta iota zeta; rewrite ?Hf, ?Hl, ?HN);
      reflexivity.
Qed.
End Builds.


Section OneRequestAgain.
Variable ApperSDK : option ApperClient.
Variable this : EmployeeService.t.

Lemma save_sends_nothing id employeeData method verb mk prefix :
  client_in_use ApperSDK this = None \/ builds employeeData = false ->
  sent (trace_of (try_catch (save_body id employeeData method verb mk)
                    (save_catch prefix) (ready ApperSDK this))) = [].
Proof.
  intros Hno.
  destruct (client_in_use ApperSDK this) as [client|] eqn:Hc.
  - destruct Hno as [Hno|Hno]; [discriminate|].
    destruct (save_run ApperSDK this client Hc id employeeData method verb mk prefix)
      as [(e & args & _ & E) | (record & trace & Eb & _)].
    + rewrite E. reflexivity.
    + pose proof (build_record_builds id employeeData (ready ApperSDK this)) as Hb.
      rewrite Eb in Hb. simpl in Hb. congruence.
  - destruct (save_no_client ApperSDK this id employeeData method verb mk prefix Hc)
      as [args E].
    rewrite E. reflexivity.
Qed.

Lemma save_sends_one client id employeeData method verb mk prefix :
  client_in_use ApperSDK this = Some client ->
  builds employeeData = true ->
  exists record,
    EmployeeService.build_record id employeeData (ready ApperSDK this)
    = (ready ApperSDK this, [], Normal record)
    /\ Id record = id
    /\ sent (trace_of (try_catch (save_body id employeeData method verb mk)
                         (save_catch prefix) (ready ApperSDK this)))
       = [mk (EmployeeService.tableName this) [record]].
Proof.
  intros Hc Hb.
  destruct (save_run ApperSDK this client Hc id employeeData method verb mk prefix)
    as [(e & args & Eb & _) | (record & trace & Eb & _ & Et & Hst & _)].
  - pose proof (build_record_builds id employeeData (ready ApperSDK this)) as Hb'.
    rewrite Eb in Hb'. simpl in Hb'. congruence.
  - exists record. split; [exact Eb|]. split.
    + apply build_record_department in Eb. apply Eb.
    + rewrite Et. simpl. rewrite Hst. reflexivity.
Qed.
End OneRequestAgain.

(** X1. No method of the service ever sends more than one request (there
    is no retry). [getAll], [getById] and [delete] send exactly their one
    request on the service's table when a client is in use, and nothing
    without one. [create] and [update] send nothing when there is no client
    or the record literal cannot be evaluated ([employeeData] is [null] or
    [undefined], or a [fullName] that has to be split is not a string);
    otherwise they send exactly one request, carrying the one record built
    from [employeeData], with an [Id] in an update only. *)
Theorem X1_one_request_at_most ApperSDK this (id employeeData : value) :
  sent (trace_of (EmployeeService.getAll ApperSDK this))
  = requests ApperSDK this
      (fetchRecords (EmployeeService.tableName this) EmployeeService.employee_fields)
  /\ sent (trace_of (EmployeeService.getById ApperSDK id this))
     = requests ApperSDK this
         (getRecordById (EmployeeService.tableName this) id
            EmployeeService.employee_fields)
  /\ sent (trace_of (EmployeeService.delete ApperSDK id this))
     = requests ApperSDK this (deleteRecord (EmployeeService.tableName this) [id])
  /\ (client_in_use ApperSDK this = None \/ builds employeeData = false ->
      sent (trace_of (EmployeeService.create ApperSDK employeeData this)) = []
      /\ sent (trace_of (EmployeeService.update ApperSDK id employeeData this)) = [])
  /\ (forall client,
        client_in_use ApperSDK this = Some client ->
        builds employeeData = true ->
        (exists record,
           EmployeeService.build_record None employeeData (ready ApperSDK this)
           = (ready ApperSDK this, [], Normal record)
           /\ Id record = None
           /\ sent (trace_of (EmployeeService.create ApperSDK employeeData this))
              = [createRecord (EmployeeService.tableName this) [record]])
        /\ (exists record,
              EmployeeService.build_record (Some id) employeeData (ready ApperSDK this)
              = (ready ApperSDK this, [], Normal record)
              /\ Id record = Some id
              /\ sent (trace_of (EmployeeService.update ApperSDK id employeeData this))
                 = [updateRecord (EmployeeService.tableName this) [record]])).
Proof.
  refine (conj _ (conj _ (conj _ (conj _ _)))).
  - apply getAll_requests.
  - apply getById_requests.
  - apply delete_requests.
  - intros Hno.
    rewrite (create_is_save ApperSDK this), (update_is_save ApperSDK this).
    split; apply save_sends_nothing; exact Hno.
  - intros client Hc Hb.
    rewrite (create_is_save ApperSDK this), (update_is_save ApperSDK this).
    split; apply (save_sends_one ApperSDK this client); assumption.
Qed.

Lemma X1_one_request_at_most_witness :
  sent (trace_of (EmployeeService.create None jane
                    (service_with (Resolves (Some saved)))))
  = [createRecord "employee_c" [jane_sent]]
  /\ sent (trace_of (EmployeeService.update None (VNum (Int 7)) VNull
                       (service_with (Resolves (Some saved)))))
     = [].
Proof.
  split.
  - destruct (X1_one_request_at_most None (service_with (Resolves (Some saved)))
                (VNum (Int 7)) jane) as (_ & _ & _ & _ & Hone).
    destruct (Hone (answering (Resolves (Some saved))) eq_refl eq_refl)
      as [(record & Eb & _ & Hs) _].
    rewrite Hs. inversion Eb. reflexivity.
  - destruct (X1_one_request_at_most None (service_with (Resolves (Some saved)))
                (VNum (Int 7)) VNull) as (_ & _ & _ & Hnone & _).
    apply Hnone. right. reflexivity.
Defined.

Lemma ready_kept ApperSDK this client :
  EmployeeService.apperClient this = Some client -> ready ApperSDK this = this.
Proof.
  intros Hc. unfold ready, client_in_use. rewrite Hc.
  destruct this as [c tn]. simpl in *. rewrite Hc. reflexivity.
Qed.

Lemma ready_again ApperSDK this : ready ApperSDK (ready ApperSDK this) = ready ApperSDK this.
Proof.
  destruct this as [[c|] tn]; destruct ApperSDK; reflexivity.
Qed.

(** X2. Whatever the store does, every method leaves the service in the
    same state: the table name as it was and the client it worked with. A
    client the service already has is never replaced (the service is left
    exactly as it was); a missing one is taken from [window.ApperSDK]; and a
    further call changes nothing more. *)
Theorem X2_methods_keep_the_client ApperSDK this (id employeeData : value) :
  state_of (EmployeeService.getAll ApperSDK this) = ready ApperSDK this
  /\ state_of (EmployeeService.getById ApperSDK id this) = ready ApperSDK this
  /\ state_of (EmployeeService.create ApperSDK employeeData this) = ready ApperSDK this
  /\ state_of (EmployeeService.update ApperSDK id employeeData this)
     = ready ApperSDK this
  /\ state_of (EmployeeService.delete ApperSDK id this) = ready ApperSDK this
  /\ EmployeeService.tableName (ready ApperSDK this) = EmployeeService.tableName this
  /\ (forall client,
        EmployeeService.apperClient this = Some client -> ready ApperSDK this = this)
  /\ (EmployeeService.apperClient this = None ->
      EmployeeService.apperClient (ready ApperSDK this) = ApperSDK)
  /\ ready ApperSDK (ready ApperSDK this) = ready ApperSDK this.
Proof.
  refine (conj _ (conj _ (conj _ (conj _ (conj _ (conj _ (conj _ (conj _ _)))))))).
  - apply getAll_requests.
  - apply getById_requests.
  - rewrite (create_is_save ApperSDK this). apply save_requests.
  - rewrite (update_is_save ApperSDK this). apply save_requests.
  - apply delete_requests.
  - reflexivity.
  - intros client. apply ready_kept.
  - intros Hn. unfold ready, client_in_use. simpl. rewrite Hn. reflexivity.
  - apply ready_again.
Qed.

Lemma X2_methods_keep_the_client_witness :
  state_of (EmployeeService.delete None (VNum (Int 7))
              (service_with (Resolves (Some refused))))
  = service_with (Resolves (Some refused))
  /\ EmployeeService.apperClient
       (state_of (EmployeeService.getAll (Some (answering (Resolves (Some saved))))
                    {| EmployeeService.apperClient := None;
                       EmployeeService.tableName := "employee_c" |}))
     = Some (answering (Resolves (Some saved))).
Proof.
  split.
  - destruct (X2_methods_keep_the_client None (service_with (Resolves (Some refused)))
                (VNum (Int 7)) jane) as (_ & _ & _ & _ & Hd & _ & Hkept & _ & _).
    rewrite Hd. apply (Hkept (answering (Resolves (Some refused)))). reflexivity.
  - destruct (X2_methods_keep_the_client (Some (answering (Resolves (Some saved))))
                {| EmployeeService.apperClient := None;
                   EmployeeService.tableName := "employee_c" |}
                (VNum (Int 7)) jane) as (Hg & _ & _ & _ & _ & _ & _ & Hinit & _).
    rewrite Hg. apply Hinit. reflexivity.
Defined.

(** ** [getAll] and [delete] on every answer *)

Lemma existsb_filter {A} (f : A -> bool) (l : list A) :
  (0 <? length (List.filter f l))%nat = existsb f l.
Proof.
  induction l as [|a l IH]; simpl; [reflexivity|].
  destruct (f a); [reflexivity | exact IH].
Qed.

Lemma for_each_delete_toasts (failed : list Result.t) (s : EmployeeService.t) :
  for_each failed
    (fun record =>
       when (truthy (Result.message record)) (toast_error (Result.message record))) s
  = (s,
     flat_map (fun record =>
                 if truthy (Result.message record)
                 then [ToastError (Result.message record)] else []) failed,
     Normal tt).
Proof.
  induction failed as [|record rest IH]; [reflexivity|].
  cbn [for_each flat_map].
  destruct (truthy (Result.message record)).
  - change (when true (toast_error (S := EmployeeService.t) (Result.message record)))
      with (toast_error (S := EmployeeService.t) (Result.message record)).
    rewrite (bind_run (toast_error (Result.message record)) _ s s
               [ToastError (Result.message record)] tt eq_refl).
    cbv beta. rewrite IH. reflexivity.
  - change (when false (toast_error (S := EmployeeService.t) (Result.message record)))
      with (ret (S := EmployeeService.t) tt).
    rewrite bind_ret. cbv beta. rewrite IH. reflexivity.
Qed.

Lemma toasts_app t1 t2 : toasts (t1 ++ t2) = toasts t1 ++ toasts t2.
Proof. apply List.filter_app. Qed.

Lemma toasts_delete_toasts results : toasts (delete_toasts results) = delete_toasts results.
Proof.
  unfold delete_toasts.
  induction (List.filter (fun result => negb (Result.success result)) results)
    as [|record rest IH]; simpl; [reflexivity|].
  rewrite toasts_app, IH. destruct (truthy (Result.message record)); reflexivity.
Qed.

Section Answers.
Import EmployeeService.
Variable ApperSDK : option ApperClient.
Variable this : t.

(** A method that calls the store first thing, when there is no client to
    call. *)
Lemma calling_method_no_client {A} method req
      (k : option Response.t -> js t A) prefix (sentinel : A) :
  client_in_use ApperSDK this = None ->
  exists args,
    try_catch (ensure_client ApperSDK ;; response <- call method req ;; k response)
      (fun error => report prefix error ;; ret sentinel) this
    = (ready ApperSDK this, [ConsoleError args], Normal sentinel).
Proof.
  intros Hc. rewrite method_ready.
  destruct (call_no_client method req (ready ApperSDK this) Hc) as [msg Ec].
  rewrite (try_catch_bind_throw _ _ _ _ _ Ec).
  apply catch_sentinel. reflexivity.
Qed.

Variable client : ApperClient.
Hypothesis in_use : client_in_use ApperSDK this = Some client.

(** The same, when the call is refused with [null] or [undefined]: the
    [catch] block fails on [error.message]. *)
Lemma calling_method_rejected_nullish {A} method req
      (k : option Response.t -> js t A) prefix (sentinel : A) error :
  client (req (tableName this)) = Rejects error ->
  nullish error = true ->
  exists msg,
    try_catch (ensure_client ApperSDK ;; response <- call method req ;; k response)
      (fun error => report prefix error ;; ret sentinel) this
    = (ready ApperSDK this, [SdkCall (req (tableName this))], Throw (TypeError msg)).
Proof.
  intros Hr Hn. rewrite method_ready.
  pose proof (call_then ApperSDK this client in_use method req k) as Eb.
  rewrite Hr in Eb. rewrite (try_catch_throw_run _ _ _ _ _ _ Eb).
  destruct (report_nullish prefix error (ready ApperSDK this) Hn) as [msg Er].
  exists msg. unfold bind. rewrite Er. reflexivity.
Qed.

Lemma getAll_resolved response :
  client (fetchRecords (tableName this) employee_fields) = Resolves response ->
  exists notes,
    getAll ApperSDK this
    = (ready ApperSDK this,
       SdkCall (fetchRecords (tableName this) employee_fields) :: notes,
       Normal match response with
              | Some r =>
                  if Response.success r then or_else (Response.data r) (VArr [])
                  else VArr []
              | None => VArr []
              end)
    /\ match response with
       | Some r => if Response.success r then notes = [] else True
       | None => True
       end.
Proof.
  intros Hr. unfold getAll. rewrite method_ready. unfold try_catch.
  rewrite (call_then ApperSDK this client in_use), Hr.
  destruct response as [r|].
  - unfold bind at 1. simpl deref. unfold ret at 1. cbv iota beta.
    destruct (Response.success r); eexists; split; reflexivity.
  - eexists. split; [reflexivity | exact I].
Qed.

(** What [delete] makes of a response that does not report failure. *)
Lemma delete_resolved id r :
  client (deleteRecord (tableName this) [id]) = Resolves (Some r) ->
  Response.success r = true ->
  exists notes,
    delete ApperSDK id this
    = (ready ApperSDK this, SdkCall (deleteRecord (tableName this) [id]) :: notes,
       Normal (VBool match Response.results r with
                     | Some results => existsb Result.success results
                     | None => false
                     end))
    /\ toasts notes
       = match Response.results r with
         | Some results => delete_toasts results
         | None => []
         end.
Proof.
  intros Hr Hs. unfold delete. rewrite method_ready. unfold try_catch.
  rewrite (call_then ApperSDK this client in_use), Hr.
  unfold bind at 1. simpl deref. unfold ret at 1. cbv iota beta. rewrite Hs.
  change (negb true) with false. cbv iota beta.
  destruct (Response.results r) as [results|].
  - set (failed := List.filter (fun result => negb (Result.success result)) results).
    assert (Ew :
      when (0 <? length failed)%nat
        (emit (ConsoleErrorFailed "delete" failed) ;;
         for_each failed
           (fun record =>
              when (truthy (Result.message record))
                (toast_error (Result.message record)))) (ready ApperSDK this)
      = (ready ApperSDK this,
         if (0 <? length failed)%nat
         then ConsoleErrorFailed "delete" failed :: delete_toasts results
         else [], Normal tt)).
    { destruct (0 <? length failed)%nat; [|reflexivity]. unfold when.
      rewrite (bind_run (emit (ConsoleErrorFailed "delete" failed)) _ _ _
                 [ConsoleErrorFailed "delete" failed] tt eq_refl).
      rewrite for_each_delete_toasts. reflexivity. }
    rewrite (bind_run _ _ _ _ _ _ Ew).
    change (fun result => Result.success result) with Result.success.
    rewrite existsb_filter.
    exists (if (0 <? length failed)%nat
            then ConsoleErrorFailed "delete" failed :: delete_toasts results
            else []).
    split; [cbn; rewrite app_nil_r; reflexivity|].
    destruct (0 <? length failed)%nat eqn:El.
    + change (toasts (ConsoleErrorFailed "delete" failed :: delete_toasts results))
        with (toasts (delete_toasts results)).
      apply toasts_delete_toasts.
    + unfold delete_toasts. fold failed.
      destruct failed; [reflexivity | discriminate].
  - eexists. split; reflexivity.
Qed.
End Answers.

Lemma getAll_no_client ApperSDK this :
  client_in_use ApperSDK this = None ->
  exists args,
    EmployeeService.getAll ApperSDK this
    = (ready ApperSDK this, [ConsoleError args], Normal (VArr [])).
Proof. intros Hc. unfold EmployeeService.getAll. apply calling_method_no_client, Hc. Qed.

Lemma delete_no_client ApperSDK this id :
  client_in_use ApperSDK this = None ->
  exists args,
    EmployeeService.delete ApperSDK id this
    = (ready ApperSDK this, [ConsoleError args], Normal (VBool false)).
Proof. intros Hc. unfold EmployeeService.delete. apply calling_method_no_client, Hc. Qed.

Lemma getAll_rejected_nullish ApperSDK this client error :
  client_in_use ApperSDK this = Some client ->
  client (fetchRecords (EmployeeService.tableName this)
            EmployeeService.employee_fields) = Rejects error ->
  nullish error = true ->
  exists msg,
    EmployeeService.getAll ApperSDK this
    = (ready ApperSDK this,
       [SdkCall (fetchRecords (EmployeeService.tableName this)
                   EmployeeService.employee_fields)],
       Throw (TypeError msg)).
Proof.
  intros Hc Hr Hn. unfold EmployeeService.getAll.
  exact (calling_method_rejected_nullish ApperSDK this client Hc "fetchRecords"
           (fun table => fetchRecords table EmployeeService.employee_fields)
           _ _ _ error Hr Hn).
Qed.

Lemma delete_rejected_nullish ApperSDK this client id error :
  client_in_use ApperSDK this = Some client ->
  client (deleteRecord (EmployeeService.tableName this) [id]) = Rejects error ->
  nullish error = true ->
  exists msg,
    EmployeeService.delete ApperSDK id this
    = (ready ApperSDK this,
       [SdkCall (deleteRecord (EmployeeService.tableName this) [id])],
       Throw (TypeError msg)).
Proof.
  intros Hc Hr Hn. unfold EmployeeService.delete.
  exact (calling_method_rejected_nullish ApperSDK this client Hc "deleteRecord"
           (fun table => deleteRecord table [id]) _ _ _ error Hr Hn).
Qed.

Lemma truthy_or_else a b : truthy b = true -> truthy (or_else a b) = true.
Proof. intros Hb. unfold or_else. destruct (truthy a) eqn:Ha; assumption. Qed.

(** X3. [getAll] on success is silent and returns the response's [data],
    or the empty list when there is none; and whatever the store does, a
    result of [getAll] is never [null], [undefined] or any other falsy
    value. *)
Theorem X3_getAll_returns_a_list ApperSDK this :
  (forall client r,
     client_in_use ApperSDK this = Some client ->
     client (fetchRecords (EmployeeService.tableName this)
               EmployeeService.employee_fields) = Resolves (Some r) ->
     Response.success r = true ->
     EmployeeService.getAll ApperSDK this
     = (ready ApperSDK this,
        [SdkCall (fetchRecords (EmployeeService.tableName this)
                    EmployeeService.employee_fields)],
        Normal (or_else (Response.data r) (VArr []))))
  /\ (forall v,
        completion_of (EmployeeService.getAll ApperSDK this) = Normal v ->
        truthy v = true).
Proof.
  split.
  - intros client r Hc Hr Hs.
    destruct (getAll_resolved ApperSDK this client Hc (Some r) Hr) as [notes [E Hn]].
    rewrite Hs in E, Hn. subst notes. exact E.
  - intros v Hv.
    destruct (client_in_use ApperSDK this) as [client|] eqn:Hc.
    + destruct (client (fetchRecords (EmployeeService.tableName this)
                          EmployeeService.employee_fields))
        as [error|response] eqn:Hr.
      * destruct (nullish error) eqn:Hn.
        -- destruct (getAll_rejected_nullish ApperSDK this client error Hc Hr Hn)
             as [msg E].
           rewrite E in Hv. discriminate.
        -- assert (Hf : failed (client (fetchRecords (EmployeeService.tableName this)
                                          EmployeeService.employee_fields)) = true).
           { rewrite Hr. simpl. rewrite Hn. reflexivity. }
           destruct (getAll_failed ApperSDK this client Hc Hf) as [trace [E _]].
           rewrite E in Hv. inversion Hv. reflexivity.
      * destruct (getAll_resolved ApperSDK this client Hc response Hr) as [notes [E _]].
        rewrite E in Hv. inversion Hv.
        destruct response as [r|]; [|reflexivity].
        destruct (Response.success r); [|reflexivity].
        apply truthy_or_else. reflexivity.
    + destruct (getAll_no_client ApperSDK this Hc) as [args E].
      rewrite E in Hv. inversion Hv. reflexivity.
Qed.

Lemma X3_getAll_returns_a_list_witness :
  EmployeeService.getAll None (service_with (Resolves (Some listed)))
  = (service_with (Resolves (Some listed)),
     [SdkCall (fetchRecords "employee_c" EmployeeService.employee_fields)],
     Normal (VArr [jane_record]))
  /\ truthy (VArr [jane_record]) = true.
Proof.
  destruct (X3_getAll_returns_a_list None (service_with (Resolves (Some listed))))
    as [Hok Hlist].
  assert (E : EmployeeService.getAll None (service_with (Resolves (Some listed)))
              = (service_with (Resolves (Some listed)),
                 [SdkCall (fetchRecords "employee_c" EmployeeService.employee_fields)],
                 Normal (VArr [jane_record]))).
  { apply (Hok (answering (Resolves (Some listed))) listed); reflexivity. }
  split; [exact E|].
  apply Hlist. rewrite E. reflexivity.
Defined.

(** X4. [delete] on a response that does not report failure returns true
    exactly when some entry of [results] succeeded (false when there is no
    [results]), and shows as toasts the messages of the failed entries, in
    order; and whatever the store does, a result of [delete] is a
    boolean. *)
Theorem X4_delete_reports_some_success ApperSDK this (id : value) :
  (forall client r,
     client_in_use ApperSDK this = Some client ->
     client (deleteRecord (EmployeeService.tableName this) [id]) = Resolves (Some r) ->
     Response.success r = true ->
     completion_of (EmployeeService.delete ApperSDK id this)
     = Normal (VBool match Response.results r with
                     | Some results => existsb Result.success results
                     | None => false
                     end)
     /\ toasts (trace_of (EmployeeService.delete ApperSDK id this))
        = match Response.results r with
          | Some results => delete_toasts results
          | None => []
          end)
  /\ (forall v,
        completion_of (EmployeeService.delete ApperSDK id this) = Normal v ->
        exists b, v = VBool b).
Proof.
  split.
  - intros client r Hc Hr Hs.
    destruct (delete_resolved ApperSDK this client Hc id r Hr Hs) as [notes [E Ht]].
    rewrite E. split; [reflexivity | exact Ht].
  - intros v Hv.
    destruct (client_in_use ApperSDK this) as [client|] eqn:Hc.
    + destruct (client (deleteRecord (EmployeeService.tableName this) [id]))
        as [error|[r|]] eqn:Hr.
      * destruct (nullish error) eqn:Hn.
        -- destruct (delete_rejected_nullish ApperSDK this client id error Hc Hr Hn)
             as [msg E].
           rewrite E in Hv. discriminate.
        -- assert (Hf : failed (client (deleteRecord (EmployeeService.tableName this)
                                          [id])) = true).
           { rewrite Hr. simpl. rewrite Hn. reflexivity. }
           destruct (delete_failed ApperSDK this client Hc id Hf) as [trace [E _]].
           rewrite E in Hv. inversion Hv. eauto.
      * destruct (Response.success r) eqn:Hs.
        -- destruct (delete_resolved ApperSDK this client Hc id r Hr Hs)
             as [notes [E _]].
           rewrite E in Hv. inversion Hv. eauto.
        -- assert (Hf : failed (client (deleteRecord (EmployeeService.tableName this)
                                          [id])) = true).
           { rewrite Hr. simpl. rewrite Hs. reflexivity. }
           destruct (delete_failed ApperSDK this client Hc id Hf) as [trace [E _]].
           rewrite E in Hv. inversion Hv. eauto.
      * unfold EmployeeService.delete in Hv. rewrite method_ready in Hv.
        unfold try_catch in Hv.
        rewrite (call_then ApperSDK this client Hc), Hr in Hv.
        inversion Hv. eauto.
    + destruct (delete_no_client ApperSDK this id Hc) as [args E].
      rewrite E in Hv. inversion Hv. eauto.
Qed.

Lemma X4_delete_reports_some_success_witness :
  completion_of (EmployeeService.delete None (VNum (Int 7))
                   (service_with (Resolves (Some saved)))) = Normal (VBool true)
  /\ toasts (trace_of (EmployeeService.delete None (VNum (Int 7))
                         (service_with (Resolves (Some saved)))))
     = [ToastError (VStr "1 record failed")].
Proof.
  destruct (X4_delete_reports_some_success None (service_with (Resolves (Some saved)))
              (VNum (Int 7))) as [Hok _].
  apply (Hok (answering (Resolves (Some saved))) saved); reflexivity.
Defined.

(** ** Without the SDK, and on a rejection with nothing in it *)

Lemma ready_nothing this :
  EmployeeService.apperClient this = None -> ready None this = this.
Proof. intros Hn. destruct this as [c tn]. simpl in Hn. subst c. reflexivity. Qed.

(** X5. When the service has no client and the SDK is not on the page,
    every method gives up before any request: nothing is sent, no toast is
    shown, one error is logged, the sentinel is returned and the service is
    left as it was. *)
Theorem X5_without_the_SDK this (id employeeData : value) :
  EmployeeService.apperClient this = None ->
  (exists args,
     EmployeeService.getAll None this = (this, [ConsoleError args], Normal (VArr [])))
  /\ (exists args,
        EmployeeService.getById None id this
        = (this, [ConsoleError args], Normal VNull))
  /\ (exists args,
        EmployeeService.create None employeeData this
        = (this, [ConsoleError args], Normal VNull))
  /\ (exists args,
        EmployeeService.update None id employeeData this
        = (this, [ConsoleError args], Normal VNull))
  /\ (exists args,
        EmployeeService.delete None id this
        = (this, [ConsoleError args], Normal (VBool false))).
Proof.
  intros Hn.
  assert (Hc : client_in_use None this = None).
  { unfold client_in_use. rewrite Hn. reflexivity. }
  pose proof (ready_nothing this Hn) as Er.
  refine (conj _ (conj _ (conj _ (conj _ _)))).
  - destruct (getAll_no_client None this Hc) as [args E].
    exists args. rewrite E, Er. reflexivity.
  - destruct (getById_no_client None this id Hc) as [args E].
    exists args. rewrite E, Er. reflexivity.
  - destruct (save_no_client None this None employeeData "createRecord" "create"
                createRecord "Error creating employee:" Hc) as [args E].
    exists args. rewrite (create_is_save None this), E, Er. reflexivity.
  - destruct (save_no_client None this (Some id) employeeData "updateRecord" "update"
                updateRecord "Error updating employee:" Hc) as [args E].
    exists args. rewrite (update_is_save None this), E, Er. reflexivity.
  - destruct (delete_no_client None this id Hc) as [args E].
    exists args. rewrite E, Er. reflexivity.
Qed.

Lemma X5_without_the_SDK_witness :
  exists args,
    EmployeeService.create None jane (EmployeeService.constructor None)
    = (EmployeeService.constructor None, [ConsoleError args], Normal VNull).
Proof.
  destruct (X5_without_the_SDK (EmployeeService.constructor None) (VNum (Int 7)) jane
              eq_refl) as (_ & _ & Hcreate & _ & _).
  exact Hcreate.
Defined.

Section RejectedWithNothing.
Import EmployeeService.
Variable ApperSDK : option ApperClient.
Variable this : t.
Variable client : ApperClient.
Hypothesis in_use : client_in_use ApperSDK this = Some client.

Lemma save_rejected_nullish id employeeData method verb mk prefix req error :
  let run := try_catch (save_body id employeeData method verb mk)
               (save_catch prefix) (ready ApperSDK this) in
  sent (trace_of run) = [req] ->
  client req = Rejects error ->
  nullish error = true ->
  exists msg, run = (ready ApperSDK this, [SdkCall req], Throw (TypeError msg)).
Proof.
  intros run Hsent Hr Hn. subst run.
  destruct (save_requests ApperSDK this id employeeData method verb mk prefix)
    as [_ [Hnone | (record & Eb & Hreq)]].
  - rewrite Hnone in Hsent. discriminate.
  - rewrite Hreq in Hsent. inversion Hsent; subst req.
    unfold save_body. rewrite (try_catch_bind_normal _ _ _ _ _ Eb).
    pose proof (call_then ApperSDK this client in_use method
                  (fun table => mk table [record]) (single_result verb)) as Ec.
    cbv beta zeta in Ec. rewrite Hr in Ec. rewrite (try_catch_throw_run _ _ _ _ _ _ Ec).
    destruct (report_nullish (VStr prefix) error (ready ApperSDK this) Hn) as [msg Er].
    exists msg. unfold save_catch, bind. rewrite Er. reflexivity.
Qed.
End RejectedWithNothing.

(** X6. A call of the SDK that is rejected with [null] or [undefined] is
    not swallowed: the [catch] block of the method itself fails on
    [error.message], and the method throws a [TypeError] instead of
    returning its sentinel; nothing is logged and no toast is shown. *)
Theorem X6_rejection_with_nothing_escapes
    ApperSDK this client (id employeeData : value) error :
  client_in_use ApperSDK this = Some client ->
  nullish error = true ->
  (client (fetchRecords (EmployeeService.tableName this)
             EmployeeService.employee_fields) = Rejects error ->
   exists msg,
     EmployeeService.getAll ApperSDK this
     = (ready ApperSDK this,
        [SdkCall (fetchRecords (EmployeeService.tableName this)
                    EmployeeService.employee_fields)],
        Throw (TypeError msg)))
  /\ (client (getRecordById (EmployeeService.tableName this) id
                EmployeeService.employee_fields) = Rejects error ->
      exists msg,
        EmployeeService.getById ApperSDK id this
        = (ready ApperSDK this,
           [SdkCall (getRecordById (EmployeeService.tableName this) id
                       EmployeeService.employee_fields)],
           Throw (TypeError msg)))
  /\ (forall req,
        sent (trace_of (EmployeeService.create ApperSDK employeeData this)) = [req] ->
        client req = Rejects error ->
        exists msg,
          EmployeeService.create ApperSDK employeeData this
          = (ready ApperSDK this, [SdkCall req], Throw (TypeError msg)))
  /\ (forall req,
        sent (trace_of (EmployeeService.update ApperSDK id employeeData this)) = [req] ->
        client req = Rejects error ->
        exists msg,
          EmployeeService.update ApperSDK id employeeData this
          = (ready ApperSDK this, [SdkCall req], Throw (TypeError msg)))
  /\ (client (deleteRecord (EmployeeService.tableName this) [id]) = Rejects error ->
      exists msg,
        EmployeeService.delete ApperSDK id this
        = (ready ApperSDK this,
           [SdkCall (deleteRecord (EmployeeService.tableName this) [id])],
           Throw (TypeError msg))).
Proof.
  intros Hc Hn. refine (conj _ (conj _ (conj _ (conj _ _)))).
  - intros Hr. exact (getAll_rejected_nullish ApperSDK this client error Hc Hr Hn).
  - intros Hr. exact (getById_rejected_nullish ApperSDK this client Hc id error Hr Hn).
  - intros req. rewrite (create_is_save ApperSDK this).
    intros Hs Hr. exact (save_rejected_nullish ApperSDK this client Hc _ _ _ _ _ _
                           req error Hs Hr Hn).
  - intros req. rewrite (update_is_save ApperSDK this).
    intros Hs Hr. exact (save_rejected_nullish ApperSDK this client Hc _ _ _ _ _ _
                           req error Hs Hr Hn).
  - intros Hr. exact (delete_rejected_nullish ApperSDK this client id error Hc Hr Hn).
Qed.

Lemma X6_rejection_with_nothing_escapes_witness :
  exists msg,
    completion_of (EmployeeService.getAll None (service_with (Rejects VUndefined)))
    = Throw (TypeError msg).
Proof.
  destruct (X6_rejection_with_nothing_escapes None (service_with (Rejects VUndefined))
              (answering (Rejects VUndefined)) (VNum (Int 7)) jane VUndefined
              eq_refl eq_refl) as (HgetAll & _).
  destruct (HgetAll eq_refl) as [msg E].
  exists msg. rewrite E. reflexivity.
Defined.

(** ** The record literal: every field is there *)

Lemma truthy_not_nullish v : truthy v = true -> nullish v = false.
Proof. destruct v; simpl; intros H; try reflexivity; discriminate. Qed.

Lemma or_else_not_nullish a b : nullish b = false -> nullish (or_else a b) = false.
Proof.
  intros Hb. unfold or_else. destruct (truthy a) eqn:Ha; [|exact Hb].
  apply truthy_not_nullish, Ha.
Qed.

Lemma or_lazy_inv {S} a (b : js S value) s s' t v :
  or_lazy a b s = (s', t, Normal v) ->
  (truthy a = true /\ v = a) \/ (truthy a = false /\ b s = (s', t, Normal v)).
Proof.
  unfold or_lazy. destruct (truthy a); intros E.
  - left. inversion E. auto.
  - right. auto.
Qed.

Lemma build_record_defined id employeeData (s : EmployeeService.t) record :
  EmployeeService.build_record id employeeData s = (s, [], Normal record) ->
  forallb (fun v => negb (nullish v)) (fields_of record) = true
  /\ (exists n, department_id_c record = VNum n)
  /\ truthy (status_c record) = true.
Proof.
  intros E. pose proof (build_record_needs_object _ _ _ _ E) as Hn.
  unfold EmployeeService.build_record in E.
  rewrite (bind_object_get _ _ _ _ Hn) in E.
  apply bind_tame_inv in E; [|tame_steps]. destruct E as [Name_ [EName E]].
  rewrite (bind_object_get _ _ _ _ Hn) in E.
  apply bind_tame_inv in E; [|tame_steps]. destruct E as [first_ [Efirst E]].
  rewrite (bind_object_get _ _ _ _ Hn) in E.
  apply bind_tame_inv in E; [|tame_steps]. destruct E as [last_ [Elast E]].
  do 14 rewrite (bind_object_get _ _ _ _ Hn) in E.
  assert (HName : nullish Name_ = false).
  { apply or_lazy_inv in EName as [[Ht ->] | [_ Eb]].
    - apply truthy_not_nullish, Ht.
    - do 2 rewrite (bind_object_get _ _ _ _ Hn) in Eb. inversion Eb. reflexivity. }
  assert (Hfirst : nullish first_ = false).
  { apply or_lazy_inv in Efirst as [[Ht ->] | [_ Eb]].
    - apply truthy_not_nullish, Ht.
    - rewrite (bind_object_get _ _ _ _ Hn) in Eb.
      apply bind_tame_inv in Eb; [|apply tame_opt_split].
      destruct Eb as [pieces [_ Eb]]. inversion Eb.
      apply or_else_not_nullish. reflexivity. }
  assert (Hlast : nullish last_ = false).
  { apply or_lazy_inv in Elast as [[Ht ->] | [_ Eb]].
    - apply truthy_not_nullish, Ht.
    - rewrite (bind_object_get _ _ _ _ Hn) in Eb.
      apply bind_tame_inv in Eb; [|apply tame_opt_split].
      destruct Eb as [pieces [_ Eb]]. inversion Eb.
      apply or_else_not_nullish. reflexivity. }
  inversion E. unfold fields_of. simpl.
  rewrite HName, Hfirst, Hlast.
  rewrite !or_else_not_nullish by reflexivity. simpl.
  refine (conj eq_refl (conj _ _)); [eexists; reflexivity|].
  apply truthy_or_else. reflexivity.
Qed.

(** X7. A record that [create] or [update] sends has none of its ten
    fields [null] or [undefined], whatever [employeeData] holds: its
    [department_id_c] is a number and its [status_c] is never empty. *)
Theorem X7_record_sent_is_complete ApperSDK this (id employeeData : value) record :
  In record (records_sent (trace_of (EmployeeService.create ApperSDK employeeData this)))
  \/ In record
       (records_sent (trace_of (EmployeeService.update ApperSDK id employeeData this))) ->
  forallb (fun v => negb (nullish v)) (fields_of record) = true
  /\ (exists n, department_id_c record = VNum n)
  /\ truthy (status_c record) = true.
Proof.
  intros [Hin|Hin].
  - rewrite (create_is_save ApperSDK this) in Hin.
    apply (save_sends ApperSDK this _ _ _ _ _ _ _ records_of_createRecord) in Hin.
    exact (build_record_defined _ _ _ _ Hin).
  - rewrite (update_is_save ApperSDK this) in Hin.
    apply (save_sends ApperSDK this _ _ _ _ _ _ _ records_of_updateRecord) in Hin.
    exact (build_record_defined _ _ _ _ Hin).
Qed.

Lemma X7_record_sent_is_complete_witness :
  forallb (fun v => negb (nullish v)) (fields_of jane_sent) = true
  /\ (exists n, department_id_c jane_sent = VNum n)
  /\ truthy (status_c jane_sent) = true.
Proof.
  apply (X7_record_sent_is_complete None (service_with (Resolves (Some saved)))
           VNull jane jane_sent).
  left. left. reflexivity.
Defined.

(** ** A save on a response that does not report failure *)

Lemma filter_all {A} (f : A -> bool) (l : list A) :
  forallb f l = true -> List.filter f l = l.
Proof.
  induction l as [|a l IH]; simpl; [reflexivity|].
  intros H. apply andb_true_iff in H as [Ha Hl]. rewrite Ha, (IH Hl). reflexivity.
Qed.

Lemma filter_none {A} (f : A -> bool) (l : list A) :
  forallb f l = true -> List.filter (fun x => negb (f x)) l = [].
Proof.
  induction l as [|a l IH]; simpl; [reflexivity|].
  intros H. apply andb_true_iff in H as [Ha Hl]. rewrite Ha. simpl. exact (IH Hl).
Qed.

Lemma find_none_existsb {A} (f : A -> bool) (l : list A) :
  existsb f l = false -> find f l = None.
Proof.
  induction l as [|a l IH]; simpl; [reflexivity|].
  intros H. apply orb_false_iff in H as [Ha Hl]. rewrite Ha. exact (IH Hl).
Qed.

Lemma single_result_all_ok verb r results (s : EmployeeService.t) :
  Response.success r = true ->
  Response.results r = Some results ->
  forallb Result.success results = true ->
  EmployeeService.single_result verb (Some r) s
  = (s, [], Normal match results with
                   | first :: _ => Result.data first
                   | [] => VNull
                   end).
Proof.
  intros Hs Hres Hall. unfold EmployeeService.single_result.
  simpl EmployeeService.deref. rewrite bind_ret, Hs, Hres.
  change (negb true) with false. cbv iota.
  change (fun result => Result.success result) with Result.success.
  rewrite (filter_none _ _ Hall), (filter_all _ _ Hall).
  reflexivity.
Qed.

Section SaveAnswered.
Import EmployeeService.
Variable ApperSDK : option ApperClient.
Variable this : t.
Variable client : ApperClient.
Hypothesis in_use : client_in_use ApperSDK this = Some client.

Lemma save_resolved id employeeData method verb mk prefix req r :
  let run := try_catch (save_body id employeeData method verb mk)
               (save_catch prefix) (ready ApperSDK this) in
  sent (trace_of run) = [req] ->
  client req = Resolves (Some r) ->
  run = (ready ApperSDK this,
         SdkCall req :: trace_of (single_result verb (Some r) (ready ApperSDK this)),
         Normal (returned_record r)).
Proof.
  intros run Hsent Hr. subst run.
  destruct (save_requests ApperSDK this id employeeData method verb mk prefix)
    as [_ [Hnone | (record & Eb & Hreq)]].
  - rewrite Hnone in Hsent. discriminate.
  - rewrite Hreq in Hsent. inversion Hsent; subst req.
    unfold save_body. rewrite (try_catch_bind_normal _ _ _ _ _ Eb).
    pose proof (call_then ApperSDK this client in_use method
                  (fun table => mk table [record]) (single_result verb)) as Ec.
    cbv beta zeta in Ec. rewrite Hr in Ec.
    destruct (single_result_spec verb r (ready ApperSDK this)) as [trace [Es _]].
    rewrite Es in Ec. rewrite Es.
    exact (try_catch_normal_run _ _ _ _ _ _ Ec).
Qed.
End SaveAnswered.

(** X8. On a response that does not report failure, [create] and [update]
    are silent when every entry of [results] succeeded, returning the data
    of the first entry; and they return [null] when [results] is missing,
    is empty or holds no entry that succeeded, the [success] flag
    notwithstanding. *)
Theorem X8_save_on_success
    ApperSDK this client (id employeeData : value) r :
  client_in_use ApperSDK this = Some client ->
  Response.success r = true ->
  (forall req,
     sent (trace_of (EmployeeService.create ApperSDK employeeData this)) = [req] ->
     client req = Resolves (Some r) ->
     (forall results,
        Response.results r = Some results ->
        forallb Result.success results = true ->
        EmployeeService.create ApperSDK employeeData this
        = (ready ApperSDK this, [SdkCall req],
           Normal match results with
                  | first :: _ => Result.data first
                  | [] => VNull
                  end))
     /\ (Response.results r = None
         \/ (exists results,
               Response.results r = Some results
               /\ existsb Result.success results = false) ->
         completion_of (EmployeeService.create ApperSDK employeeData this)
         = Normal VNull))
  /\ (forall req,
        sent (trace_of (EmployeeService.update ApperSDK id employeeData this)) = [req] ->
        client req = Resolves (Some r) ->
        (forall results,
           Response.results r = Some results ->
           forallb Result.success results = true ->
           EmployeeService.update ApperSDK id employeeData this
           = (ready ApperSDK this, [SdkCall req],
              Normal match results with
                     | first :: _ => Result.data first
                     | [] => VNull
                     end))
        /\ (Response.results r = None
            \/ (exists results,
                  Response.results r = Some results
                  /\ existsb Result.success results = false) ->
            completion_of (EmployeeService.update ApperSDK id employeeData this)
            = Normal VNull)).
Proof.
  intros Hc Hs.
  assert (Hnull : Response.results r = None
                  \/ (exists results,
                        Response.results r = Some results
                        /\ existsb Result.success results = false) ->
                  returned_record r = VNull).
  { unfold returned_record. rewrite Hs. intros [-> | (results & -> & He)].
    - reflexivity.
    - rewrite (find_none_existsb _ _ He). reflexivity. }
  assert (Hall : forall verb results,
            Response.results r = Some results ->
            forallb Result.success results = true ->
            trace_of (EmployeeService.single_result verb (Some r) (ready ApperSDK this))
            = []
            /\ returned_record r = match results with
                                   | first :: _ => Result.data first
                                   | [] => VNull
                                   end).
  { intros verb results Hres Hok.
    rewrite (single_result_all_ok verb r results _ Hs Hres Hok).
    split; [reflexivity|].
    unfold returned_record. rewrite Hs, Hres.
    destruct results as [|first rest]; [reflexivity|].
    simpl in Hok. apply andb_true_iff in Hok as [Hf _]. simpl. rewrite Hf.
    reflexivity. }
  split; intros req Hsent Hr.
  - rewrite (create_is_save ApperSDK this) in *.
    pose proof (save_resolved ApperSDK this client Hc _ _ _ _ _ _ req r Hsent Hr) as E.
    split.
    + intros results Hres Hok. destruct (Hall "create" results Hres Hok) as [Ht Hv].
      rewrite E, Ht, Hv. reflexivity.
    + intros Hno. rewrite E, (Hnull Hno). reflexivity.
  - rewrite (update_is_save ApperSDK this) in *.
    pose proof (save_resolved ApperSDK this client Hc _ _ _ _ _ _ req r Hsent Hr) as E.
    split.
    + intros results Hres Hok. destruct (Hall "update" results Hres Hok) as [Ht Hv].
      rewrite E, Ht, Hv. reflexivity.
    + intros Hno. rewrite E, (Hnull Hno). reflexivity.
Qed.

Lemma X8_save_on_success_witness :
  EmployeeService.create None jane (service_with (Resolves (Some all_saved)))
  = (service_with (Resolves (Some all_saved)),
     [SdkCall (createRecord "employee_c" [jane_sent])], Normal jane_record)
  /\ completion_of (EmployeeService.update None (VNum (Int 7)) jane
                      (service_with (Resolves (Some none_saved))))
     = Normal VNull.
Proof.
  split.
  - destruct (X8_save_on_success None (service_with (Resolves (Some all_saved)))
                (answering (Resolves (Some all_saved))) (VNum (Int 7)) jane all_saved
                eq_refl eq_refl) as [Hcreate _].
    destruct (Hcreate (createRecord "employee_c" [jane_sent]) eq_refl eq_refl)
      as [Hall _].
    exact (Hall _ eq_refl eq_refl).
  - destruct (X8_save_on_success None (service_with (Resolves (Some none_saved)))
                (answering (Resolves (Some none_saved))) (VNum (Int 7)) jane none_saved
                eq_refl eq_refl) as [_ Hupdate].
    eapply Hupdate; [reflexivity | reflexivity |].
    right. eexists. split; reflexivity.
Defined.

(** ** The service: entries that failed *)

Lemma for_each_toasts {A} (f : A -> value) (items : list A) (s : EmployeeService.t) :
  for_each items (fun item => toast_error (f item)) s
  = (s, map (fun item => ToastError (f item)) items, Normal tt).
Proof.
  induction items as [|item rest IH]; [reflexivity|].
  cbn [for_each map].
  rewrite (bind_run (toast_error (f item)) _ s s [ToastError (f item)] tt eq_refl).
  cbv beta. rewrite IH. reflexivity.
Qed.

Lemma toast_failed_run (failed : list Result.t) (s : EmployeeService.t) :
  EmployeeService.toast_failed failed s = (s, failure_toasts failed, Normal tt).
Proof.
  unfold EmployeeService.toast_failed, failure_toasts.
  induction failed as [|record rest IH]; [reflexivity|].
  cbn [for_each flat_map].
  set (entries := match Result.errors record with
                  | Some errors =>
                      map (fun error =>
                             ToastError
                               (VStr (to_string (ErrorEntry.fieldLabel error) +:+ ": " +:+
                                      to_string (ErrorEntry.message error))))
                          errors
                  | None => []
                  end).
  set (own := if truthy (Result.message record)
              then [ToastError (Result.message record)] else []).
  assert (E1 : match Result.errors record with
               | Some errors =>
                   for_each errors (fun error =>
                     toast_error (S := EmployeeService.t)
                       (VStr (to_string (ErrorEntry.fieldLabel error) +:+ ": " +:+
                              to_string (ErrorEntry.message error))))
               | None => ret tt
               end s = (s, entries, Normal tt)).
  { subst entries. destruct (Result.errors record) as [errors|]; [|reflexivity].
    apply (for_each_toasts
             (fun error => VStr (to_string (ErrorEntry.fieldLabel error) +:+ ": " +:+
                                 to_string (ErrorEntry.message error)))). }
  assert (E2 : when (truthy (Result.message record))
                 (toast_error (S := EmployeeService.t) (Result.message record)) s
               = (s, own, Normal tt)).
  { subst own. destruct (truthy (Result.message record)); reflexivity. }
  rewrite (bind_run _ _ s s _ tt
             (eq_trans (bind_run _ _ s s entries tt E1)
                (f_equal3 (fun a b c => (a, b, c))
                   (f_equal state_of E2)
                   (f_equal (fun x => entries ++ trace_of x) E2)
                   (f_equal completion_of E2)))).
  cbv beta. rewrite IH. cbn [state_of trace_of completion_of fst snd].
  reflexivity.
Qed.

Lemma single_result_failed verb r results (s : EmployeeService.t) :
  Response.success r = true ->
  Response.results r = Some results ->
  let failed := List.filter (fun result => negb (Result.success result)) results in
  failed <> [] ->
  EmployeeService.single_result verb (Some r) s
  = (s, ConsoleErrorFailed verb failed :: failure_toasts failed,
     Normal (returned_record r)).
Proof.
  intros Hs Hres failed Hne.
  destruct (single_result_spec verb r s) as (trace & E & _).
  rewrite E. f_equal. f_equal.
  assert (Et : trace_of (EmployeeService.single_result verb (Some r) s) = trace)
    by (rewrite E; reflexivity).
  rewrite <- Et. clear E Et.
  unfold EmployeeService.single_result.
  simpl EmployeeService.deref. rewrite bind_ret, Hs, Hres.
  change (negb true) with false. cbv iota. fold failed.
  destruct failed as [|first rest] eqn:Ef; [contradiction|].
  change (0 <? length (first :: rest))%nat with true.
  change (when true ?m) with m.
  unfold bind, emit. rewrite toast_failed_run. cbn. rewrite app_nil_r.
  reflexivity.
Qed.

(** X20. When the response does not report failure but some entries of
    [results] failed, [create] and [update] log the failed entries once and
    show, entry by entry in their order, a toast "label: message" for each
    of the entry's errors and then the entry's own message if it has one;
    they still return the data of the first entry that succeeded, [null]
    if none did. *)
Theorem X20_save_reports_each_failure
    ApperSDK this client (id employeeData : value) r results :
  client_in_use ApperSDK this = Some client ->
  Response.success r = true ->
  Response.results r = Some results ->
  let failed := List.filter (fun result => negb (Result.success result)) results in
  let returned := match find Result.success results with
                  | Some entry => Result.data entry
                  | None => VNull
                  end in
  failed <> [] ->
  (forall req,
     sent (trace_of (EmployeeService.create ApperSDK employeeData this)) = [req] ->
     client req = Resolves (Some r) ->
     EmployeeService.create ApperSDK employeeData this
     = (ready ApperSDK this,
        SdkCall req :: ConsoleErrorFailed "create" failed :: failure_toasts failed,
        Normal returned))
  /\ (forall req,
        sent (trace_of (EmployeeService.update ApperSDK id employeeData this)) = [req] ->
        client req = Resolves (Some r) ->
        EmployeeService.update ApperSDK id employeeData this
        = (ready ApperSDK this,
           SdkCall req :: ConsoleErrorFailed "update" failed :: failure_toasts failed,
           Normal returned)).
Proof.
  intros Hc Hs Hres failed returned Hne.
  assert (Hv : returned_record r = returned).
  { unfold returned_record. rewrite Hs, Hres. reflexivity. }
  split; intros req Hsent Hr.
  - rewrite (create_is_save ApperSDK this) in *.
    rewrite (save_resolved ApperSDK this client Hc _ _ _ _ _ _ req r Hsent Hr).
    rewrite (single_result_failed "create" r results _ Hs Hres Hne), Hv.
    reflexivity.
  - rewrite (update_is_save ApperSDK this) in *.
    rewrite (save_resolved ApperSDK this client Hc _ _ _ _ _ _ req r Hsent Hr).
    rewrite (single_result_failed "update" r results _ Hs Hres Hne), Hv.
    reflexivity.
Qed.

Lemma X20_save_reports_each_failure_witness :
  toasts (trace_of (EmployeeService.create None jane
                      (service_with (Resolves (Some partly_saved)))))
  = [ToastError (VStr "Email: already in use");
     ToastError (VStr "Phone: too short");
     ToastError (VStr "Record not saved")]
  /\ completion_of (EmployeeService.create None jane
                      (service_with (Resolves (Some partly_saved))))
     = Normal jane_record.
Proof.
  destruct (X20_save_reports_each_failure None
              (service_with (Resolves (Some partly_saved)))
              (answering (Resolves (Some partly_saved))) (VNum (Int 7)) jane
              partly_saved _ eq_refl eq_refl eq_refl ltac:(discriminate))
    as [Hcreate _].
  rewrite (Hcreate (createRecord "employee_c" [jane_sent]) eq_refl eq_refl).
  split; reflexivity.
Defined.

(** * Further properties of the form *)

Lemma build_record_plain id employeeData (s : EmployeeService.t) record :
  EmployeeService.build_record id employeeData s = (s, [], Normal record) ->
  let given a b := or_else (prop employeeData a) (prop employeeData b) in
  email_c record = or_else (given "email_c" "email") (VStr "")
  /\ phone_c record = or_else (given "phone_c" "phone") (VStr "")
  /\ role_c record = or_else (given "role_c" "role") (VStr "")
  /\ hire_date_c record = or_else (given "hire_date_c" "hireDate") (VStr "")
  /\ status_c record = or_else (given "status_c" "status") (VStr "active")
  /\ avatar_c record = or_else (given "avatar_c" "avatar") (VStr "").
Proof.
  intros E given. pose proof (build_record_needs_object _ _ _ _ E) as Hn.
  unfold EmployeeService.build_record in E.
  rewrite (bind_object_get _ _ _ _ Hn) in E.
  apply bind_tame_inv in E; [|tame_steps]. destruct E as [Name_ [_ E]].
  rewrite (bind_object_get _ _ _ _ Hn) in E.
  apply bind_tame_inv in E; [|tame_steps]. destruct E as [first_ [_ E]].
  rewrite (bind_object_get _ _ _ _ Hn) in E.
  apply bind_tame_inv in E; [|tame_steps]. destruct E as [last_ [_ E]].
  do 14 rewrite (bind_object_get _ _ _ _ Hn) in E.
  inversion E. repeat split.
Qed.

Lemma or_else_status st :
  or_else (VStr st) (VStr "active")
  = VStr (if EmployeeModal.is_empty st then "active" else st).
Proof.
  unfold or_else, EmployeeModal.is_empty. simpl.
  destruct (String.eqb st ""); reflexivity.
Qed.

Lemma build_record_form id f (s : EmployeeService.t) :
  EmployeeService.build_record id (EmployeeModal.object_of f) s
  = (s, [], Normal (record_of_form id f)).
Proof.
  destruct (build_record_names id (EmployeeModal.object_of f) (EmployeeModal.fullName f) s
              eq_refl eq_refl eq_refl) as (record & Eb & Hid & HN & Hf & Hl).
  rewrite Eb. do 2 f_equal.
  destruct (build_record_plain _ _ _ _ Eb) as (He & Hp & Hr & Hh & Hs & Ha).
  destruct (build_record_department _ _ _ _ Eb) as [_ Hd].
  destruct record. simpl in *. subst.
  unfold record_of_form. f_equal.
  - apply or_else_text.
  - apply or_else_text.
  - apply or_else_text.
  - apply or_else_text.
  - apply or_else_status.
Qed.

Section SubmitRuns.
Import EmployeeModal.
Variable ApperSDK : option ApperClient.
Variable employee : value.

Lemma on_service_run {A} (m : js EmployeeService.t A) w :
  on_service m w
  = ({| formData := formData w; loading := loading w; errors := errors w;
        employeeService := state_of (m (employeeService w)) |},
     trace_of (m (employeeService w)), completion_of (m (employeeService w))).
Proof.
  unfold on_service. destruct (m (employeeService w)) as [[svc t] c]. reflexivity.
Qed.

Lemma try_finally_run {S A} (body : js S A) final s s2 t2 :
  final (state_of (body s)) = (s2, t2, Normal tt) ->
  try_finally body final s = (s2, trace_of (body s) ++ t2, completion_of (body s)).
Proof.
  intros Ef. unfold try_finally. destruct (body s) as [[s1 t1] c].
  unfold state_of in Ef. simpl in Ef. rewrite Ef. reflexivity.
Qed.

Lemma bind_throw_run {S A B} (m : js S A) (f : A -> js S B) s s1 t1 e :
  m s = (s1, t1, Throw e) -> (x <- m ;; f x) s = (s1, t1, Throw e).
Proof. intros Em. unfold bind. rewrite Em. reflexivity. Qed.

Lemma bind_ext {S A B} (m m' : js S A) (f : A -> js S B) s :
  m s = m' s -> (x <- m ;; f x) s = (x <- m' ;; f x) s.
Proof. intros E. unfold bind. rewrite E. reflexivity. Qed.

(** The call [handleSubmit] awaits, as the [try] block has it. *)
Lemma submit_call_run w s :
  (if truthy employee then
     id <- get employee "Id" ;;
     on_service (EmployeeService.update ApperSDK id (object_of (formData w))) ;;
     toast_success (VStr "Employee updated successfully")
   else
     on_service (EmployeeService.create ApperSDK (object_of (formData w))) ;;
     toast_success (VStr "Employee created successfully")) s
  = (on_service (service_call ApperSDK employee (formData w)) ;;
     toast_success (success_text employee)) s.
Proof.
  unfold service_call, success_text.
  destruct (truthy employee) eqn:Ht; [|reflexivity].
  rewrite (bind_object_get _ _ _ _ (truthy_not_nullish _ Ht)). reflexivity.
Qed.

Lemma submit_try_run w :
  let R := service_call ApperSDK employee (formData w) (employeeService w) in
  let w2 := {| formData := formData w; loading := true; errors := ∅;
               employeeService := employeeService w |} in
  try_catch
    ((if truthy employee then
        id <- get employee "Id" ;;
        on_service (EmployeeService.update ApperSDK id (object_of (formData w))) ;;
        toast_success (VStr "Employee updated successfully")
      else
        on_service (EmployeeService.create ApperSDK (object_of (formData w))) ;;
        toast_success (VStr "Employee created successfully")) ;;
     emit OnSuccess ;;
     emit OnClose ;;
     ret VUndefined)
    (fun error =>
       msg <- get error "message" ;;
       toast_error (or_else msg (VStr "Failed to save employee")) ;;
       ret VUndefined) w2
  = ({| formData := formData w; loading := true; errors := ∅;
        employeeService := state_of R |},
     trace_of R ++ fst (submit_end employee (completion_of R)),
     snd (submit_end employee (completion_of R))).
Proof.
  intros R w2.
  set (w3 := {| formData := formData w; loading := true; errors := ∅;
                employeeService := state_of R |}).
  assert (Eos : on_service (service_call ApperSDK employee (formData w)) w2
                = (w3, trace_of R, completion_of R)).
  { rewrite on_service_run. reflexivity. }
  destruct (completion_of R) as [v|e] eqn:EC.
  - apply try_catch_normal_run.
    rewrite (bind_ext _ _ _ _ (submit_call_run w w2)).
    assert (E1 : (on_service (service_call ApperSDK employee (formData w)) ;;
                  toast_success (success_text employee)) w2
                 = (w3, trace_of R ++ [ToastSuccess (success_text employee)], Normal tt)).
    { rewrite (bind_run _ _ _ _ _ _ Eos). reflexivity. }
    rewrite (bind_run _ _ _ _ _ _ E1). simpl submit_end. cbn [fst snd].
    rewrite <- app_assoc. reflexivity.
  - assert (E1 : (on_service (service_call ApperSDK employee (formData w)) ;;
                  toast_success (success_text employee)) w2
                 = (w3, trace_of R, Throw e)).
    { apply bind_throw_run. exact Eos. }
    assert (E2 :
      ((if truthy employee then
          id <- get employee "Id" ;;
          on_service (EmployeeService.update ApperSDK id (object_of (formData w))) ;;
          toast_success (VStr "Employee updated successfully")
        else
          on_service (EmployeeService.create ApperSDK (object_of (formData w))) ;;
          toast_success (VStr "Employee created successfully")) ;;
       emit OnSuccess ;; emit OnClose ;; ret VUndefined) w2
      = (w3, trace_of R, Throw e)).
    { rewrite (bind_ext _ _ _ _ (submit_call_run w w2)).
      apply bind_throw_run. exact E1. }
    rewrite (try_catch_throw_run _ _ _ _ _ _ E2). simpl submit_end.
    destruct (nullish e) eqn:Hn; cbn [fst snd].
    + unfold get. rewrite Hn. reflexivity.
    + rewrite (bind_object_get _ _ _ _ Hn). reflexivity.
Qed.

Lemma handleSubmit_valid_run w :
  newErrors (formData w) = ∅ ->
  let R := service_call ApperSDK employee (formData w) (employeeService w) in
  handleSubmit ApperSDK employee w
  = (submitted w (state_of R),
     PreventDefault :: trace_of R ++ fst (submit_end employee (completion_of R)),
     snd (submit_end employee (completion_of R))).
Proof.
  intros Hv R. unfold handleSubmit.
  rewrite (bind_normal get_state _ w w eq_refl).
  rewrite (bind_run (emit PreventDefault) _ w w [PreventDefault] tt eq_refl).
  rewrite (bind_run validateForm _ w _ _ _ (validateForm_spec w)), Hv.
  change (size (∅ : gmap string string) =? 0)%nat with true.
  change (negb true) with false. cbv iota.
  set (w2 := {| formData := formData w; loading := true; errors := ∅;
                employeeService := employeeService w |}).
  rewrite (bind_run (setLoading true) _ (with_errors w ∅) w2 [] tt eq_refl).
  pose proof (submit_try_run w) as Et. cbv zeta in Et. fold R w2 in Et.
  rewrite (try_finally_run _ (setLoading false) w2
             (submitted w (state_of R)) []); [| rewrite Et; reflexivity].
  rewrite Et, app_nil_r. reflexivity.
Qed.
End SubmitRuns.

(** ** What a submit sends, shows and leaves *)

Lemma sent_submit_end employee c : sent (fst (submit_end employee c)) = [].
Proof.
  destruct c as [v|e]; simpl; [reflexivity|]. destruct (nullish e); reflexivity.
Qed.

Lemma validated_no_errors w :
  completion_of (EmployeeModal.validateForm w) = Normal true ->
  EmployeeModal.newErrors (EmployeeModal.formData w) = ∅.
Proof.
  rewrite validateForm_spec. intros H. inversion H as [Hs].
  apply size_zero_empty. exact Hs.
Qed.

Section ServiceCall.
Variable ApperSDK : option ApperClient.
Variable employee : value.
Variable this : EmployeeService.t.

(** The call [handleSubmit] makes is a save of the record of the draft. *)
Lemma service_call_is_save f :
  service_call ApperSDK employee f this
  = if truthy employee then
      try_catch (save_body (Some (prop employee "Id")) (EmployeeModal.object_of f)
                   "updateRecord" "update" updateRecord)
        (save_catch "Error updating employee:") (ready ApperSDK this)
    else
      try_catch (save_body None (EmployeeModal.object_of f)
                   "createRecord" "create" createRecord)
        (save_catch "Error creating employee:") (ready ApperSDK this).
Proof.
  unfold service_call. destruct (truthy employee).
  - apply update_is_save.
  - apply create_is_save.
Qed.

Lemma service_call_sends client f :
  client_in_use ApperSDK this = Some client ->
  sent (trace_of (service_call ApperSDK employee f this))
  = [submit_request employee this f].
Proof.
  intros Hc. rewrite service_call_is_save. unfold submit_request.
  destruct (truthy employee).
  - destruct (save_run ApperSDK this client Hc (Some (prop employee "Id"))
                (EmployeeModal.object_of f) "updateRecord" "update" updateRecord
                "Error updating employee:")
      as [(e & args & Eb & _) | (record & trace & Eb & _ & Et & Hst & _)];
      rewrite build_record_form in Eb; inversion Eb; subst.
    rewrite Et. simpl. rewrite Hst. reflexivity.
  - destruct (save_run ApperSDK this client Hc None
                (EmployeeModal.object_of f) "createRecord" "create" createRecord
                "Error creating employee:")
      as [(e & args & Eb & _) | (record & trace & Eb & _ & Et & Hst & _)];
      rewrite build_record_form in Eb; inversion Eb; subst.
    rewrite Et. simpl. rewrite Hst. reflexivity.
Qed.

(** A method of the service throws nothing but the [TypeError] of its own
    [catch] block. *)
Lemma service_call_throws f e :
  completion_of (service_call ApperSDK employee f this) = Throw e ->
  nullish e = false.
Proof.
  rewrite service_call_is_save.
  assert (H : forall id data method verb mk prefix,
            completion_of (try_catch (save_body id data method verb mk)
                             (save_catch prefix) (ready ApperSDK this)) = Throw e ->
            nullish e = false).
  { intros id data method verb mk prefix Ht.
    destruct (client_in_use ApperSDK this) as [client|] eqn:Hc.
    - destruct (save_requests ApperSDK this id data method verb mk prefix)
        as [_ [Hnone | (record & Eb & Hreq)]].
      + destruct (save_run ApperSDK this client Hc id data method verb mk prefix)
          as [(e' & args & _ & E) | (record & trace & _ & _ & Et & _)].
        * rewrite E in Ht. discriminate.
        * rewrite Et in Hnone. discriminate.
      + destruct (client (mk (EmployeeService.tableName this) [record]))
          as [error|[r|]] eqn:Hr.
        * destruct (nullish error) eqn:Hn.
          -- destruct (save_rejected_nullish ApperSDK this client Hc id data method
                         verb mk prefix _ error Hreq Hr Hn) as [msg E].
             rewrite E in Ht. inversion Ht. reflexivity.
          -- pose proof (save_failed ApperSDK this client Hc id data method verb
                           mk prefix) as Hf. cbv zeta in Hf.
             rewrite Hf in Ht; [discriminate|].
             intros req Hin. rewrite Hreq in Hin. destruct Hin as [<-|[]].
             rewrite Hr. simpl. rewrite Hn. reflexivity.
        * rewrite (save_resolved ApperSDK this client Hc id data method verb mk
                     prefix _ r Hreq Hr) in Ht. discriminate.
        * destruct (save_run ApperSDK this client Hc id data method verb mk prefix)
            as [(e' & args & _ & E) | (record' & trace & Eb' & _ & _ & _ & Hcase)].
          -- rewrite E in Ht. discriminate.
          -- rewrite Eb in Eb'. inversion Eb'; subst record'.
             rewrite Hr in Hcase. destruct Hcase as [_ Hcase].
             rewrite Hcase in Ht. discriminate.
    - destruct (save_no_client ApperSDK this id data method verb mk prefix Hc)
        as [args E].
      rewrite E in Ht. discriminate. }
  destruct (truthy employee); apply H.
Qed.
End ServiceCall.

Section SubmitTheorems.
Variable ApperSDK : option ApperClient.
Variable employee : value.

Lemma toasts_submit_success t :
  toasts (PreventDefault :: t ++ [ToastSuccess (success_text employee); OnSuccess; OnClose])
  = toasts t ++ [ToastSuccess (success_text employee)].
Proof.
  change (toasts (PreventDefault :: ?x)) with (toasts x).
  unfold toasts. rewrite List.filter_app. reflexivity.
Qed.
End SubmitTheorems.

(** X9. A draft that validates is sent as it is: [handleSubmit] sends
    exactly one request, an update of [employee.Id] when there is an
    [employee] and a creation otherwise, whose record has the draft's full
    name as [Name] and split into first and last name, its email, phone,
    role and hire date unchanged, [parseInt] of its department, its status
    ("active" when empty) and an empty avatar. *)
Theorem X9_submit_sends_the_draft ApperSDK employee w client :
  completion_of (EmployeeModal.validateForm w) = Normal true ->
  client_in_use ApperSDK (EmployeeModal.employeeService w) = Some client ->
  sent (trace_of (EmployeeModal.handleSubmit ApperSDK employee w))
  = [submit_request employee (EmployeeModal.employeeService w)
       (EmployeeModal.formData w)].
Proof.
  intros Hv Hc.
  rewrite (handleSubmit_valid_run ApperSDK employee w (validated_no_errors w Hv)).
  rewrite trace_of_run.
  change (sent (PreventDefault :: ?x)) with (sent x).
  rewrite sent_app, sent_submit_end, app_nil_r.
  exact (service_call_sends ApperSDK employee _ client _ Hc).
Qed.

Lemma X9_submit_sends_the_draft_witness :
  sent (trace_of (EmployeeModal.handleSubmit None VNull
                    (dialog jane_draft (Resolves (Some saved)))))
  = [createRecord "employee_c" [record_of_form None jane_draft]]
  /\ first_name_c (record_of_form None jane_draft) = VStr "Jane"
  /\ department_id_c (record_of_form None jane_draft) = VNum (Int 12).
Proof.
  split; [|split; reflexivity].
  apply (X9_submit_sends_the_draft None VNull
           (dialog jane_draft (Resolves (Some saved)))
           (answering (Resolves (Some saved)))).
  - vm_compute. reflexivity.
  - reflexivity.
Defined.

(** X10. Once the draft validates, [handleSubmit] reports success whenever
    the call of the service returns, whatever it returns: the success toast
    is shown and the parent's [onSuccess] and [onClose] are called, in that
    order, after the events of the call. So when the store refuses the
    record, the user sees the store's message and then the success
    toast. *)
Theorem X10_submit_reports_success ApperSDK employee w :
  completion_of (EmployeeModal.validateForm w) = Normal true ->
  let R := service_call ApperSDK employee (EmployeeModal.formData w)
             (EmployeeModal.employeeService w) in
  (forall v,
     completion_of R = Normal v ->
     EmployeeModal.handleSubmit ApperSDK employee w
     = (submitted w (state_of R),
        PreventDefault :: trace_of R
          ++ [ToastSuccess (success_text employee); OnSuccess; OnClose],
        Normal VUndefined))
  /\ (forall client r,
        client_in_use ApperSDK (EmployeeModal.employeeService w) = Some client ->
        client (submit_request employee (EmployeeModal.employeeService w)
                  (EmployeeModal.formData w)) = Resolves (Some r) ->
        Response.success r = false ->
        toasts (trace_of (EmployeeModal.handleSubmit ApperSDK employee w))
        = [ToastError (Response.message r); ToastSuccess (success_text employee)]).
Proof.
  intros Hv R.
  pose proof (handleSubmit_valid_run ApperSDK employee w (validated_no_errors w Hv))
    as Erun. cbv zeta in Erun. fold R in Erun.
  split.
  - intros v HR. rewrite Erun, HR. reflexivity.
  - intros client r Hc Hr Hs.
    pose proof (service_call_sends ApperSDK employee _ client
                  (EmployeeModal.formData w) Hc) as Hsent. fold R in Hsent.
    assert (HR : completion_of R = Normal (returned_record r)
                 /\ toasts (trace_of R) = [ToastError (Response.message r)]).
    { subst R. rewrite service_call_is_save in *.
      destruct (truthy employee);
        destruct (save_answered ApperSDK _ client Hc _ _ _ _ _ _ _ r Hsent Hr)
          as [Ec Ht]; (split; [exact Ec | exact (Ht Hs)]). }
    destruct HR as [Ec Ht].
    rewrite Erun, Ec, trace_of_run. simpl submit_end. cbn [fst].
    rewrite toasts_submit_success, Ht. reflexivity.
Qed.

Lemma X10_submit_reports_success_witness :
  toasts (trace_of (EmployeeModal.handleSubmit None VNull
                      (dialog jane_draft (Resolves (Some refused)))))
  = [ToastError (VStr "Record does not exist");
     ToastSuccess (VStr "Employee created successfully")].
Proof.
  destruct (X10_submit_reports_success None VNull
              (dialog jane_draft (Resolves (Some refused))))
    as [_ Hrefused].
  - vm_compute. reflexivity.
  - apply (Hrefused (answering (Resolves (Some refused))) refused); reflexivity.
Defined.

(** X11. Once [validateForm] has accepted the draft, [handleSubmit] never
    throws, whatever the SDK does (the parent's [onSuccess] and [onClose]
    being taken as plain calls): it completes normally and leaves the
    dialog not loading, with no errors, the draft in place and the service
    with the client it worked with. *)
Theorem X11_valid_submit_never_throws ApperSDK employee w :
  completion_of (EmployeeModal.validateForm w) = Normal true ->
  completion_of (EmployeeModal.handleSubmit ApperSDK employee w) = Normal VUndefined
  /\ state_of (EmployeeModal.handleSubmit ApperSDK employee w)
     = submitted w (ready ApperSDK (EmployeeModal.employeeService w)).
Proof.
  intros Hv.
  rewrite (handleSubmit_valid_run ApperSDK employee w (validated_no_errors w Hv)).
  rewrite completion_of_run, state_of_run. split.
  - destruct (completion_of (service_call ApperSDK employee _ _)) as [v|e] eqn:Ec;
      [reflexivity|].
    simpl. rewrite (service_call_throws ApperSDK employee _ _ e Ec). reflexivity.
  - f_equal. rewrite service_call_is_save.
    destruct (truthy employee); apply save_requests.
Qed.

Lemma X11_valid_submit_never_throws_witness :
  completion_of (EmployeeModal.handleSubmit None VNull
                   (dialog jane_draft (Rejects VUndefined))) = Normal VUndefined
  /\ EmployeeModal.loading
       (state_of (EmployeeModal.handleSubmit None VNull
                    (dialog jane_draft (Rejects VUndefined)))) = false.
Proof.
  destruct (X11_valid_submit_never_throws None VNull
              (dialog jane_draft (Rejects VUndefined)))
    as [Hc Hstate]; [vm_compute; reflexivity|].
  split; [exact Hc|]. rewrite Hstate. reflexivity.
Defined.

(** X12. When the SDK rejects the call with [null] or [undefined], the
    service throws and [handleSubmit] catches it: one error toast is shown,
    no success toast, and neither [onSuccess] nor [onClose] is called. *)
Theorem X12_submit_on_rejection_with_nothing ApperSDK employee w client error :
  completion_of (EmployeeModal.validateForm w) = Normal true ->
  client_in_use ApperSDK (EmployeeModal.employeeService w) = Some client ->
  client (submit_request employee (EmployeeModal.employeeService w)
            (EmployeeModal.formData w)) = Rejects error ->
  nullish error = true ->
  exists msg,
    EmployeeModal.handleSubmit ApperSDK employee w
    = (submitted w (ready ApperSDK (EmployeeModal.employeeService w)),
       [PreventDefault;
        SdkCall (submit_request employee (EmployeeModal.employeeService w)
                   (EmployeeModal.formData w));
        ToastError (or_else (VStr msg) (VStr "Failed to save employee"))],
       Normal VUndefined).
Proof.
  intros Hv Hc Hr Hn.
  pose proof (service_call_sends ApperSDK employee _ client
                (EmployeeModal.formData w) Hc) as Hsent.
  assert (HR : exists msg,
            service_call ApperSDK employee (EmployeeModal.formData w)
              (EmployeeModal.employeeService w)
            = (ready ApperSDK (EmployeeModal.employeeService w),
               [SdkCall (submit_request employee (EmployeeModal.employeeService w)
                           (EmployeeModal.formData w))],
               Throw (TypeError msg))).
  { rewrite service_call_is_save in *.
    destruct (truthy employee);
      exact (save_rejected_nullish ApperSDK _ client Hc _ _ _ _ _ _ _ error
               Hsent Hr Hn). }
  destruct HR as [msg HR]. exists msg.
  rewrite (handleSubmit_valid_run ApperSDK employee w (validated_no_errors w Hv)), HR.
  reflexivity.
Qed.

Lemma X12_submit_on_rejection_with_nothing_witness :
  exists msg,
    toasts (trace_of (EmployeeModal.handleSubmit None VNull
                        (dialog jane_draft (Rejects VUndefined))))
    = [ToastError (or_else (VStr msg) (VStr "Failed to save employee"))].
Proof.
  destruct (X12_submit_on_rejection_with_nothing None VNull
              (dialog jane_draft (Rejects VUndefined))
              (answering (Rejects VUndefined)) VUndefined) as [msg E].
  - vm_compute. reflexivity.
  - reflexivity.
  - reflexivity.
  - reflexivity.
  - exists msg. rewrite E. reflexivity.
Defined.

(** ** Loading an employee into the form *)

Lemma or_else_textual d v : textual v = true -> or_else v (VStr d) = VStr (text_or d v).
Proof.
  unfold or_else, textual, text_or.
  destruct v as [| |b|[|z]|s|items|fields]; cbn [truthy]; intros H;
    try apply negb_true_iff in H; rewrite ?H; try reflexivity; try discriminate.
  destruct (String.eqb s ""); reflexivity.
Qed.

Lemma or_else_filled s v : s <> "" -> or_else (VStr s) v = VStr s.
Proof.
  intros H. unfold or_else. cbn [truthy].
  destruct (String.eqb_spec s ""); [contradiction | reflexivity].
Qed.

(** X18. The effect on [employee] sets nothing when there is no employee.
    For an employee whose text fields are strings or missing it loads the
    stored strings, the empty string where none is stored, "active" for a
    missing status, and as full name the stored [Name], or else the first
    and last names joined by a space and trimmed. *)
Theorem X18_employee_is_loaded employee :
  (truthy employee = false -> EmployeeModal.employee_draft employee = None)
  /\ (truthy employee = true ->
      textual (prop employee "Name") = true ->
      textual (prop employee "first_name_c") = true ->
      textual (prop employee "last_name_c") = true ->
      textual (prop employee "email_c") = true ->
      textual (prop employee "phone_c") = true ->
      textual (prop employee "role_c") = true ->
      textual (prop employee "hire_date_c") = true ->
      textual (prop employee "status_c") = true ->
      EmployeeModal.employee_draft employee
      = Some (EmployeeModal.object_of (loaded_form employee))).
Proof.
  unfold EmployeeModal.employee_draft. split.
  - intros ->. reflexivity.
  - intros -> HN Hf Hl He Hp Hr Hh Hs.
    unfold EmployeeModal.object_of, loaded_form.
    cbn [EmployeeModal.fullName EmployeeModal.email EmployeeModal.phone
         EmployeeModal.role EmployeeModal.departmentId EmployeeModal.hireDate
         EmployeeModal.status].
    rewrite (or_else_textual "" _ Hf), (or_else_textual "" _ Hl).
    cbn [to_string].
    rewrite (or_else_textual _ _ HN), (or_else_textual "" _ He),
      (or_else_textual "" _ Hp), (or_else_textual "" _ Hr),
      (or_else_textual "" _ Hh), (or_else_textual "active" _ Hs).
    reflexivity.
Qed.

Lemma X18_employee_is_loaded_witness :
  EmployeeModal.employee_draft jane_stored
  = Some (EmployeeModal.object_of (loaded_form jane_stored))
  /\ EmployeeModal.employee_draft VNull = None.
Proof.
  destruct (X18_employee_is_loaded jane_stored) as [_ Hload].
  destruct (X18_employee_is_loaded VNull) as [Hnone _].
  split; [apply Hload; reflexivity | apply Hnone; reflexivity].
Defined.

(** X19. An employee loaded into the form and handed unchanged to
    [update], as [handleSubmit] does, is sent back with its [Name], email,
    phone, role, hire date, status and department id (a safe integer) as
    stored; but the avatar is sent empty and the first and last names are
    derived anew from [Name], whatever was stored. *)
Theorem X19_edit_round_trip
    ApperSDK this client employee draft n e p r h st d :
  client_in_use ApperSDK this = Some client ->
  EmployeeModal.employee_draft employee = Some draft ->
  prop employee "Name" = VStr n -> n <> "" ->
  prop employee "email_c" = VStr e ->
  prop employee "phone_c" = VStr p ->
  prop employee "role_c" = VStr r ->
  prop employee "hire_date_c" = VStr h ->
  prop employee "status_c" = VStr st -> st <> "" ->
  prop employee "department_id_c" = VNum (Int d) -> isSafeInteger d = true ->
  exists record,
    records_sent (trace_of (EmployeeService.update ApperSDK (prop employee "Id")
                              draft this))
    = [record]
    /\ Id record = Some (prop employee "Id")
    /\ Name record = VStr n
    /\ email_c record = VStr e
    /\ phone_c record = VStr p
    /\ role_c record = VStr r
    /\ hire_date_c record = VStr h
    /\ status_c record = VStr st
    /\ department_id_c record = VNum (Int d)
    /\ avatar_c record = VStr ""
    /\ first_name_c record = VStr (hd "" (split " " n))
    /\ last_name_c record = VStr (join " " (tl (split " " n))).
Proof.
  intros Hc Hdraft HN Hn He Hp Hr Hh Hs Hst Hd _.
  set (f := {| EmployeeModal.fullName := n; EmployeeModal.email := e;
               EmployeeModal.phone := p; EmployeeModal.role := r;
               EmployeeModal.departmentId := or_else (VNum (Int d)) (VStr "");
               EmployeeModal.hireDate := h; EmployeeModal.status := st |}).
  assert (Hne : forall s : string, s <> "" -> String.eqb s "" = false).
  { intros s H. destruct (String.eqb_spec s ""); [contradiction | reflexivity]. }
  assert (Ed : draft = EmployeeModal.object_of f).
  { unfold EmployeeModal.employee_draft in Hdraft.
    destruct (truthy employee); [|discriminate].
    injection Hdraft as <-. rewrite HN, He, Hp, Hr, Hh, Hs, Hd.
    rewrite !or_else_text, (or_else_filled n _ Hn), (or_else_filled st _ Hst).
    reflexivity. }
  exists (record_of_form (Some (prop employee "Id")) f).
  split.
  - rewrite (update_is_save ApperSDK this), Ed.
    apply (save_sends_built ApperSDK this client _ _ _ _ _ _ _ Hc
             records_of_updateRecord).
    apply build_record_form.
  - unfold record_of_form, f.
    cbn [Id Name email_c phone_c role_c hire_date_c status_c
      department_id_c avatar_c first_name_c last_name_c
      EmployeeModal.fullName EmployeeModal.email EmployeeModal.phone
      EmployeeModal.role EmployeeModal.departmentId EmployeeModal.hireDate
      EmployeeModal.status].
    unfold EmployeeModal.is_empty. rewrite (Hne st Hst).
    repeat split.
    destruct (Z.eqb_spec d 0) as [->|Hd0].
    + reflexivity.
    + replace (or_else (or_else (VNum (Int d)) (VStr "")) (VNum (Int 0)))
        with (VNum (Int d)).
      * rewrite parseInt_integer. reflexivity.
      * unfold or_else. simpl. destruct (Z.eqb_spec d 0); [contradiction|].
        simpl. destruct (Z.eqb_spec d 0); [contradiction | reflexivity].
Qed.

Lemma X19_edit_round_trip_witness :
  exists record,
    records_sent (trace_of (EmployeeService.update None (VNum (Int 7))
                              (EmployeeModal.object_of (loaded_form jane_stored))
                              (service_with (Resolves (Some saved)))))
    = [record]
    /\ email_c record = VStr "jane@example.com"
    /\ department_id_c record = VNum (Int 12)
    /\ avatar_c record = VStr "".
Proof.
  destruct (X19_edit_round_trip None (service_with (Resolves (Some saved)))
              (answering (Resolves (Some saved))) jane_stored
              (EmployeeModal.object_of (loaded_form jane_stored))
              "Jane Doe" "jane@example.com" "555 0100" "Engineer" "2024-03-01"
              "inactive" 12)
    as (record & Hs & _ & _ & He & _ & _ & _ & _ & Hd & Ha & _);
    try reflexivity; try discriminate.
  exists record. auto.
Defined.

(** ** The form: exactly which drafts validate *)

Ltac insert_cases H :=
  lazymatch type of H with
  | (if ?c then _ else _) !! _ = _ =>
      destruct c;
      [ apply lookup_insert_Some in H as [[<- _] | [_ H]];
        [ simpl; tauto | insert_cases H ]
      | insert_cases H ]
  | _ => rewrite lookup_empty in H; discriminate
  end.

Lemma newErrors_keys f k message :
  EmployeeModal.newErrors f !! k = Some message -> In k required_names.
Proof.
  unfold EmployeeModal.newErrors, required_names. cbv zeta. intros H.
  insert_cases H.
Qed.

Lemma email_error_none f :
  email_error f = None <->
  blank (EmployeeModal.email f) = false
  /\ Regex.test EmployeeModal.email_pattern (EmployeeModal.email f) = true.
Proof.
  unfold email_error. rewrite is_empty_trim. split.
  - destruct (negb (EmployeeModal.is_empty (EmployeeModal.email f))
              && negb (Regex.test EmployeeModal.email_pattern (EmployeeModal.email f)))
      eqn:Hc; [discriminate|].
    destruct (blank (EmployeeModal.email f)) eqn:Hb; [discriminate|].
    intros _. split; [reflexivity|].
    apply andb_false_iff in Hc as [Hc|Hc].
    + apply negb_false_iff in Hc. unfold EmployeeModal.is_empty in Hc.
      apply String.eqb_eq in Hc. rewrite Hc in Hb. discriminate.
    + apply negb_false_iff, Hc.
  - intros [Hb Ht]. rewrite Ht, Hb, andb_false_r. reflexivity.
Qed.

(** X13. [validateForm] accepts exactly the drafts with no required field
    missing and an email of the shape [local@domain.tld]; the errors it
    records replace the earlier ones, bear only on the six required fields
    (never on [status]), and the email field is free of error exactly when
    the email has that shape. *)
Theorem X13_validateForm_accepts_exactly w :
  let f := EmployeeModal.formData w in
  (completion_of (EmployeeModal.validateForm w) = Normal true
   <-> missing f = false /\ email_shape (EmployeeModal.email f))
  /\ EmployeeModal.errors (state_of (EmployeeModal.validateForm w))
     = EmployeeModal.newErrors f
  /\ (forall k message,
        EmployeeModal.newErrors f !! k = Some message -> In k required_names)
  /\ (EmployeeModal.newErrors f !! "email" = None
      <-> email_shape (EmployeeModal.email f)).
Proof.
  intros f. subst f.
  set (f := EmployeeModal.formData w).
  assert (Hemail : EmployeeModal.newErrors f !! "email" = None <->
                   email_shape (EmployeeModal.email f)).
  { rewrite newErrors_email, email_error_none, test_email_shape. split.
    - intros [_ H]. exact H.
    - intros H. split; [|exact H].
      destruct (blank (EmployeeModal.email f)) eqn:Hb; [|reflexivity].
      pose proof H as H'. apply email_shape_demands in H' as (_ & _ & Hsp & _).
      destruct (EmployeeModal.email f) as [|c s] eqn:Ee.
      + destruct H as (a & b & c & E & _). destruct a; discriminate.
      + rewrite (blank_has_space (String c s)) in Hsp; [discriminate.. | exact Hb]. }
  refine (conj _ (conj eq_refl (conj (newErrors_keys f) Hemail))).
  rewrite validateForm_spec. fold f. split.
  - intros H. inversion H as [Hs]. apply size_zero_empty in Hs.
    assert (L : forall k, EmployeeModal.newErrors f !! k = None).
    { intros k. rewrite Hs. apply lookup_empty. }
    split; [|apply Hemail, L].
    unfold missing.
    pose proof (L "fullName") as H1. rewrite newErrors_fullName, is_empty_trim in H1.
    pose proof (L "email") as H2. rewrite newErrors_email in H2.
    apply email_error_none in H2 as [H2 _].
    pose proof (L "phone") as H3. rewrite newErrors_phone, is_empty_trim in H3.
    pose proof (L "role") as H4. rewrite newErrors_role, is_empty_trim in H4.
    pose proof (L "departmentId") as H5. rewrite newErrors_departmentId in H5.
    pose proof (L "hireDate") as H6. rewrite newErrors_hireDate in H6.
    fold f.
    destruct (blank (EmployeeModal.fullName f)); [discriminate|].
    rewrite H2.
    destruct (blank (EmployeeModal.phone f)); [discriminate|].
    destruct (blank (EmployeeModal.role f)); [discriminate|].
    destruct (negb (truthy (EmployeeModal.departmentId f))); [discriminate|].
    destruct (EmployeeModal.is_empty (EmployeeModal.hireDate f)); [discriminate|].
    reflexivity.
  - intros [Hm Hshape]. apply test_email_shape in Hshape.
    rewrite (complete_valid f Hm Hshape). reflexivity.
Qed.

Lemma X13_validateForm_accepts_exactly_witness :
  missing jane_draft = false /\ email_shape "jane@example.com".
Proof.
  destruct (X13_validateForm_accepts_exactly (dialog jane_draft (Resolves None)))
    as ([Hvalid _] & _).
  apply Hvalid. vm_compute. reflexivity.
Defined.

(** ** The form: typing into a field *)

Section Change.
Import EmployeeModal.

Lemma handleChange_run x v w :
  handleChange x v w
  = ({| formData := set_field x v (formData w);
        loading := loading w;
        errors := if has_error (errors w) (name_of x)
                  then <[name_of x := ""]> (errors w) else errors w;
        employeeService := employeeService w |},
     [], Normal tt).
Proof.
  unfold handleChange. rewrite (bind_normal get_state _ w w eq_refl).
  destruct (has_error (errors w) (name_of x)); reflexivity.
Qed.

Lemma name_of_inj x y : name_of x = name_of y -> x = y.
Proof. destruct x, y; simpl; intros H; try reflexivity; discriminate. Qed.

Lemma set_field_read x v f : prop (object_of (set_field x v f)) (name_of x) = VStr v.
Proof. destruct x; reflexivity. Qed.

Lemma set_field_other x y v f :
  x <> y ->
  prop (object_of (set_field x v f)) (name_of y) = prop (object_of f) (name_of y).
Proof. intros Hne. destruct x, y; try reflexivity; contradiction. Qed.

Lemma has_error_blanked (e : gmap string string) k : has_error (<[k := ""]> e) k = false.
Proof. unfold has_error. rewrite lookup_insert_eq. reflexivity. Qed.

Lemma has_error_insert_other (e : gmap string string) k k' m :
  k <> k' -> has_error (<[k := m]> e) k' = has_error e k'.
Proof. intros Hne. unfold has_error. rewrite lookup_insert_ne by exact Hne. reflexivity. Qed.

Lemma has_error_is_some (e : gmap string string) k :
  has_error e k = true -> is_Some (e !! k).
Proof. unfold has_error. destruct (e !! k); [eauto | discriminate]. Qed.
End Change.

(** X14. Typing [v] into the field [x] sets that field of the draft to [v]
    and leaves the six others alone; it blanks the error shown for [x] and
    no other, without adding or removing an entry of [errors]; it emits
    nothing and touches neither [loading] nor the service. *)
Theorem X14_handleChange_sets_one_field x v w :
  let w' := state_of (EmployeeModal.handleChange x v w) in
  EmployeeModal.handleChange x v w = (w', [], Normal tt)
  /\ prop (EmployeeModal.object_of (EmployeeModal.formData w')) (EmployeeModal.name_of x)
     = VStr v
  /\ (forall y, x <> y ->
        prop (EmployeeModal.object_of (EmployeeModal.formData w')) (EmployeeModal.name_of y)
        = prop (EmployeeModal.object_of (EmployeeModal.formData w))
            (EmployeeModal.name_of y))
  /\ EmployeeModal.has_error (EmployeeModal.errors w') (EmployeeModal.name_of x) = false
  /\ (forall k, k <> EmployeeModal.name_of x ->
        EmployeeModal.errors w' !! k = EmployeeModal.errors w !! k)
  /\ dom (EmployeeModal.errors w') = dom (EmployeeModal.errors w)
  /\ EmployeeModal.loading w' = EmployeeModal.loading w
  /\ EmployeeModal.employeeService w' = EmployeeModal.employeeService w.
Proof.
  intros w'. subst w'. rewrite handleChange_run, state_of_run. cbn [EmployeeModal.formData
    EmployeeModal.errors EmployeeModal.loading EmployeeModal.employeeService].
  refine (conj eq_refl (conj _ (conj _ (conj _ (conj _ (conj _ (conj eq_refl eq_refl))))))).
  - apply set_field_read.
  - intros y. apply set_field_other.
  - destruct (EmployeeModal.has_error (EmployeeModal.errors w) (EmployeeModal.name_of x))
      eqn:He; [apply has_error_blanked | exact He].
  - intros k Hk.
    destruct (EmployeeModal.has_error _ _); [|reflexivity].
    apply lookup_insert_ne. congruence.
  - destruct (EmployeeModal.has_error (EmployeeModal.errors w) (EmployeeModal.name_of x))
      eqn:He; [|reflexivity].
    apply has_error_is_some in He. rewrite dom_insert_L.
    apply subseteq_union_1_L, singleton_subseteq_l, elem_of_dom. exact He.
Qed.

Lemma X14_handleChange_sets_one_field_witness :
  prop (EmployeeModal.object_of
          (EmployeeModal.formData
             (state_of (EmployeeModal.handleChange EmployeeModal.Email "j@d.io"
                          (dialog jane_draft (Resolves None))))))
       "fullName"
  = VStr "Jane Doe".
Proof.
  destruct (X14_handleChange_sets_one_field EmployeeModal.Email "j@d.io"
              (dialog jane_draft (Resolves None))) as (_ & _ & Hother & _).
  etransitivity; [exact (Hother EmployeeModal.FullName ltac:(discriminate))|].
  reflexivity.
Defined.

(** X15. Changes compose as edits of a form should: of two changes of the
    same field the later one wins, and changes of different fields
    commute. *)
Theorem X15_handleChange_composes x y v1 v2 w :
  state_of (EmployeeModal.handleChange x v2
              (state_of (EmployeeModal.handleChange x v1 w)))
  = state_of (EmployeeModal.handleChange x v2 w)
  /\ (x <> y ->
      state_of (EmployeeModal.handleChange y v2
                  (state_of (EmployeeModal.handleChange x v1 w)))
      = state_of (EmployeeModal.handleChange x v1
                    (state_of (EmployeeModal.handleChange y v2 w)))).
Proof.
  rewrite !handleChange_run, !state_of_run.
  cbn [EmployeeModal.formData EmployeeModal.errors EmployeeModal.loading
       EmployeeModal.employeeService].
  split.
  - f_equal.
    + destruct x; reflexivity.
    + destruct (EmployeeModal.has_error (EmployeeModal.errors w) (EmployeeModal.name_of x))
        eqn:He.
      * rewrite has_error_blanked. reflexivity.
      * rewrite He. reflexivity.
  - intros Hne.
    assert (Hk : EmployeeModal.name_of x <> EmployeeModal.name_of y).
    { intros E. apply Hne, name_of_inj, E. }
    f_equal.
    + destruct x, y; try reflexivity; contradiction.
    + destruct (EmployeeModal.has_error (EmployeeModal.errors w) (EmployeeModal.name_of x))
        eqn:Hx;
      destruct (EmployeeModal.has_error (EmployeeModal.errors w) (EmployeeModal.name_of y))
        eqn:Hy;
      rewrite ?has_error_insert_other by congruence; rewrite ?Hx, ?Hy;
      try reflexivity.
      apply insert_insert_ne. congruence.
Qed.

Lemma X15_handleChange_composes_witness :
  state_of (EmployeeModal.handleChange EmployeeModal.Phone "1"
              (state_of (EmployeeModal.handleChange EmployeeModal.Email "j@d.io"
                           (dialog jane_draft (Resolves None)))))
  = state_of (EmployeeModal.handleChange EmployeeModal.Email "j@d.io"
                (state_of (EmployeeModal.handleChange EmployeeModal.Phone "1"
                             (dialog jane_draft (Resolves None))))).
Proof.
  destruct (X15_handleChange_composes EmployeeModal.Email EmployeeModal.Phone
              "j@d.io" "1" (dialog jane_draft (Resolves None))) as [_ Hcomm].
  apply Hcomm. discriminate.
Defined.

(** ** The form: closing *)

(** X16. Closing discards whatever was typed and every error, and closing
    twice is closing once; a dialog that was closed cannot be submitted as
    it stands: each of the six required fields is flagged and nothing
    reaches the service. *)
Theorem X16_handleClose_discards ApperSDK employee x v w :
  let closed := state_of (EmployeeModal.handleClose w) in
  state_of (EmployeeModal.handleClose (state_of (EmployeeModal.handleChange x v w)))
  = closed
  /\ state_of (EmployeeModal.handleClose closed) = closed
  /\ EmployeeModal.errors closed = ∅
  /\ EmployeeModal.handleSubmit ApperSDK employee closed
     = (with_errors closed (EmployeeModal.newErrors EmployeeModal.emptyForm),
        [PreventDefault], Normal VUndefined)
  /\ (forall k, In k required_names ->
        is_Some (EmployeeModal.newErrors EmployeeModal.emptyForm !! k)).
Proof.
  intros closed. subst closed.
  repeat (rewrite ?handleClose_resets, ?handleChange_run, ?state_of_run).
  cbn [EmployeeModal.formData EmployeeModal.errors EmployeeModal.loading
       EmployeeModal.employeeService].
  refine (conj eq_refl (conj eq_refl (conj eq_refl (conj _ _)))).
  - apply handleSubmit_invalid. apply missing_invalid. reflexivity.
  - intros k Hk. simpl in Hk.
    destruct Hk as [<-|[<-|[<-|[<-|[<-|[<-|[]]]]]]].
    + rewrite newErrors_fullName. eexists; reflexivity.
    + rewrite newErrors_email. eexists; reflexivity.
    + rewrite newErrors_phone. eexists; reflexivity.
    + rewrite newErrors_role. eexists; reflexivity.
    + rewrite newErrors_departmentId. eexists; reflexivity.
    + rewrite newErrors_hireDate. eexists; reflexivity.
Qed.

Lemma X16_handleClose_discards_witness :
  is_Some (EmployeeModal.newErrors EmployeeModal.emptyForm !! "role").
Proof.
  destruct (X16_handleClose_discards None VNull EmployeeModal.Email "j@d.io"
              (dialog jane_draft (Resolves None))) as (_ & _ & _ & _ & Hall).
  apply Hall. simpl. tauto.
Defined.

(** ** Names: nothing of [fullName] is lost *)

Lemma split_not_nil sep s : split sep s <> [].
Proof.
  induction s as [|c s IH]; simpl; [discriminate|].
  destruct (Ascii.eqb c sep); [discriminate|].
  destruct (split sep s); [contradiction | discriminate].
Qed.

Lemma join_cons sep p rest :
  rest <> [] -> join sep (p :: rest) = p +:+ sep +:+ join sep rest.
Proof. destruct rest; [contradiction | reflexivity]. Qed.

Lemma join_cons_char sep c p rest :
  join sep (String c p :: rest) = String c (join sep (p :: rest)).
Proof. destruct rest; reflexivity. Qed.

(** [s.split(' ').join(' ') === s] *)
Lemma join_split s : join " " (split " " s) = s.
Proof.
  induction s as [|c s IH]; [reflexivity|].
  cbn [split]. destruct (Ascii.eqb_spec c " ") as [->|Hc].
  - rewrite (join_cons _ _ _ (split_not_nil " " s)), IH. reflexivity.
  - pose proof (split_not_nil " " s) as Hne.
    destruct (split " " s) as [|piece rest]; [contradiction|].
    rewrite join_cons_char, IH. reflexivity.
Qed.

Lemma split_hd_no_sep sep s : has_char sep (hd "" (split sep s)) = false.
Proof.
  induction s as [|c s IH]; [reflexivity|].
  cbn [split]. destruct (Ascii.eqb c sep) eqn:Hc; [reflexivity|].
  pose proof (split_not_nil sep s) as Hne.
  destruct (split sep s) as [|piece rest]; [contradiction|].
  simpl in *. rewrite Hc, IH. reflexivity.
Qed.

Lemma split_tl_not_nil sep s : has_char sep s = true -> tl (split sep s) <> [].
Proof.
  induction s as [|c s IH]; [discriminate|].
  cbn [split has_char]. destruct (Ascii.eqb c sep) eqn:Hc.
  - intros _. simpl. apply split_not_nil.
  - simpl. intros H. specialize (IH H).
    destruct (split sep s) as [|piece rest]; [contradiction | exact IH].
Qed.

Lemma names_recompose s :
  let first := hd "" (split " " s) in
  let last := join " " (tl (split " " s)) in
  has_char " " first = false
  /\ (if has_char " " s then first +:+ " " +:+ last else first) = s
  /\ (has_char " " s = false -> last = "").
Proof.
  intros first last. subst first last.
  refine (conj (split_hd_no_sep " " s) (conj _ _)).
  - destruct (has_char " " s) eqn:Hs.
    + pose proof (join_split s) as Hj. pose proof (split_tl_not_nil " " s Hs) as Hne.
      destruct (split " " s) as [|piece rest]; [exfalso; apply Hne; reflexivity|].
      cbn [hd tl] in *. rewrite (join_cons _ _ _ Hne) in Hj. exact Hj.
    + rewrite (split_no_sep _ _ Hs). reflexivity.
  - intros Hs. rewrite (split_no_sep _ _ Hs). reflexivity.
Qed.

(** X17. The split of [fullName] into names loses nothing: [create] and
    [update], given a string [fullName] and no explicit names, each send
    one record whose first name holds no space; when [fullName] holds a
    space, first name, a space and last name put together give [fullName]
    back; when it holds none, the first name is [fullName] and the last
    name is empty. *)
Theorem X17_names_recompose
    ApperSDK this client (id employeeData : value) fullName :
  client_in_use ApperSDK this = Some client ->
  prop employeeData "fullName" = VStr fullName ->
  truthy (prop employeeData "first_name_c") = false ->
  truthy (prop employeeData "last_name_c") = false ->
  (exists record,
     records_sent (trace_of (EmployeeService.create ApperSDK employeeData this))
     = [record]
     /\ recomposes fullName record)
  /\ (exists record,
        records_sent (trace_of (EmployeeService.update ApperSDK id employeeData this))
        = [record]
        /\ recomposes fullName record).
Proof.
  intros Hc Hfull Hfirst Hlast.
  destruct (saves_send_names ApperSDK this client id employeeData fullName
              Hc Hfull Hfirst Hlast)
    as [(rc & Ec & _ & _ & Hfc & Hlc) (ru & Eu & _ & _ & Hfu & Hlu)].
  destruct (names_recompose fullName) as (H1 & H2 & H3).
  assert (Hre : forall record,
            first_name_c record = VStr (hd "" (split " " fullName)) ->
            last_name_c record = VStr (join " " (tl (split " " fullName))) ->
            recomposes fullName record).
  { intros record Hf Hl. eexists _, _.
    refine (conj Hf (conj Hl (conj H1 _))).
    destruct (has_char " " fullName); [exact H2 | split; [exact H2 | auto]]. }
  split; [exists rc | exists ru]; split; auto.
Qed.

Lemma X17_names_recompose_witness :
  exists record first last,
    records_sent (trace_of (EmployeeService.create None jane
                              (service_with (Resolves (Some saved)))))
    = [record]
    /\ first_name_c record = VStr first
    /\ last_name_c record = VStr last
    /\ first +:+ " " +:+ last = "Jane Doe".
Proof.
  destruct (X17_names_recompose None (service_with (Resolves (Some saved)))
              (answering (Resolves (Some saved))) (VNum (Int 7)) jane "Jane Doe"
              eq_refl eq_refl eq_refl eq_refl)
    as [(record & Es & first & last & Hf & Hl & _ & Hs) _].
  exists record, first, last. auto.
Defined.
